(** * mds-import: the two-stage annotator and its batch orchestrator

    A shallow embedding of [mds_import/annotator.py] and of
    [mds_import/downloader.py], with the HTTP session as [requests] and
    [urllib3] carry it out (retries, pauses, redirects), followed by the
    properties of the design document that can be stated over it.

    Python values are the ones [json.load] / [response.json()] produce.
    A dict is an association list in insertion order (Python dicts iterate
    in insertion order, and the text builder depends on it); the documents
    handled here come out of a JSON parser, so their keys are strings and
    occur once.  Strings are byte strings; the code looks inside one only
    to lower-case a file name and compare its suffix.  Exceptions are a
    result type, the network and the call log are threaded through a small
    state-and-error monad. *)

From Stdlib Require Import ZArith List String Ascii Bool Arith Lia.
From Stdlib Require Import Floats.PrimFloat.
From Stdlib Require DecimalString.
Import ListNotations.

Local Open Scope list_scope.
Local Open Scope string_scope.

#[local] Unset Elimination Schemes.

(** ** Python values *)

Inductive value : Type :=
| VNone
| VBool (b : bool)
| VInt (n : Z)
| VFloat (x : float)
| VStr (s : string)
| VList (l : list value)
| VDict (d : list (string * value)).

#[local] Set Elimination Schemes.

(** The exceptions that the modelled code can raise.  All of them derive
    from Python's [Exception], which is what the orchestrator catches. *)
Inductive exn : Type :=
| AssertionError
| KeyError
| IndexError
| TypeError
| AttributeError
| JSONDecodeError
| ConnectionError
| RetryError
| TooManyRedirects
| InvalidJSONError
| RuntimeError.

Inductive result (A : Type) : Type :=
| Ok (a : A)
| Raise (e : exn).

Arguments Ok {A} a.
Arguments Raise {A} e.

Definition rbind {A B : Type} (r : result A) (k : A -> result B) : result B :=
  match r with
  | Ok a => k a
  | Raise e => Raise e
  end.

Declare Scope result_scope.
Delimit Scope result_scope with result.
Notation "x <-- r ;; k" := (rbind r (fun x => k))
  (at level 61, r at next level, right associativity) : result_scope.

(** ** Dicts as ordered association lists *)

Fixpoint dict_get (k : string) (d : list (string * value)) : option value :=
  match d with
  | [] => None
  | (k', v) :: rest => if String.eqb k k' then Some v else dict_get k rest
  end.

(** [d[k] = v]: an existing key keeps its position, a new key goes last. *)
Fixpoint dict_set (k : string) (v : value) (d : list (string * value))
  : list (string * value) :=
  match d with
  | [] => [(k, v)]
  | (k', v') :: rest =>
      if String.eqb k k' then (k', v) :: rest else (k', v') :: dict_set k v rest
  end.

Definition dict_mem (k : string) (d : list (string * value)) : bool :=
  match dict_get k d with
  | Some _ => true
  | None => false
  end.

(** ** Python operations used by the source *)

(** [bool(v)], as used by [assert v] and [if v]. *)
Definition truthy (v : value) : bool :=
  match v with
  | VNone => false
  | VBool b => b
  | VInt n => negb (Z.eqb n 0)
  | VFloat x => negb (PrimFloat.eqb x 0%float)
  | VStr s => negb (String.eqb s "")
  | VList l => match l with [] => false | _ :: _ => true end
  | VDict d => match d with [] => false | _ :: _ => true end
  end.

(** [v[k]] for a string key [k]. *)
Definition getitem (v : value) (k : string) : result value :=
  match v with
  | VDict d =>
      match dict_get k d with
      | Some x => Ok x
      | None => Raise KeyError
      end
  | _ => Raise TypeError
  end.

Definition chars (s : string) : list value :=
  map (fun c => VStr (String c EmptyString)) (list_ascii_of_string s).

(** [v[0]].  A JSON dict has string keys only, so [0] is never a key. *)
Definition getitem0 (v : value) : result value :=
  match v with
  | VList (x :: _) => Ok x
  | VList [] => Raise IndexError
  | VStr (String c _) => Ok (VStr (String c EmptyString))
  | VStr EmptyString => Raise IndexError
  | VDict _ => Raise KeyError
  | _ => Raise TypeError
  end.

(** [len(v)]. *)
Definition len (v : value) : result nat :=
  match v with
  | VList l => Ok (List.length l)
  | VDict d => Ok (List.length d)
  | VStr s => Ok (String.length s)
  | _ => Raise TypeError
  end.

(** The elements visited by [for x in v]. *)
Definition iter (v : value) : result (list value) :=
  match v with
  | VList l => Ok l
  | VDict d => Ok (map (fun kv => VStr (fst kv)) d)
  | VStr s => Ok (chars s)
  | _ => Raise TypeError
  end.

(** [v.get(k, default)]: only dicts have the method. *)
Definition get (v : value) (k : string) (default : value) : result value :=
  match v with
  | VDict d =>
      match dict_get k d with
      | Some x => Ok x
      | None => Ok default
      end
  | _ => Raise AttributeError
  end.

(** [v.items()]. *)
Definition items (v : value) : result (list (string * value)) :=
  match v with
  | VDict d => Ok d
  | _ => Raise AttributeError
  end.

(** [':' + v]: only a string can be appended to a string. *)
Definition colon_plus (v : value) : result string :=
  match v with
  | VStr s => Ok (":" ++ s)
  | _ => Raise TypeError
  end.

(** [t += s] for a string [s]: string concatenation, or the in-place
    extension of a list by the characters of [s]. *)
Definition iadd_str (t : value) (s : string) : result value :=
  match t with
  | VStr t' => Ok (VStr (t' ++ s))
  | VList l => Ok (VList (l ++ chars s)%list)
  | _ => Raise TypeError
  end.

Definition str_of_Z (n : Z) : string :=
  DecimalString.NilZero.string_of_int (Z.to_int n).

(** ASCII lower-casing.  Python lower-cases by code point; on the bytes of
    a UTF-8 string the two agree wherever the result is compared with an
    ASCII suffix made of [.], [j], [s], [o], [n]. *)
Definition lower_ascii (c : ascii) : ascii :=
  let n := nat_of_ascii c in
  if (65 <=? n)%nat && (n <=? 90)%nat then ascii_of_nat (n + 32) else c.

Fixpoint lower (s : string) : string :=
  match s with
  | EmptyString => EmptyString
  | String c rest => String (lower_ascii c) (lower rest)
  end.

Definition endswith (s suffix : string) : bool :=
  let n := String.length s in
  let m := String.length suffix in
  (m <=? n)%nat && String.eqb (substring (n - m) m s) suffix.

(** ** HTTP responses *)

(** What the code and the libraries under it look at in a
    [requests.Response]: the status code, the result of [response.json()]
    ([None] when the body is not JSON, in which case the call raises),
    whether a [Retry-After] header is present (read by the retry policy
    only), and the URL that a non-empty [Location] header resolves to (read
    by the session when it follows redirects). *)
Record response : Type := {
  status_code : Z;
  json_body : option value;
  retry_after : bool;
  location : option string
}.

(** [response.ok]: [raise_for_status] raises for 400 <= status < 600. *)
Definition ok (r : response) : bool :=
  negb ((400 <=? status_code r)%Z && (status_code r <? 600)%Z).

(** [response.json()]. *)
Definition json (r : response) : result value :=
  match json_body r with
  | Some v => Ok v
  | None => Raise JSONDecodeError
  end.

(** ** The runtime the annotator runs against

    [send url body w] is [session.post(url, json=body)] in world [w]: it
    answers with a response or raises (a [requests] exception), and leaves a
    new world.  [repr] is Python's rendering of the values that an f-string
    does not print verbatim (floats, lists and dicts).  The two endpoints
    are computed at import time from the environment. *)
Class Runtime : Type := {
  World : Type;
  send : string -> value -> World -> result response * World;
  repr : value -> string;
  NEMOSERVE_ANNOTATE_ENDPOINT : string;
  SAPBERT_ANNOTATE_ENDPOINT : string
}.

Definition NEMOSERVE_MODEL_NAME : string := "token_classification".
Definition SAPBERT_MODEL_NAME : string := "sapbert".

(** One entry of the debug log: the request and what came back. *)
Record call : Type := {
  call_url : string;
  call_json : value;
  call_outcome : result response
}.

Record state `{Runtime} : Type := {
  world : World;
  calls : list call
}.

Definition M `{Runtime} (A : Type) : Type := state -> result A * state.

Definition ret `{Runtime} {A : Type} (a : A) : M A := fun s => (Ok a, s).

Definition raise `{Runtime} {A : Type} (e : exn) : M A := fun s => (Raise e, s).

Definition lift `{Runtime} {A : Type} (r : result A) : M A := fun s => (r, s).

Definition bind `{Runtime} {A B : Type} (m : M A) (k : A -> M B) : M B :=
  fun s =>
    match m s with
    | (Ok a, s') => k a s'
    | (Raise e, s') => (Raise e, s')
    end.

Declare Scope monad_scope.
Delimit Scope monad_scope with monad.
Notation "x <- m ;; k" := (bind m (fun x => k))
  (at level 61, m at next level, right associativity) : monad_scope.

(** [session.post(url, json=body)], with the request and its outcome
    recorded in the log. *)
Definition post `{Runtime} (url : string) (body : value) : M response :=
  fun s =>
    let (o, w) := send url body (world s) in
    (o, {| world := w;
           calls := (calls s ++ [{| call_url := url; call_json := body;
                                    call_outcome := o |}])%list |}).

(** What an f-string prints for [{v}]. *)
Definition format `{Runtime} (v : value) : string :=
  match v with
  | VStr s => s
  | VNone => "None"
  | VBool true => "True"
  | VBool false => "False"
  | VInt n => str_of_Z n
  | _ => repr v
  end.

(** ** [annotate_text] *)

Definition request (text : value) (model_name : string) : value :=
  VDict [("text", text); ("model_name", VStr model_name)].

(** Where control goes after one turn of the token loop: on to the next
    token with the Denotations collected so far, or out of the function
    with a return value. *)
Inductive flow : Type :=
| Continue (track_sapbert : list value)
| Return (v : list value).

Definition obj_of `{Runtime} (curie label distance_score : value) : string :=
  "MESH:" ++ format curie ++ " (" ++ format label ++ ", score: "
    ++ format distance_score ++ ")".

(** [dict(token)].  The token is a dict at this point: its ['text'] has
    been read. *)
Definition dict_copy (v : value) : result (list (string * value)) :=
  match v with
  | VDict d => Ok d
  | _ => Raise TypeError
  end.

(** The body of the loop over the recognizer's tokens (lines 56-87). *)
Definition annotate_token `{Runtime} (token : value) (track_sapbert : list value)
  : M flow :=
  (text <- lift (getitem token "text") ;;
   if negb (truthy text) then raise AssertionError
   else
     response <- post SAPBERT_ANNOTATE_ENDPOINT (request text SAPBERT_MODEL_NAME) ;;
     if negb (ok response) then ret (Return [])
     else
       result <- lift (json response) ;;
       if negb (truthy result) then raise AssertionError
       else
         n <- lift (len result) ;;
         if (0 <? n)%nat then
           closest_match <- lift (getitem0 result) ;;
           denotation <- lift (dict_copy token) ;;
           curie <- lift (getitem closest_match "curie") ;;
           label <- lift (getitem closest_match "label") ;;
           distance_score <- lift (getitem closest_match "distance_score") ;;
           ret (Continue
                  (track_sapbert ++
                     [VDict (dict_set "obj"
                               (VStr (obj_of curie label distance_score))
                               denotation)])%list)
         else ret (Continue track_sapbert))%monad.

Fixpoint annotate_tokens `{Runtime} (tokens : list value) (track_sapbert : list value)
  : M flow :=
  match tokens with
  | [] => ret (Continue track_sapbert)
  | token :: rest =>
      (f <- annotate_token token track_sapbert ;;
       match f with
       | Continue track_sapbert' => annotate_tokens rest track_sapbert'
       | Return v => ret (Return v)
       end)%monad
  end.

Definition annotate_text `{Runtime} (text : string) : M (list value) :=
  (response <- post NEMOSERVE_ANNOTATE_ENDPOINT
                 (request (VStr text) NEMOSERVE_MODEL_NAME) ;;
   if negb (ok response) then ret []
   else
     annotated <- lift (json response) ;;
     track_token_classification <- lift (getitem annotated "denotations") ;;
     tokens <- lift (iter track_token_classification) ;;
     f <- annotate_tokens tokens [] ;;
     match f with
     | Continue track_sapbert => ret track_sapbert
     | Return v => ret v
     end)%monad.

(** ** [annotate_dds] *)

Definition nl : string := String (ascii_of_nat 10) EmptyString.

(** Lines 116-123: the field list of a parsed document, in either of the
    two shapes found in the wild. *)
Definition fields_of_doc (doc : value) : result value :=
  (dd_outer <-- get doc "data_dictionary" (VDict []) ;;
   match dd_outer with
   | VList _ => Ok dd_outer
   | _ => get dd_outer "data_dictionary" (VDict [])
   end)%result.

(** Lines 131-133: [type] with [':' + format] appended when the field has a
    format.  Only logged, but computing it can raise. *)
Definition type_format (field : value) : result value :=
  (t <-- get field "type" (VStr "") ;;
   match field with
   | VDict d =>
       if dict_mem "format" d then
         f <-- getitem field "format" ;;
         s <-- colon_plus f ;;
         iadd_str t s
       else Ok t
   | _ => Raise AttributeError
   end)%result.

(** Lines 137-141: one line per encoding, in the dict's iteration order. *)
Definition encodings_as_str `{Runtime} (encodings : list (string * value)) : string :=
  fold_left
    (fun acc kv => acc ++ (fst kv ++ ": " ++ format (snd kv)) ++ nl)
    encodings "".

(** Lines 129-143: the field's name and the text sent to the annotator. *)
Definition text_to_annotate `{Runtime} (field : value) : result (value * string) :=
  (name <-- get field "name" (VStr "") ;;
   desc <-- get field "description" (VStr "") ;;
   _ <-- type_format field ;;
   encodings <-- get field "encodings" (VDict []) ;;
   kvs <-- items encodings ;;
   Ok (name, format name ++ ": " ++ format desc ++ nl ++ encodings_as_str kvs))%result.

(** The counters of the run; the two closing log lines print them. *)
Record summary : Type := {
  count_files : nat;
  count_fields : nat;
  count_annotations : nat;
  unannotated_fields : list string
}.

(** Lines 150-152, run inside the [try]: each annotation is counted and
    then logged; a failure while logging one ends the loop with that
    annotation counted. *)
Fixpoint count_logged (annotations : list value) (count : nat) : nat :=
  match annotations with
  | [] => count
  | annot :: rest =>
      match getitem annot "text", getitem annot "obj" with
      | Ok _, Ok _ => count_logged rest (S count)
      | _, _ => S count
      end
  end.

(** Line 148: the identifier under which a field is reported. *)
Definition field_id `{Runtime} (filename : string) (name : value) : string :=
  filename ++ ":" ++ format name.

(** Lines 128-156: one field.  Building the text happens before the [try];
    the call to the annotator and the bookkeeping of its result happen
    inside it, and [except Exception] only logs. *)
Definition annotate_field `{Runtime} (filename : string) (field : value)
  (acc : summary) : M summary :=
  let acc1 := {| count_files := count_files acc;
                 count_fields := S (count_fields acc);
                 count_annotations := count_annotations acc;
                 unannotated_fields := unannotated_fields acc |} in
  (prepared <- lift (text_to_annotate field) ;;
   fun s =>
     match annotate_text (snd prepared) s with
     | (Ok annotations, s') =>
         (Ok {| count_files := count_files acc1;
                count_fields := count_fields acc1;
                count_annotations :=
                  count_logged annotations (count_annotations acc1);
                unannotated_fields :=
                  if (List.length annotations =? 0)%nat
                  then (unannotated_fields acc1
                          ++ [field_id filename (fst prepared)])%list
                  else unannotated_fields acc1 |}, s')
     | (Raise _, s') => (Ok acc1, s')
     end)%monad.

Fixpoint annotate_fields `{Runtime} (filename : string) (fields : list value)
  (acc : summary) : M summary :=
  match fields with
  | [] => ret acc
  | field :: rest =>
      (acc' <- annotate_field filename field acc ;;
       annotate_fields filename rest acc')%monad
  end.

(** [json.load(fp)] on a file whose content parses to [Some doc], or does
    not parse. *)
Definition json_load (content : option value) : result value :=
  match content with
  | Some doc => Ok doc
  | None => Raise JSONDecodeError
  end.

(** Lines 108-156: one directory entry. *)
Definition annotate_file `{Runtime} (entry : string * option value)
  (acc : summary) : M summary :=
  if negb (endswith (lower (fst entry)) ".json") then ret acc
  else
    let acc1 := {| count_files := S (count_files acc);
                   count_fields := count_fields acc;
                   count_annotations := count_annotations acc;
                   unannotated_fields := unannotated_fields acc |} in
    (doc <- lift (json_load (snd entry)) ;;
     fields <- lift (fields_of_doc doc) ;;
     _ <- lift (len fields) ;;
     fs <- lift (iter fields) ;;
     annotate_fields (fst entry) fs acc1)%monad.

Fixpoint annotate_files `{Runtime} (listing : list (string * option value))
  (acc : summary) : M summary :=
  match listing with
  | [] => ret acc
  | entry :: rest =>
      (acc' <- annotate_file entry acc ;;
       annotate_files rest acc')%monad
  end.

(** [annotate_dds()] over the entries of [DD_INPUT_DIR] in [os.listdir]
    order, each with the outcome of parsing it.  The result is what the
    closing log lines report. *)
Definition annotate_dds `{Runtime} (listing : list (string * option value))
  : M summary :=
  annotate_files listing
    {| count_files := 0; count_fields := 0; count_annotations := 0;
       unannotated_fields := [] |}.

(** ** The shared session and its retry policy (lines 29-32)

    The wire is the list of requests sent so far, oldest first; a server is
    what answers the latest of them, knowing all that came before.  A
    request is answered with a response, or the connection cannot be
    established.  A call of the session prepares the request, sends it
    through the mounted adapter, which retries and pauses as its policy
    says, and follows redirects, each through the adapter again. *)

Inductive method : Type :=
| GET
| POST.

Definition method_eqb (a b : method) : bool :=
  match a, b with
  | GET, GET => true
  | POST, POST => true
  | _, _ => false
  end.

Record wire_request : Type := {
  wr_method : method;
  wr_url : string;
  wr_json : option value
}.

Inductive reply : Type :=
| Answer (r : response)
| Dropped.

Definition server : Type := list wire_request -> reply.

(** The arguments of [urllib3.util.retry.Retry] that the source sets.
    [total] is the number of retries allowed after the first attempt. *)
Record Retry : Type := {
  total : nat;
  backoff_factor : Z;
  allowed_methods : option (list method);
  status_forcelist : list Z
}.

Definition RETRY_AFTER_STATUS_CODES : list Z := [413; 429; 503]%Z.

Definition mem_Z (x : Z) (l : list Z) : bool := existsb (Z.eqb x) l.

(** [Retry._is_method_retryable]: [allowed_methods=None] allows any verb. *)
Definition is_method_retryable (policy : Retry) (m : method) : bool :=
  match allowed_methods policy with
  | None => true
  | Some [] => true
  | Some l => existsb (method_eqb m) l
  end.

(** [Retry.is_retry], with [remaining] the current value of [total]. *)
Definition is_retry (policy : Retry) (remaining : nat) (m : method) (r : response)
  : bool :=
  is_method_retryable policy m
  && (mem_Z (status_code r) (status_forcelist policy)
      || (negb (remaining =? 0)%nat && retry_after r
          && mem_Z (status_code r) RETRY_AFTER_STATUS_CODES)).

(** What the adapter does between two attempts: it sleeps for the backoff
    time, or, after a response with a [Retry-After] header, for the time the
    header asks for ([otherwise] is the backoff it falls back on when the
    header asks for none).  The seconds are those handed to [time.sleep]; a
    backoff of zero is no sleep at all. *)
Inductive pause : Type :=
| Backoff (seconds : Z)
| RetryAfter (otherwise : Z).

Definition DEFAULT_BACKOFF_MAX : Z := 120.

(** [Retry.get_backoff_time] after [failures] consecutive failed attempts:
    nothing after the first, then the factor times [2 ** (failures - 1)],
    capped. *)
Definition backoff_time (policy : Retry) (failures : nat) : Z :=
  if (failures <=? 1)%nat then 0%Z
  else Z.max 0 (Z.min DEFAULT_BACKOFF_MAX
                  (backoff_factor policy * 2 ^ (Z.of_nat failures - 1)))%Z.

(** [HTTPConnectionPool.urlopen] as driven by [HTTPAdapter.send]: send the
    request; a failure that the policy retries costs one unit of [total] and
    is followed by a pause, and when none is left the adapter raises
    ([RetryError] after a response, [ConnectionError] otherwise). *)
Fixpoint urlopen (srv : server) (policy : Retry) (remaining : nat)
  (req : wire_request) (wire : list wire_request) (pauses : list pause)
  : result response * list wire_request * list pause :=
  let wire' := (wire ++ [req])%list in
  let backoff := backoff_time policy (S (total policy - remaining)) in
  match srv wire' with
  | Dropped =>
      match remaining with
      | O => (Raise ConnectionError, wire', pauses)
      | S n => urlopen srv policy n req wire' (pauses ++ [Backoff backoff])%list
      end
  | Answer r =>
      if is_retry policy remaining (wr_method req) r then
        match remaining with
        | O => (Raise RetryError, wire', pauses)
        | S n =>
            urlopen srv policy n req wire'
              (pauses ++ [if retry_after r then RetryAfter backoff
                          else Backoff backoff])%list
        end
      else (Ok r, wire', pauses)
  end.

Definition HTTPAdapter_send (srv : server) (max_retries : Retry)
  (req : wire_request) (wire : list wire_request) (pauses : list pause)
  : result response * list wire_request * list pause :=
  urlopen srv max_retries (total max_retries) req wire pauses.

Definition REDIRECT_STATI : list Z := [301; 302; 303; 307; 308]%Z.

Definition DEFAULT_REDIRECT_LIMIT : nat := 30.

(** [Session.get_redirect_target]: where a response sends the client, if it
    is a redirect. *)
Definition redirect_target (r : response) : option string :=
  match location r with
  | Some target =>
      if mem_Z (status_code r) REDIRECT_STATI then Some target else None
  | None => None
  end.

(** [Session.rebuild_method]. *)
Definition rebuild_method (m : method) (status : Z) : method :=
  if (status =? 303)%Z || (status =? 302)%Z then GET
  else if (status =? 301)%Z && method_eqb m POST then GET
  else m.

(** The request that follows a redirect: the body goes along only with
    307 and 308. *)
Definition redirected (req : wire_request) (r : response) (target : string)
  : wire_request :=
  {| wr_method := rebuild_method (wr_method req) (status_code r);
     wr_url := target;
     wr_json := if mem_Z (status_code r) [307; 308]%Z then wr_json req else None |}.

(** [Session.send] with [allow_redirects=True], the default of
    [Session.request]: the adapter's response is followed while it is a
    redirect, at most [redirects] more times, each time through the adapter
    with its full retry budget. *)
Fixpoint resolve_redirects (srv : server) (policy : Retry) (redirects : nat)
  (req : wire_request) (wire : list wire_request) (pauses : list pause)
  : result response * list wire_request * list pause :=
  match HTTPAdapter_send srv policy req wire pauses with
  | (Ok r, wire', pauses') =>
      match redirect_target r with
      | Some target =>
          match redirects with
          | O => (Raise TooManyRedirects, wire', pauses')
          | S n =>
              resolve_redirects srv policy n (redirected req r target) wire' pauses'
          end
      | None => (Ok r, wire', pauses')
      end
  | (Raise e, wire', pauses') => (Raise e, wire', pauses')
  end.

Definition Session_send (srv : server) (policy : Retry) (req : wire_request)
  (wire : list wire_request)
  : result response * list wire_request * list pause :=
  resolve_redirects srv policy DEFAULT_REDIRECT_LIMIT req wire [].

(** [json.dumps(body, allow_nan=False)] succeeds: no float in the body is
    a NaN or an infinity. *)
Fixpoint finite_json (v : value) : bool :=
  match v with
  | VFloat x => PrimFloat.is_finite x
  | VList l => forallb finite_json l
  | VDict d => forallb (fun kv => finite_json (snd kv)) d
  | _ => true
  end.

(** Line 30: the policy mounted on the annotator's session. *)
Definition adapter : Retry :=
  {| total := 4; backoff_factor := 1; allowed_methods := None;
     status_forcelist := [429; 500; 502; 503; 504]%Z |}.

(** [session.post(url, json=body)] with what it sends and how it pauses.
    Preparing the request serialises the body, which fails before anything
    is sent when the body cannot be written as JSON. *)
Definition session_post_timed (srv : server) (url : string) (body : value)
  (wire : list wire_request)
  : result response * list wire_request * list pause :=
  if finite_json body then
    Session_send srv adapter
      {| wr_method := POST; wr_url := url; wr_json := Some body |} wire
  else (Raise InvalidJSONError, wire, []).

(** [session.post(url, json=body)]: the outcome and the wire. *)
Definition session_post (srv : server) (url : string) (body : value)
  (wire : list wire_request) : result response * list wire_request :=
  fst (session_post_timed srv url body wire).

(** The pauses that [session.post(url, json=body)] makes, in order. *)
Definition session_post_pauses (srv : server) (url : string) (body : value)
  (wire : list wire_request) : list pause :=
  snd (session_post_timed srv url body wire).

(** The adapter of a fresh [requests] session, as used by the module-level
    [requests.get]: [Retry(0, read=False)], whose default verbs include GET
    and exclude POST. *)
Definition DEFAULT_RETRIES : Retry :=
  {| total := 0; backoff_factor := 0; allowed_methods := Some [GET];
     status_forcelist := [] |}.

(** [requests.get(url)]: a fresh session with the default adapter. *)
Definition requests_get (srv : server) (url : string)
  (wire : list wire_request) : result response * list wire_request :=
  fst (Session_send srv DEFAULT_RETRIES
         {| wr_method := GET; wr_url := url; wr_json := None |} wire).

(** The annotator running over the wire through the shared session. *)
Definition live (srv : server) (render : value -> string)
  (nemoserve sapbert : string) : Runtime :=
  {| World := list wire_request;
     send := session_post srv;
     repr := render;
     NEMOSERVE_ANNOTATE_ENDPOINT := nemoserve;
     SAPBERT_ANNOTATE_ENDPOINT := sapbert |}.

(** ** The downloader's list request (downloader.py, lines 37-44) *)

Definition MDS_DEFAULT_LIMIT : Z := 1000.

Definition MDS_ENDPOINT : string := "https://preprod.healdata.org/mds/".

(** [urljoin] of the endpoint, which ends in a slash, with a relative
    reference made of a path segment and a query is their concatenation. *)
Definition DD_LIST_ENDPOINT (limit : Z) : string :=
  MDS_ENDPOINT ++ "metadata?_guid_type=data_dictionary&limit=" ++ str_of_Z limit.

Definition retrieve_dd_list (srv : server) (limit : Z)
  (wire : list wire_request) : result value * list wire_request :=
  match requests_get srv (DD_LIST_ENDPOINT limit) wire with
  | (Ok r, wire') =>
      if negb (ok r) then (Raise RuntimeError, wire') else (json r, wire')
  | (Raise e, wire') => (Raise e, wire')
  end.

(** ** Vocabulary for the statements about [annotate_text] *)

(** The tokens that [annotate_text] reads off a recognizer response
    (lines 48, 54 and 55). *)
Definition tokens_of (r : response) : result (list value) :=
  (annotated <-- json r ;;
   track_token_classification <-- getitem annotated "denotations" ;;
   iter track_token_classification)%result.

(** The curie, label and score that [annotate_text] reads off a normalizer
    response (lines 71-80). *)
Definition closest_match_of (r : response) : result (value * value * value) :=
  (result <-- json r ;;
   if negb (truthy result) then Raise AssertionError
   else
     _ <-- len result ;;
     closest_match <-- getitem0 result ;;
     curie <-- getitem closest_match "curie" ;;
     label <-- getitem closest_match "label" ;;
     distance_score <-- getitem closest_match "distance_score" ;;
     Ok (curie, label, distance_score))%result.

(** A recognizer response on which one of the reads of lines 48-55
    raises, with the exception raised. *)
Inductive malformed_recognizer (r : response) : exn -> Prop :=
| MR_not_json :
    json_body r = None ->
    malformed_recognizer r JSONDecodeError
| MR_no_denotations (annotated : value) (e : exn) :
    json_body r = Some annotated ->
    getitem annotated "denotations" = Raise e ->
    malformed_recognizer r e
| MR_not_iterable (annotated denotations : value) (e : exn) :
    json_body r = Some annotated ->
    getitem annotated "denotations" = Ok denotations ->
    iter denotations = Raise e ->
    malformed_recognizer r e.

(** A normalizer response on which one of the reads of lines 71-80
    raises, with the exception raised. *)
Inductive malformed_normalizer (r : response) : exn -> Prop :=
| MN_not_json :
    json_body r = None ->
    malformed_normalizer r JSONDecodeError
| MN_empty (result : value) :
    json_body r = Some result ->
    truthy result = false ->
    malformed_normalizer r AssertionError
| MN_not_sized (result : value) (e : exn) :
    json_body r = Some result ->
    truthy result = true ->
    len result = Raise e ->
    malformed_normalizer r e
| MN_no_first (result : value) (e : exn) :
    json_body r = Some result ->
    truthy result = true ->
    getitem0 result = Raise e ->
    (forall e', len result <> Raise e') ->
    malformed_normalizer r e
| MN_field (result closest_match : value) (k : string) (e : exn) :
    json_body r = Some result ->
    truthy result = true ->
    getitem0 result = Ok closest_match ->
    In k ["curie"; "label"; "distance_score"] ->
    getitem closest_match k = Raise e ->
    malformed_normalizer r e.

(** The ways in which the turn of the loop for [token] raises in state
    [s] once the normalizer has answered or before it is asked; [s'] is the
    state they leave. *)
Inductive hard_failure `{Runtime} (token : value) (s s' : state) : exn -> Prop :=
| HF_no_text (e : exn) :
    getitem token "text" = Raise e ->
    s' = s ->
    hard_failure token s s' e
| HF_empty_text (text : value) :
    getitem token "text" = Ok text ->
    truthy text = false ->
    s' = s ->
    hard_failure token s s' AssertionError
| HF_malformed (text : value) (r : response) (e : exn) :
    getitem token "text" = Ok text ->
    truthy text = true ->
    post SAPBERT_ANNOTATE_ENDPOINT (request text SAPBERT_MODEL_NAME) s = (Ok r, s') ->
    ok r = true ->
    malformed_normalizer r e ->
    hard_failure token s s' e.

Inductive Forall3 {A B C : Type} (R : A -> B -> C -> Prop)
  : list A -> list B -> list C -> Prop :=
| Forall3_nil : Forall3 R [] [] []
| Forall3_cons (a : A) (b : B) (c : C) (la : list A) (lb : list B) (lc : list C) :
    R a b c -> Forall3 R la lb lc -> Forall3 R (a :: la) (b :: lb) (c :: lc).

(** ** Vocabulary for the statements about [annotate_dds] *)

(** The summary after a field has been counted and nothing else recorded. *)
Definition counted (acc : summary) : summary :=
  {| count_files := count_files acc;
     count_fields := S (count_fields acc);
     count_annotations := count_annotations acc;
     unannotated_fields := unannotated_fields acc |}.

Definition is_json (entry : string * option value) : bool :=
  endswith (lower (fst entry)) ".json".

(** The fields that [annotate_dds] finds in one directory entry (lines
    108-127): none in an entry that is skipped. *)
Definition entry_fields (entry : string * option value) : result (list value) :=
  if negb (is_json entry) then Ok []
  else
    (doc <-- json_load (snd entry) ;;
     fields <-- fields_of_doc doc ;;
     _ <-- len fields ;;
     iter fields)%result.

Definition fields_in (entry : string * option value) : list value :=
  match entry_fields entry with
  | Ok fields => fields
  | Raise _ => []
  end.

(** Every entry can be read and every field's text can be built: nothing
    outside the call to the annotator raises. *)
Definition readable `{Runtime} (listing : list (string * option value)) : Prop :=
  Forall
    (fun entry =>
       exists fields,
         entry_fields entry = Ok fields
         /\ Forall (fun field => exists p, text_to_annotate field = Ok p) fields)
    listing.

(** [id] identifies a field of [filename] on whose text the annotator, in
    some state, returned the empty sequence. *)
Definition returned_empty `{Runtime} (filename : string) (field : value)
  (id : string) : Prop :=
  exists name text s1 s2,
    text_to_annotate field = Ok (name, text)
    /\ id = field_id filename name
    /\ annotate_text text s1 = (Ok [], s2).

(** ** The downloader (downloader.py)

    [urljoin] is [urllib.parse.urljoin] and [sub_nonword] is
    [re.sub(r"\W", '_', s)]; both are library functions whose result on an
    arbitrary identifier depends on tables that are not part of this
    repository, so the downloader takes them as parameters.  The output
    directory is cleared when a download starts; what the download does to
    it is the sequence of documents it dumps, each under its path. *)

Definition DD_OUTPUT_DIR : string := "data/dictionaries".

(** [s.startswith(prefix)]. *)
Definition startswith (s prefix : string) : bool := String.prefix prefix s.

(** [os.path.join(a, b)] on a POSIX system, for a directory [a] that is not
    empty and does not end in a slash: an absolute [b] replaces [a]. *)
Definition path_join (a b : string) : string :=
  match b with
  | String "/"%char _ => b
  | _ => a ++ "/" ++ b
  end.

Module Downloader.

(** The wire and the documents dumped so far, oldest first. *)
Record store : Type := {
  wire : list wire_request;
  written : list (string * value)
}.

(** The two counters of [download_dds]; its closing log line prints them. *)
Record report : Type := {
  count_dds : nat;
  count_fields : nat
}.

Section Library.
Variable urljoin : string -> string -> string.
Variable sub_nonword : string -> string.
Variable srv : server.

(** Lines 25-33. *)
Definition retrieve_dd (drs_uri : string) (w : list wire_request)
  : result value * list wire_request :=
  if negb (startswith drs_uri "dg.H34L/") then (Raise AssertionError, w)
  else
    match requests_get srv (urljoin MDS_ENDPOINT ("metadata/" ++ drs_uri)) w with
    | (Ok r, w') =>
        if negb (ok r) then (Raise RuntimeError, w') else (json r, w')
    | (Raise e, w') => (Raise e, w')
    end.

(** Line 61: the path a dictionary is dumped under. *)
Definition filename_of (dd_uri : string) : string :=
  path_join DD_OUTPUT_DIR (sub_nonword dd_uri ++ ".json").

(** Lines 59-69: one identifier of the list.  [re.sub] wants a string; the
    document is dumped before its field list is measured. *)
Definition download_dd (dd_uri : value) (acc : report) (st : store)
  : result report * store :=
  match dd_uri with
  | VStr uri =>
      match retrieve_dd uri (wire st) with
      | (Ok dd, w') =>
          let st' := {| wire := w';
                        written := (written st ++ [(filename_of uri, dd)])%list |} in
          match (fields <-- getitem dd "data_dictionary" ;; len fields)%result with
          | Ok _ =>
              (Ok {| count_dds := S (count_dds acc);
                     count_fields := S (count_fields acc) |}, st')
          | Raise e => (Raise e, st')
          end
      | (Raise e, w') => (Raise e, {| wire := w'; written := written st |})
      end
  | _ => (Raise TypeError, st)
  end.

Fixpoint download_loop (dds : list value) (acc : report) (st : store)
  : result report * store :=
  match dds with
  | [] => (Ok acc, st)
  | dd_uri :: rest =>
      match download_dd dd_uri acc st with
      | (Ok acc', st') => download_loop rest acc' st'
      | (Raise e, st') => (Raise e, st')
      end
  end.

(** Lines 48-71, started on wire [w] with the output directory emptied. *)
Definition download_dds (w : list wire_request) : result report * store :=
  match retrieve_dd_list srv MDS_DEFAULT_LIMIT w with
  | (Ok dds, w') =>
      let st := {| wire := w'; written := [] |} in
      match (_ <-- len dds ;; iter dds)%result with
      | Ok uris => download_loop uris {| count_dds := 0; count_fields := 0 |} st
      | Raise e => (Raise e, st)
      end
  | (Raise e, w') => (Raise e, {| wire := w'; written := [] |})
  end.

End Library.

End Downloader.

(** ** Vocabulary for further statements *)

(** A Denotation that the logging loop of [annotate_dds] can print. *)
Definition has_text_and_obj (annotation : value) : Prop :=
  exists text obj,
    getitem annotation "text" = Ok text /\ getitem annotation "obj" = Ok obj.

(** [c] is the request that [annotate_text] sends to the normalizer for
    [token]. *)
Definition normalizer_request `{Runtime} (token : value) (c : call) : Prop :=
  exists text,
    getitem token "text" = Ok text
    /\ call_url c = SAPBERT_ANNOTATE_ENDPOINT
    /\ call_json c = request text SAPBERT_MODEL_NAME.

(** The value a field holds under [k], or [default] when it has none. *)
Definition field_value (d : list (string * value)) (k : string) (default : value)
  : value :=
  match dict_get k d with
  | Some v => v
  | None => default
  end.

(** The fields whose text [annotate_dds] can build: a format, when present,
    is a string and is appended to a type that is a string or a list; the
    encodings, when present, are a mapping. *)
Definition preparable (d : list (string * value)) : bool :=
  match dict_get "format" d with
  | None => true
  | Some (VStr _) =>
      match field_value d "type" (VStr "") with
      | VStr _ | VList _ => true
      | _ => false
      end
  | Some _ => false
  end
  && match field_value d "encodings" (VDict []) with
     | VDict _ => true
     | _ => false
     end.

(** An attempt that the session's policy answers with another attempt: the
    connection failed, or the status is on the policy's list. *)
Definition retried (answer : reply) : Prop :=
  match answer with
  | Dropped => True
  | Answer r => mem_Z (status_code r) (status_forcelist adapter) = true
  end.

(** What the session raises when its last attempt ended in [answer]. *)
Definition exhausted (answer : reply) : exn :=
  match answer with
  | Dropped => ConnectionError
  | Answer _ => RetryError
  end.

(** The identifiers the metadata service may list and [download_dds] can
    fetch: strings that start with the expected prefix. *)
Definition fetchable (dd_uri : value) : Prop :=
  exists uri, dd_uri = VStr uri /\ startswith uri "dg.H34L/" = true.

(** A document whose field list [download_dds] can measure. *)
Definition measurable (dd : value) : Prop :=
  exists fields n, getitem dd "data_dictionary" = Ok fields /\ len fields = Ok n.

(** A logged request that names the recognizer's model. *)
Definition is_recognizer_call (c : call) : bool :=
  match getitem (call_json c) "model_name" with
  | Ok (VStr model_name) => String.eqb model_name NEMOSERVE_MODEL_NAME
  | _ => false
  end.

(** The seconds a pause falls back on when no header decides. *)
Definition fallback (p : pause) : Z :=
  match p with
  | Backoff seconds => seconds
  | RetryAfter otherwise => otherwise
  end.

(** ** What the services owe the annotator

    The shapes of the two response bodies, as the request and response
    contracts describe them, stated on the parsed body alone. *)

(** What an f-string writes for a value: a string as it is, [None] and the
    booleans by name, an integer in decimal, and a float, a list or a dict
    as Python's [repr] renders it. *)
Inductive prints `{Runtime} : value -> string -> Prop :=
| prints_str (s : string) : prints (VStr s) s
| prints_none : prints VNone "None"
| prints_true : prints (VBool true) "True"
| prints_false : prints (VBool false) "False"
| prints_int (n : Z) :
    prints (VInt n) (DecimalString.NilZero.string_of_int (Z.to_int n))
| prints_float (x : float) : prints (VFloat x) (repr (VFloat x))
| prints_list (l : list value) : prints (VList l) (repr (VList l))
| prints_dict (d : list (string * value)) : prints (VDict d) (repr (VDict d)).

(** The recognizer's body is an object whose [denotations] is a list. *)
Definition recognizer_shape (r : response) : Prop :=
  exists d tokens,
    json_body r = Some (VDict d)
    /\ dict_get "denotations" d = Some (VList tokens).

(** The recognizer's body is an object whose [denotations] is not a list
    but an empty string or an empty object. *)
Definition empty_denotations (r : response) : Prop :=
  exists d,
    json_body r = Some (VDict d)
    /\ (dict_get "denotations" d = Some (VStr "")
        \/ dict_get "denotations" d = Some (VDict [])).

(** A token is an object with a [text]. *)
Definition token_shape (token : value) : Prop :=
  exists d text, token = VDict d /\ dict_get "text" d = Some text.

(** The normalizer's body is a non-empty list whose first element is an
    object with a [curie], a [label] and a [distance_score]. *)
Definition normalizer_shape (r : response) : Prop :=
  exists d others curie label distance_score,
    json_body r = Some (VList (VDict d :: others))
    /\ dict_get "curie" d = Some curie
    /\ dict_get "label" d = Some label
    /\ dict_get "distance_score" d = Some distance_score.

(** A status for which [raise_for_status] raises: a client or a server
    error. *)
Definition error_status (r : response) : Prop :=
  (400 <= status_code r < 600)%Z.

(** From world [w] on, the normalizer is asked about the tokens in turn
    and answers each request with a response that is not an error and whose
    body is a non-empty candidate list; the first candidate of each has the
    curie, label and score listed, and [w'] is the world after the last
    answer.  Every token is an object whose text is a non-empty string. *)
Inductive normalizer_matches `{Runtime}
  : list value -> World -> list (value * value * value) -> World -> Prop :=
| matches_nil (w : World) : normalizer_matches [] w [] w
| matches_cons (token : list (string * value)) (text : string) (r : response)
    (closest_match : list (string * value)) (others : list value)
    (curie label distance_score : value)
    (rest : list value) (matches : list (value * value * value))
    (w w1 w2 : World) :
    dict_get "text" token = Some (VStr text) ->
    text <> "" ->
    send SAPBERT_ANNOTATE_ENDPOINT
      (VDict [("text", VStr text); ("model_name", VStr "sapbert")]) w = (Ok r, w1) ->
    ~ error_status r ->
    json_body r = Some (VList (VDict closest_match :: others)) ->
    dict_get "curie" closest_match = Some curie ->
    dict_get "label" closest_match = Some label ->
    dict_get "distance_score" closest_match = Some distance_score ->
    normalizer_matches rest w1 matches w2 ->
    normalizer_matches (VDict token :: rest) w
      ((curie, label, distance_score) :: matches) w2.

(** [denotation] is a copy of [token] with an [obj] added: every other
    field is the token's, [obj] is the string made of the prefix, the
    printed curie, the printed label and the printed score, and when the
    token had no [obj] the new field comes last. *)
Definition denotation_of `{Runtime} (token : value)
  (closest : value * value * value) (denotation : value) : Prop :=
  exists d dd curie label score,
    token = VDict d
    /\ denotation = VDict dd
    /\ prints (fst (fst closest)) curie
    /\ prints (snd (fst closest)) label
    /\ prints (snd closest) score
    /\ dict_get "obj" dd
       = Some (VStr ("MESH:" ++ curie ++ " (" ++ label ++ ", score: " ++ score ++ ")"))
    /\ (forall k, k <> "obj" -> dict_get k dd = dict_get k d)
    /\ (dict_get "obj" d = None ->
        dd = (d ++ [("obj",
                     VStr ("MESH:" ++ curie ++ " (" ++ label ++ ", score: "
                             ++ score ++ ")"))])%list).

(** ** What the annotator did in a run

    Every field met in a run, in order: the file it is in, its name, and
    what [annotate_text] returned or raised on its text in the state the run
    had reached. *)
Record outcome : Type := {
  in_file : string;
  named : value;
  returned : result (list value)
}.

Fixpoint fields_outcomes `{Runtime} (filename : string) (fields : list value)
  (s : state) : list outcome * state :=
  match fields with
  | [] => ([], s)
  | field :: rest =>
      match text_to_annotate field with
      | Ok prepared =>
          let (o, s1) := annotate_text (snd prepared) s in
          let (outcomes, s2) := fields_outcomes filename rest s1 in
          ({| in_file := filename; named := fst prepared; returned := o |}
             :: outcomes, s2)
      | Raise _ => ([], s)
      end
  end.

Fixpoint run_outcomes `{Runtime} (listing : list (string * option value))
  (s : state) : list outcome * state :=
  match listing with
  | [] => ([], s)
  | entry :: rest =>
      let (first, s1) := fields_outcomes (fst entry) (fields_in entry) s in
      let (others, s2) := run_outcomes rest s1 in
      ((first ++ others)%list, s2)
  end.

(** The annotator returned the empty sequence. *)
Definition returned_nothing (o : outcome) : bool :=
  match returned o with
  | Ok [] => true
  | _ => false
  end.

(** The number of Denotations the annotator returned. *)
Definition returned_count (o : outcome) : nat :=
  match returned o with
  | Ok annotations => List.length annotations
  | Raise _ => 0
  end.

(** [id] is the identifier of the field: the file, a colon and the printed
    name. *)
Definition listed_as `{Runtime} (o : outcome) (id : string) : Prop :=
  exists name, prints (named o) name /\ id = in_file o ++ ":" ++ name.

(** ** Concrete runtimes, used to run the model on examples *)

Definition default_nemoserve : string := "https://med-nemo.apps.renci.org/annotate/".
Definition default_sapbert : string := "https://med-nemo-sapbert.apps.renci.org/annotate/".

Definition example_repr (v : value) : string := "<repr>".

(** The services answer from a script, one outcome per call, and the
    connection fails once the script is used up. *)
Definition scripted : Runtime :=
  {| World := list (result response);
     send := fun _ _ w =>
               match w with
               | [] => (Raise ConnectionError, [])
               | o :: rest => (o, rest)
               end;
     repr := example_repr;
     NEMOSERVE_ANNOTATE_ENDPOINT := default_nemoserve;
     SAPBERT_ANNOTATE_ENDPOINT := default_sapbert |}.

Definition script (l : list (result response)) : @state scripted :=
  @Build_state scripted l [].

(** The services answer by a function of the request alone. *)
Definition stateless (f : string -> value -> result response) : Runtime :=
  {| World := unit;
     send := fun url body w => (f url body, w);
     repr := example_repr;
     NEMOSERVE_ANNOTATE_ENDPOINT := default_nemoserve;
     SAPBERT_ANNOTATE_ENDPOINT := default_sapbert |}.

Definition respond (status : Z) (body : option value) : response :=
  {| status_code := status; json_body := body; retry_after := false;
     location := None |}.

Definition token_of (text : string) : value :=
  VDict [("text", VStr text); ("span", VDict [("begin", VInt 0); ("end", VInt 4)])].

Definition recognized (tokens : list value) : response :=
  respond 200 (Some (VDict [("denotations", VList tokens)])).

Definition candidate (curie label : string) (score : float) : value :=
  VDict [("curie", VStr curie); ("label", VStr label); ("distance_score", VFloat score)].

(** A server that gives the same reply to every request. *)
Definition always (r : reply) : server := fun _ => r.

(** A server that replies by the number of requests seen so far: the
    [n]-th request gets the [n]-th reply of the list, and the connection
    fails afterwards. *)
Definition in_turn (replies : list reply) : server :=
  fun wire => nth (List.length wire - 1) replies Dropped.

(** Three dictionaries, four fields. *)
Definition example_listing : list (string * option value) :=
  [("a.json",
    Some (VDict [("data_dictionary",
                  VList [VDict [("name", VStr "age"); ("description", VStr "Age")];
                         VDict [("name", VStr "sex"); ("description", VStr "Sex")]])]));
   ("README.md", None);
   ("b.json",
    Some (VDict [("data_dictionary",
                  VDict [("data_dictionary",
                          VList [VDict [("name", VStr "bmi")]])])]));
   ("c.json",
    Some (VDict [("data_dictionary", VList [VDict [("name", VStr "id")]])]))].

(** The recognizer finds nothing in the first, third and fourth field, and
    answers the second with a body that is not JSON. *)
Definition example_script : list (result response) :=
  [Ok (recognized []); Ok (respond 200 None); Ok (recognized []); Ok (recognized [])].

(** An ASCII reading of [re.sub(r"\W", '_', s)]: letters, digits and the
    underscore are kept, every other character becomes an underscore. *)
Definition is_word (c : ascii) : bool :=
  let n := nat_of_ascii c in
  ((48 <=? n) && (n <=? 57) || (65 <=? n) && (n <=? 90)
   || (97 <=? n) && (n <=? 122) || (n =? 95))%nat.

Fixpoint sub_nonword_ascii (s : string) : string :=
  match s with
  | EmptyString => EmptyString
  | String c rest =>
      String (if is_word c then c else "_"%char) (sub_nonword_ascii rest)
  end.

(** [urljoin] on a base that ends in a slash and a reference without dot
    segments, query or fragment. *)
Definition urljoin_plain (base reference : string) : string := base ++ reference.

(** The metadata service of the examples: one identifier in the list, and
    the same document for every dictionary. *)
Definition example_mds (wire : list wire_request) : reply :=
  match List.length wire with
  | 1%nat => Answer (respond 200 (Some (VList [VStr "dg.H34L/ab-12"])))
  | _ =>
      Answer (respond 200
                (Some (VDict [("data_dictionary",
                               VList [VDict [("name", VStr "age")]])])))
  end.

(** A metadata service that lists two identifiers, the second without the
    expected prefix, and then serves the document of the first. *)
Definition example_mds_mixed : server :=
  in_turn
    [Answer (respond 200 (Some (VList [VStr "dg.H34L/ab-12"; VStr "other/cd-34"])));
     Answer (respond 200
               (Some (VDict [("data_dictionary",
                              VList [VDict [("name", VStr "age")]])])))].

(** * Properties *)

(** ** Helper lemmas on the monad and on dicts *)

Section Basics.
Context `{Runtime}.

Lemma post_send (url : string) (body : value) (s : state)
  (o : result response) (w : World) :
  send url body (world s) = (o, w) ->
  post url body s =
    (o, {| world := w;
           calls := (calls s ++ [{| call_url := url; call_json := body;
                                    call_outcome := o |}])%list |}).
Proof.
  intros Hs. unfold post. rewrite Hs. reflexivity.
Qed.

Lemma bind_ok {A B : Type} (m : M A) (k : A -> M B) (s s' : state) (a : A) :
  m s = (Ok a, s') -> bind m k s = k a s'.
Proof.
  intros Hm. unfold bind. rewrite Hm. reflexivity.
Qed.

Lemma bind_raise {A B : Type} (m : M A) (k : A -> M B) (s s' : state) (e : exn) :
  m s = (Raise e, s') -> bind m k s = (Raise e, s').
Proof.
  intros Hm. unfold bind. rewrite Hm. reflexivity.
Qed.

Lemma bind_lift {A B : Type} (r : result A) (k : A -> M B) (s : state) :
  bind (lift r) k s =
    match r with
    | Ok a => k a s
    | Raise e => (Raise e, s)
    end.
Proof.
  unfold bind, lift. destruct r; reflexivity.
Qed.

End Basics.

(** ** Stage 1 soft failure *)

Section SoftFailure.
Context `{Runtime}.

(** When [session.post] hands back a recognizer response with a
    non-success status, [annotate_text] returns the empty sequence, and the
    only request it has made is the one to the recognizer. *)
Lemma recognizer_not_ok_returns_empty (text : string) (s : state)
  (r : response) (w : World) :
  send NEMOSERVE_ANNOTATE_ENDPOINT (request (VStr text) NEMOSERVE_MODEL_NAME)
    (world s) = (Ok r, w) ->
  ok r = false ->
  annotate_text text s =
    (Ok [],
     {| world := w;
        calls := (calls s ++
                    [{| call_url := NEMOSERVE_ANNOTATE_ENDPOINT;
                        call_json := request (VStr text) NEMOSERVE_MODEL_NAME;
                        call_outcome := Ok r |}])%list |}).
Proof.
  intros Hsend Hok.
  unfold annotate_text.
  rewrite (bind_ok _ _ _ _ _ (post_send _ _ _ _ _ Hsend)).
  rewrite Hok. reflexivity.
Qed.

End SoftFailure.

(** ** The token loop *)

Section TokenLoop.
Context `{Runtime}.

Lemma truthy_len_pos (v : value) (n : nat) :
  truthy v = true -> len v = Ok n -> (0 <? n)%nat = true.
Proof.
  destruct v as [| b | z | x | str | l | d]; simpl; try discriminate.
  - destruct str; simpl; [discriminate |]. intros _ Hn. inversion Hn. reflexivity.
  - destruct l; [discriminate |]. intros _ Hn. inversion Hn. reflexivity.
  - destruct d; [discriminate |]. intros _ Hn. inversion Hn. reflexivity.
Qed.

Lemma getitem_ok_dict (v x : value) (k : string) :
  getitem v k = Ok x -> exists d, v = VDict d /\ dict_get k d = Some x.
Proof.
  destruct v; simpl; try discriminate.
  destruct (dict_get k d) eqn:Hk; [| discriminate].
  intros Hx. inversion Hx. subst. eauto.
Qed.

(** Before any request is sent: a token without text stops the call. *)
Lemma annotate_token_no_text (token : value) (track : list value) (s : state)
  (e : exn) :
  getitem token "text" = Raise e ->
  annotate_token token track s = (Raise e, s).
Proof.
  intros Ht. unfold annotate_token. rewrite bind_lift, Ht. reflexivity.
Qed.

Lemma annotate_token_empty_text (token text : value) (track : list value)
  (s : state) :
  getitem token "text" = Ok text ->
  truthy text = false ->
  annotate_token token track s = (Raise AssertionError, s).
Proof.
  intros Ht Hf. unfold annotate_token. rewrite bind_lift, Ht, Hf. reflexivity.
Qed.

Lemma annotate_token_post_raises (token text : value) (track : list value)
  (s s' : state) (e : exn) :
  getitem token "text" = Ok text ->
  truthy text = true ->
  post SAPBERT_ANNOTATE_ENDPOINT (request text SAPBERT_MODEL_NAME) s = (Raise e, s') ->
  annotate_token token track s = (Raise e, s').
Proof.
  intros Ht Htr Hp. unfold annotate_token. rewrite bind_lift, Ht, Htr. simpl.
  apply bind_raise. exact Hp.
Qed.

Lemma annotate_token_not_ok (token text : value) (track : list value)
  (s s' : state) (r : response) :
  getitem token "text" = Ok text ->
  truthy text = true ->
  post SAPBERT_ANNOTATE_ENDPOINT (request text SAPBERT_MODEL_NAME) s = (Ok r, s') ->
  ok r = false ->
  annotate_token token track s = (Ok (Return []), s').
Proof.
  intros Ht Htr Hp Hok. unfold annotate_token. rewrite bind_lift, Ht, Htr. simpl.
  rewrite (bind_ok _ _ _ _ _ Hp), Hok. reflexivity.
Qed.

(** After a successful normalizer response the turn is decided by what can
    be read off the response. *)
Lemma annotate_token_ok (d : list (string * value)) (text : value)
  (track : list value) (s s' : state) (r : response) :
  dict_get "text" d = Some text ->
  truthy text = true ->
  post SAPBERT_ANNOTATE_ENDPOINT (request text SAPBERT_MODEL_NAME) s = (Ok r, s') ->
  ok r = true ->
  annotate_token (VDict d) track s =
    (match closest_match_of r with
     | Ok (curie, label, distance_score) =>
         Ok (Continue
               (track ++
                  [VDict (dict_set "obj"
                            (VStr (obj_of curie label distance_score)) d)])%list)
     | Raise e => Raise e
     end, s').
Proof.
  intros Ht Htr Hp Hok.
  unfold annotate_token. rewrite bind_lift. simpl getitem. rewrite Ht, Htr. cbn [negb].
  rewrite (bind_ok _ _ _ _ _ Hp), Hok. cbn [negb].
  unfold closest_match_of. rewrite bind_lift.
  destruct (json r) as [result | e]; cbn [rbind]; [| reflexivity].
  destruct (truthy result) eqn:Hres; cbn [negb]; [| reflexivity].
  rewrite bind_lift.
  destruct (len result) as [n | e] eqn:Hn; cbn [rbind]; [| reflexivity].
  rewrite (truthy_len_pos _ _ Hres Hn).
  rewrite bind_lift.
  destruct (getitem0 result) as [c | e]; cbn [rbind]; [| reflexivity].
  rewrite bind_lift. simpl dict_copy. cbv iota.
  rewrite bind_lift.
  destruct (getitem c "curie") as [curie | e]; cbn [rbind]; [| reflexivity].
  rewrite bind_lift.
  destruct (getitem c "label") as [label | e]; cbn [rbind]; [| reflexivity].
  rewrite bind_lift.
  destruct (getitem c "distance_score") as [score | e]; cbn [rbind]; reflexivity.
Qed.

Lemma malformed_normalizer_raises (r : response) (e : exn) :
  malformed_normalizer r e -> closest_match_of r = Raise e.
Proof.
  intros Hm. unfold closest_match_of, json.
  destruct Hm as [Hj | result Hj Hf | result e Hj Ht Hl | result e Hj Ht Hg Hl
                 | result c k e Hj Ht Hg Hk He]; rewrite Hj; cbn [rbind].
  - reflexivity.
  - rewrite Hf. reflexivity.
  - rewrite Ht, Hl. reflexivity.
  - rewrite Ht. cbn [negb].
    destruct (len result) as [n | e'] eqn:Hn; [| exfalso; exact (Hl e' eq_refl)].
    cbn [rbind]. rewrite Hg. reflexivity.
  - rewrite Ht. cbn [negb].
    assert (Hlen : exists n, len result = Ok n).
    { destruct result as [| b | z | x | str | l | d']; simpl in Hg; try discriminate.
      - eexists; reflexivity.
      - eexists; reflexivity. }
    destruct Hlen as [n Hn]. rewrite Hn. cbn [rbind]. rewrite Hg. cbn [rbind].
    destruct c as [| b | z | x | str | l | d'];
      try (simpl in He; inversion He; subst; reflexivity).
    assert (Hkey : e = KeyError).
    { simpl in He. destruct (dict_get k d'); [discriminate | inversion He; reflexivity]. }
    subst e.
    assert (Hcases : forall k', getitem (VDict d') k' = Raise KeyError
                                \/ exists x, getitem (VDict d') k' = Ok x).
    { intros k'. simpl. destruct (dict_get k' d'); eauto. }
    simpl in Hk.
    destruct (Hcases "curie") as [Hc | [x1 Hc]]; rewrite Hc; cbn [rbind];
      [reflexivity |].
    destruct (Hcases "label") as [Hb | [x2 Hb]]; rewrite Hb; cbn [rbind];
      [reflexivity |].
    destruct (Hcases "distance_score") as [Hd | [x3 Hd]]; rewrite Hd; cbn [rbind];
      [reflexivity |].
    destruct Hk as [Hk | [Hk | [Hk | []]]]; subst k; congruence.
Qed.

(** A hard failure at the head of the loop is raised at once. *)
Lemma hard_failure_raises (token : value) (track : list value) (s s' : state)
  (e : exn) :
  hard_failure token s s' e ->
  annotate_token token track s = (Raise e, s').
Proof.
  intros [e' Ht Hs | text Ht Hf Hs | text r e' Ht Htr Hp Hok Hm].
  - subst s'. apply annotate_token_no_text. exact Ht.
  - subst s'. apply annotate_token_empty_text with (text := text); assumption.
  - destruct (getitem_ok_dict _ _ _ Ht) as [d [-> Hd]].
    rewrite (annotate_token_ok d text track s s' r Hd Htr Hp Hok).
    rewrite (malformed_normalizer_raises _ _ Hm). reflexivity.
Qed.

(** The loop over [pre ++ rest] is the loop over [rest], started where the
    loop over [pre] arrives when it runs to its end. *)
Lemma annotate_tokens_app (pre rest : list value) (track track' : list value)
  (s s' : state) :
  annotate_tokens pre track s = (Ok (Continue track'), s') ->
  annotate_tokens (pre ++ rest)%list track s = annotate_tokens rest track' s'.
Proof.
  revert track s. induction pre as [| token pre IH]; intros track s Hpre.
  - simpl in Hpre. unfold ret in Hpre. inversion Hpre. reflexivity.
  - simpl in *. unfold bind in *.
    destruct (annotate_token token track s) as [[[t | v] | e] s1].
    + apply IH. exact Hpre.
    + discriminate.
    + discriminate.
Qed.

(** The only value the loop ever returns early is the empty list. *)
Lemma annotate_token_return (token : value) (track v : list value) (s s' : state) :
  annotate_token token track s = (Ok (Return v), s') -> v = [].
Proof.
  unfold annotate_token. rewrite bind_lift.
  destruct (getitem token "text") as [text | e]; [| discriminate].
  destruct (truthy text); cbn [negb]; [| discriminate].
  unfold bind at 1.
  destruct (post _ _ s) as [[r | e] s1]; [| discriminate].
  destruct (ok r); cbn [negb].
  - rewrite bind_lift. destruct (json r) as [result | e]; [| discriminate].
    destruct (truthy result); cbn [negb]; [| discriminate].
    rewrite bind_lift. destruct (len result) as [n | e]; [| discriminate].
    destruct (0 <? n)%nat; [| discriminate].
    rewrite bind_lift. destruct (getitem0 result) as [c | e]; [| discriminate].
    rewrite bind_lift. destruct (dict_copy token) as [d | e]; [| discriminate].
    rewrite bind_lift. destruct (getitem c "curie") as [x1 | e]; [| discriminate].
    rewrite bind_lift. destruct (getitem c "label") as [x2 | e]; [| discriminate].
    rewrite bind_lift. destruct (getitem c "distance_score") as [x3 | e];
      discriminate.
  - unfold ret. intros Heq. inversion Heq. reflexivity.
Qed.

Lemma annotate_tokens_return (tokens : list value) (track v : list value)
  (s s' : state) :
  annotate_tokens tokens track s = (Ok (Return v), s') -> v = [].
Proof.
  revert track s. induction tokens as [| token rest IH]; intros track s.
  - simpl. unfold ret. discriminate.
  - simpl. unfold bind.
    destruct (annotate_token token track s) as [[[t | v'] | e] s1] eqn:Ht.
    + apply IH.
    + unfold ret. intros Heq. inversion Heq. subst.
      eapply annotate_token_return. exact Ht.
    + discriminate.
Qed.

(** [annotate_text] once the recognizer has answered successfully. *)
Lemma annotate_text_ok (text : string) (s s1 : state) (r : response) :
  post NEMOSERVE_ANNOTATE_ENDPOINT (request (VStr text) NEMOSERVE_MODEL_NAME) s
    = (Ok r, s1) ->
  ok r = true ->
  annotate_text text s =
    match tokens_of r with
    | Ok tokens =>
        match annotate_tokens tokens [] s1 with
        | (Ok (Continue track_sapbert), s2) => (Ok track_sapbert, s2)
        | (Ok (Return v), s2) => (Ok v, s2)
        | (Raise e, s2) => (Raise e, s2)
        end
    | Raise e => (Raise e, s1)
    end.
Proof.
  intros Hp Hok. unfold annotate_text, tokens_of.
  rewrite (bind_ok _ _ _ _ _ Hp), Hok. cbn [negb].
  rewrite bind_lift. destruct (json r) as [annotated | e]; cbn [rbind]; [| reflexivity].
  rewrite bind_lift.
  destruct (getitem annotated "denotations") as [t | e]; cbn [rbind]; [| reflexivity].
  rewrite bind_lift. destruct (iter t) as [tokens | e]; [| reflexivity].
  unfold bind.
  destruct (annotate_tokens tokens [] s1) as [[[track | v] | e] s2]; reflexivity.
Qed.

Lemma malformed_recognizer_raises (r : response) (e : exn) :
  malformed_recognizer r e -> tokens_of r = Raise e.
Proof.
  intros [Hj | annotated e' Hj Hg | annotated t e' Hj Hg Hi];
    unfold tokens_of, json; rewrite Hj; cbn [rbind].
  - reflexivity.
  - rewrite Hg. reflexivity.
  - rewrite Hg. cbn [rbind]. exact Hi.
Qed.

End TokenLoop.

Section Reaching.
Context `{Runtime}.

Lemma annotate_tokens_app_return (pre rest : list value) (track v : list value)
  (s s' : state) :
  annotate_tokens pre track s = (Ok (Return v), s') ->
  annotate_tokens (pre ++ rest)%list track s = (Ok (Return v), s').
Proof.
  revert track s. induction pre as [| token pre IH]; intros track s Hpre.
  - simpl in Hpre. unfold ret in Hpre. discriminate.
  - simpl in *. unfold bind in *.
    destruct (annotate_token token track s) as [[[t | v'] | e] s1].
    + apply IH. exact Hpre.
    + exact Hpre.
    + discriminate.
Qed.

Lemma annotate_tokens_app_raise (pre rest : list value) (track : list value)
  (s s' : state) (e : exn) :
  annotate_tokens pre track s = (Raise e, s') ->
  annotate_tokens (pre ++ rest)%list track s = (Raise e, s').
Proof.
  revert track s. induction pre as [| token pre IH]; intros track s Hpre.
  - simpl in Hpre. unfold ret in Hpre. discriminate.
  - simpl in *. unfold bind in *.
    destruct (annotate_token token track s) as [[[t | v'] | e'] s1].
    + apply IH. exact Hpre.
    + discriminate.
    + exact Hpre.
Qed.

(** When the loop reaches [token] and the turn for it raises, so does
    [annotate_text], leaving the state of that turn. *)
Lemma annotate_text_raises_at (text : string) (s s1 s2 s3 : state) (r : response)
  (pre rest track : list value) (token : value) (e : exn) :
  post NEMOSERVE_ANNOTATE_ENDPOINT (request (VStr text) NEMOSERVE_MODEL_NAME) s
    = (Ok r, s1) ->
  ok r = true ->
  tokens_of r = Ok (pre ++ token :: rest)%list ->
  annotate_tokens pre [] s1 = (Ok (Continue track), s2) ->
  annotate_token token track s2 = (Raise e, s3) ->
  annotate_text text s = (Raise e, s3).
Proof.
  intros Hp Hok Htok Hpre Ht.
  rewrite (annotate_text_ok text s s1 r Hp Hok), Htok.
  rewrite (annotate_tokens_app pre (token :: rest) [] track s1 s2 Hpre).
  simpl. unfold bind. rewrite Ht. reflexivity.
Qed.

(** When the loop reaches [token] and the turn for it returns, [annotate_text]
    returns that value. *)
Lemma annotate_text_returns_at (text : string) (s s1 s2 s3 : state) (r : response)
  (pre rest track v : list value) (token : value) :
  post NEMOSERVE_ANNOTATE_ENDPOINT (request (VStr text) NEMOSERVE_MODEL_NAME) s
    = (Ok r, s1) ->
  ok r = true ->
  tokens_of r = Ok (pre ++ token :: rest)%list ->
  annotate_tokens pre [] s1 = (Ok (Continue track), s2) ->
  annotate_token token track s2 = (Ok (Return v), s3) ->
  annotate_text text s = (Ok v, s3).
Proof.
  intros Hp Hok Htok Hpre Ht.
  rewrite (annotate_text_ok text s s1 r Hp Hok), Htok.
  rewrite (annotate_tokens_app pre (token :: rest) [] track s1 s2 Hpre).
  simpl. unfold bind. rewrite Ht. reflexivity.
Qed.

(** An early return can only come from a normalizer response with a
    non-success status. *)
Lemma annotate_token_return_inv (token : value) (track v : list value)
  (s s' : state) :
  annotate_token token track s = (Ok (Return v), s') ->
  exists text r,
    getitem token "text" = Ok text
    /\ post SAPBERT_ANNOTATE_ENDPOINT (request text SAPBERT_MODEL_NAME) s = (Ok r, s')
    /\ ok r = false.
Proof.
  intros Hret.
  destruct (getitem token "text") as [text | e] eqn:Ht.
  2:{ rewrite (annotate_token_no_text _ _ _ _ Ht) in Hret. discriminate. }
  destruct (truthy text) eqn:Htr.
  2:{ rewrite (annotate_token_empty_text _ _ _ _ Ht Htr) in Hret. discriminate. }
  destruct (post SAPBERT_ANNOTATE_ENDPOINT (request text SAPBERT_MODEL_NAME) s)
    as [[r | e] s1] eqn:Hp.
  2:{ rewrite (annotate_token_post_raises _ _ _ _ _ _ Ht Htr Hp) in Hret.
      discriminate. }
  destruct (ok r) eqn:Hok.
  - destruct (getitem_ok_dict _ _ _ Ht) as [d [-> Hd]].
    rewrite (annotate_token_ok d text track s s1 r Hd Htr Hp Hok) in Hret.
    destruct (closest_match_of r) as [[[c l] sc] | e]; discriminate.
  - rewrite (annotate_token_not_ok _ _ _ _ _ _ Ht Htr Hp Hok) in Hret.
    inversion Hret. subst. exists text, r. auto.
Qed.

Lemma annotate_tokens_return_inv (tokens : list value) (track v : list value)
  (s s' : state) :
  annotate_tokens tokens track s = (Ok (Return v), s') ->
  exists before token after track' s2 text r,
    tokens = (before ++ token :: after)%list
    /\ annotate_tokens before track s = (Ok (Continue track'), s2)
    /\ getitem token "text" = Ok text
    /\ post SAPBERT_ANNOTATE_ENDPOINT (request text SAPBERT_MODEL_NAME) s2 = (Ok r, s')
    /\ ok r = false.
Proof.
  revert track s. induction tokens as [| token rest IH]; intros track s Hret.
  - simpl in Hret. unfold ret in Hret. discriminate.
  - simpl in Hret. unfold bind in Hret.
    destruct (annotate_token token track s) as [[[t | v'] | e] s1] eqn:Ht.
    + destruct (IH t s1 Hret)
        as (before & tok & after & track' & s2 & text & r & -> & Hb & Hg & Hp & Hok).
      exists (token :: before), tok, after, track', s2, text, r.
      repeat split; try assumption.
      simpl. unfold bind. rewrite Ht. exact Hb.
    + unfold ret in Hret. inversion Hret. subst.
      destruct (annotate_token_return_inv _ _ _ _ _ Ht) as (text & r & Hg & Hp & Hok).
      exists [], token, rest, track, s, text, r.
      repeat split; assumption.
    + discriminate.
Qed.

End Reaching.

(** ** Hard failures *)

Section HardFailures.
Context `{Runtime}.

(** C4, as the code has it.  A successful normalizer response whose parsed
    candidate list is empty fails the assertion on the result: when the loop
    reaches such a token [annotate_text] raises, the token is not dropped and
    the tokens after it are not looked at. *)
Theorem empty_candidate_list_raises
  (text : string) (s s1 s2 s3 : state) (r r2 : response)
  (pre rest track : list value) (token tv : value) :
  post NEMOSERVE_ANNOTATE_ENDPOINT (request (VStr text) NEMOSERVE_MODEL_NAME) s
    = (Ok r, s1) ->
  ok r = true ->
  tokens_of r = Ok (pre ++ token :: rest)%list ->
  annotate_tokens pre [] s1 = (Ok (Continue track), s2) ->
  getitem token "text" = Ok tv ->
  truthy tv = true ->
  post SAPBERT_ANNOTATE_ENDPOINT (request tv SAPBERT_MODEL_NAME) s2 = (Ok r2, s3) ->
  ok r2 = true ->
  json_body r2 = Some (VList []) ->
  annotate_text text s = (Raise AssertionError, s3).
Proof.
  intros Hp Hok Htok Hpre Hg Htr Hp2 Hok2 Hj.
  eapply annotate_text_raises_at; eauto.
  apply hard_failure_raises.
  eapply HF_malformed; eauto.
  eapply MN_empty; eauto.
Qed.

(** C8, as the code has it.  A token with empty text in a successful
    recognizer response is never skipped.  When the loop reaches it,
    [annotate_text] raises before any request is made for it; and if
    [annotate_text] returns at all, it returns the empty sequence, because
    the normalizer answered an earlier token with a non-success status. *)
Theorem empty_token_text_is_never_skipped
  (text : string) (s s1 : state) (r : response)
  (pre rest : list value) (token : value) :
  post NEMOSERVE_ANNOTATE_ENDPOINT (request (VStr text) NEMOSERVE_MODEL_NAME) s
    = (Ok r, s1) ->
  ok r = true ->
  tokens_of r = Ok (pre ++ token :: rest)%list ->
  getitem token "text" = Ok (VStr "") ->
  (forall track s2,
      annotate_tokens pre [] s1 = (Ok (Continue track), s2) ->
      annotate_text text s = (Raise AssertionError, s2))
  /\ (forall dens s',
         annotate_text text s = (Ok dens, s') ->
         dens = []
         /\ exists before earlier after track s2 tv r2,
             pre = (before ++ earlier :: after)%list
             /\ annotate_tokens before [] s1 = (Ok (Continue track), s2)
             /\ getitem earlier "text" = Ok tv
             /\ post SAPBERT_ANNOTATE_ENDPOINT (request tv SAPBERT_MODEL_NAME) s2
                = (Ok r2, s')
             /\ ok r2 = false).
Proof.
  intros Hp Hok Htok Hg. split.
  - intros track s2 Hpre.
    eapply annotate_text_raises_at; eauto.
    eapply annotate_token_empty_text; eauto.
  - intros dens s' Hrun.
    rewrite (annotate_text_ok text s s1 r Hp Hok), Htok in Hrun.
    destruct (annotate_tokens pre [] s1) as [[[track | v] | e] s2] eqn:Hpre.
    + rewrite (annotate_tokens_app pre (token :: rest) [] track s1 s2 Hpre) in Hrun.
      simpl in Hrun. unfold bind in Hrun.
      rewrite (annotate_token_empty_text token (VStr "") track s2 Hg eq_refl) in Hrun.
      discriminate.
    + rewrite (annotate_tokens_app_return pre (token :: rest) [] v s1 s2 Hpre) in Hrun.
      inversion Hrun. subst.
      split; [eapply annotate_tokens_return; exact Hpre |].
      destruct (annotate_tokens_return_inv _ _ _ _ _ Hpre)
        as (before & earlier & after & track & s2 & tv & r2 & Hsplit & Hb & Hgt & Hp2 & Hok2).
      exists before, earlier, after, track, s2, tv, r2. auto.
    + rewrite (annotate_tokens_app_raise pre (token :: rest) [] s1 s2 e Hpre) in Hrun.
      discriminate.
Qed.

End HardFailures.

(** The recognizer finds one token and the normalizer answers 200 with an
    empty candidate list: the call raises, no sequence is returned. *)
Lemma empty_candidate_list_is_not_dropped :
  let run := @annotate_text scripted "pain: Pain score"
               (script [Ok (recognized [token_of "pain"]);
                        Ok (respond 200 (Some (VList [])))]) in
  fst run = Raise AssertionError
  /\ ~ (exists dens, fst run = Ok dens).
Proof.
  cbv zeta. split; [reflexivity |].
  intros [dens Hd]. vm_compute in Hd. discriminate.
Qed.

Lemma empty_candidate_list_raises_witness :
  fst (@annotate_text scripted "pain: Pain score"
         (script [Ok (recognized [token_of "pain"]);
                  Ok (respond 200 (Some (VList [])))]))
    = Raise AssertionError.
Proof.
  erewrite (@empty_candidate_list_raises scripted "pain: Pain score"
              (script [Ok (recognized [token_of "pain"]);
                       Ok (respond 200 (Some (VList [])))])
              _ _ _ (recognized [token_of "pain"]) (respond 200 (Some (VList [])))
              [] [] [] (token_of "pain") (VStr "pain"));
    reflexivity.
Defined.

(** The recognizer finds a token followed by one with empty text, and the
    normalizer answers 404 for the first: the call returns the empty
    sequence before the empty text is ever looked at. *)
Lemma empty_token_text_after_failed_normalizer :
  let run := @annotate_text scripted "pain: Pain score"
               (script [Ok (recognized [token_of "pain"; token_of ""]);
                        Ok (respond 404 None)]) in
  fst run = Ok []
  /\ ~ (exists e, fst run = Raise e).
Proof.
  cbv zeta. split; [reflexivity |].
  intros [e He]. vm_compute in He. discriminate.
Qed.

Lemma empty_token_text_is_never_skipped_witness :
  fst (@annotate_text scripted "pain: Pain score"
         (script [Ok (recognized [token_of ""; token_of "pain"])]))
    = Raise AssertionError.
Proof.
  destruct (@empty_token_text_is_never_skipped scripted "pain: Pain score"
              (script [Ok (recognized [token_of ""; token_of "pain"])]) _
              (recognized [token_of ""; token_of "pain"])
              [] [token_of "pain"] (token_of "")
              eq_refl eq_refl eq_refl eq_refl) as [Hraise _].
  erewrite Hraise; reflexivity.
Defined.

(** ** The successful path *)

Section Matched.
Context `{Runtime}.

Lemma Forall3_length {A B C : Type} (R : A -> B -> C -> Prop)
  (la : list A) (lb : list B) (lc : list C) :
  Forall3 R la lb lc ->
  List.length lb = List.length la /\ List.length lc = List.length la.
Proof.
  induction 1 as [| a b c la lb lc _ _ [IHb IHc]]; simpl; auto.
Qed.

Lemma dict_get_set_same (k : string) (v : value) (d : list (string * value)) :
  dict_get k (dict_set k v d) = Some v.
Proof.
  induction d as [| [k' v'] d IH]; simpl.
  - rewrite String.eqb_refl. reflexivity.
  - destruct (String.eqb k k') eqn:Hk; simpl; rewrite Hk; auto.
Qed.

Lemma dict_get_set_other (k k0 : string) (v : value) (d : list (string * value)) :
  k0 <> k -> dict_get k0 (dict_set k v d) = dict_get k0 d.
Proof.
  intros Hne. induction d as [| [k' v'] d IH]; simpl.
  - destruct (String.eqb k0 k) eqn:Hk; [| reflexivity].
    apply String.eqb_eq in Hk. contradiction.
  - destruct (String.eqb k k') eqn:Hk; simpl.
    + apply String.eqb_eq in Hk. subst k'.
      destruct (String.eqb k0 k) eqn:Hk0; [| reflexivity].
      apply String.eqb_eq in Hk0. contradiction.
    + rewrite IH. reflexivity.
Qed.

End Matched.

(** ** Building the text of a field *)

Section FieldText.
Context `{Runtime}.

Lemma append_empty_r (a : string) : a ++ "" = a.
Proof.
  induction a as [| c a IH]; simpl; [reflexivity | rewrite IH; reflexivity].
Qed.

Lemma append_assoc (a b c : string) : (a ++ b) ++ c = a ++ (b ++ c).
Proof.
  induction a as [| x a IH]; simpl; [reflexivity | rewrite IH; reflexivity].
Qed.

Lemma concat_cons (x : string) (l : list string) :
  String.concat "" (x :: l) = x ++ String.concat "" l.
Proof.
  destruct l; simpl; [rewrite append_empty_r |]; reflexivity.
Qed.

(** The accumulated encodings are the lines of the encodings, in order. *)
Lemma encodings_fold (encodings : list (string * value)) (acc : string) :
  fold_left
    (fun acc kv => acc ++ (fst kv ++ ": " ++ format (snd kv)) ++ nl)
    encodings acc
  = acc ++ String.concat ""
             (map (fun kv => fst kv ++ ": " ++ format (snd kv) ++ nl) encodings).
Proof.
  revert acc. induction encodings as [| kv rest IH]; intros acc.
  - simpl. rewrite append_empty_r. reflexivity.
  - cbn [fold_left map]. rewrite IH, concat_cons, !append_assoc. reflexivity.
Qed.

End FieldText.

(** ** The two shapes of a dictionary document *)

Section Shapes.
Context `{Runtime}.

(** C7.  A document whose [data_dictionary] is the list F, and a document
    whose [data_dictionary] is a mapping whose own [data_dictionary] is F,
    yield the same field sequence, namely F, and a file holding the one is
    processed exactly as a file holding the other. *)
Theorem bare_list_and_nested_mapping_agree (F : list value)
  (bare nested inner : list (string * value)) :
  dict_get "data_dictionary" bare = Some (VList F) ->
  dict_get "data_dictionary" nested = Some (VDict inner) ->
  dict_get "data_dictionary" inner = Some (VList F) ->
  rbind (fields_of_doc (VDict bare)) iter = Ok F
  /\ rbind (fields_of_doc (VDict nested)) iter = Ok F
  /\ forall filename acc s,
       annotate_file (filename, Some (VDict bare)) acc s
       = annotate_file (filename, Some (VDict nested)) acc s.
Proof.
  intros Hb Hn Hi.
  assert (Hbare : fields_of_doc (VDict bare) = Ok (VList F)).
  { unfold fields_of_doc. simpl get. rewrite Hb. reflexivity. }
  assert (Hnested : fields_of_doc (VDict nested) = Ok (VList F)).
  { unfold fields_of_doc. simpl get. rewrite Hn. cbn [rbind get]. rewrite Hi. reflexivity. }
  repeat split.
  - rewrite Hbare. reflexivity.
  - rewrite Hnested. reflexivity.
  - intros filename acc s. unfold annotate_file. cbn [fst snd json_load].
    destruct (negb (endswith (lower filename) ".json")); [reflexivity |].
    rewrite !bind_lift, Hbare, Hnested. reflexivity.
Qed.

End Shapes.

Lemma bare_list_and_nested_mapping_agree_witness :
  rbind (fields_of_doc (VDict [("data_dictionary", VList [VDict [("name", VStr "age")]])]))
    iter
  = rbind (fields_of_doc
             (VDict [("data_dictionary",
                      VDict [("title", VStr "demographics");
                             ("data_dictionary", VList [VDict [("name", VStr "age")]])])]))
      iter.
Proof.
  destruct (@bare_list_and_nested_mapping_agree scripted
              [VDict [("name", VStr "age")]]
              [("data_dictionary", VList [VDict [("name", VStr "age")]])]
              [("data_dictionary",
                VDict [("title", VStr "demographics");
                       ("data_dictionary", VList [VDict [("name", VStr "age")]])])]
              [("title", VStr "demographics");
               ("data_dictionary", VList [VDict [("name", VStr "age")]])]
              eq_refl eq_refl eq_refl) as (Hbare & Hnested & _).
  rewrite Hbare, Hnested. reflexivity.
Defined.

(** ** Files that do not parse *)

Section Unparsable.
Context `{Runtime}.

Lemma annotate_files_unparsable (listing : list (string * option value))
  (filename : string) :
  In (filename, None) listing ->
  endswith (lower filename) ".json" = true ->
  forall acc s, exists e s', annotate_files listing acc s = (Raise e, s').
Proof.
  intros Hin Hjson. induction listing as [| entry rest IH]; [contradiction |].
  intros acc s. simpl. unfold bind at 1.
  destruct (annotate_file entry acc s) as [[acc' | e] s1] eqn:Hfile.
  - destruct Hin as [-> | Hin].
    + unfold annotate_file in Hfile. cbn [fst snd] in Hfile.
      rewrite Hjson in Hfile. cbn [negb] in Hfile.
      rewrite bind_lift in Hfile. simpl in Hfile. discriminate.
    + apply IH. exact Hin.
  - eauto.
Qed.

(** C10.  When some entry of the input directory has a name that ends in
    [.json], in any letter case, and a content that does not parse, the
    exception leaves [annotate_dds]: the run ends without a summary,
    whatever the services answer for the fields met before. *)
Theorem unparsable_json_file_aborts_run (listing : list (string * option value))
  (filename : string) (s : state) :
  In (filename, None) listing ->
  endswith (lower filename) ".json" = true ->
  exists e s', annotate_dds listing s = (Raise e, s').
Proof.
  intros Hin Hjson. unfold annotate_dds.
  apply annotate_files_unparsable with (filename := filename); assumption.
Qed.

End Unparsable.

Lemma unparsable_json_file_aborts_run_witness :
  exists e s',
    @annotate_dds scripted
      [("a.json", Some (VDict [("data_dictionary", VList [VDict [("name", VStr "age")]])]));
       ("B.JSON", None);
       ("c.json", Some (VDict []))]
      (script [Ok (respond 404 None)])
    = (Raise e, s').
Proof.
  apply (@unparsable_json_file_aborts_run scripted _ "B.JSON").
  - simpl. right. left. reflexivity.
  - reflexivity.
Defined.

(** ** The batch run *)

Section Batch.
Context `{Runtime}.

(** The [except] branch: the field is counted and nothing else changes. *)
Lemma annotate_field_caught (filename : string) (field name : value)
  (text : string) (acc : summary) (s s' : state) (e : exn) :
  text_to_annotate field = Ok (name, text) ->
  annotate_text text s = (Raise e, s') ->
  annotate_field filename field acc s = (Ok (counted acc), s').
Proof.
  intros Ht Ha. unfold annotate_field. rewrite bind_lift, Ht.
  cbn [snd fst]. rewrite Ha. reflexivity.
Qed.

(** One field whose text can be built never raises, is counted once, and
    reaches the list only when the annotator returned the empty sequence. *)
Lemma annotate_field_completes (filename : string) (field : value)
  (acc : summary) (s : state) (P : string -> Prop) :
  (exists p, text_to_annotate field = Ok p) ->
  Forall P (unannotated_fields acc) ->
  (forall id, returned_empty filename field id -> P id) ->
  exists acc' s',
    annotate_field filename field acc s = (Ok acc', s')
    /\ count_files acc' = count_files acc
    /\ count_fields acc' = S (count_fields acc)
    /\ Forall P (unannotated_fields acc').
Proof.
  intros [[name text] Ht] Hacc HP.
  unfold annotate_field. rewrite bind_lift, Ht. cbn [snd fst].
  destruct (annotate_text text s) as [[annotations | e] s'] eqn:Ha.
  - eexists _, s'. split; [reflexivity |]. cbn.
    split; [reflexivity |]. split; [reflexivity |].
    destruct annotations as [| a rest]; cbn.
    + apply Forall_app. split; [exact Hacc |].
      constructor; [| constructor].
      apply HP. exists name, text, s, s'. auto.
    + exact Hacc.
  - eexists _, s'. split; [reflexivity |]. cbn. auto.
Qed.

Lemma annotate_fields_completes (filename : string) (fields : list value)
  (P : string -> Prop) :
  Forall (fun field => exists p, text_to_annotate field = Ok p) fields ->
  (forall field id, In field fields -> returned_empty filename field id -> P id) ->
  forall acc s,
  Forall P (unannotated_fields acc) ->
  exists acc' s',
    annotate_fields filename fields acc s = (Ok acc', s')
    /\ count_files acc' = count_files acc
    /\ count_fields acc' = (count_fields acc + List.length fields)%nat
    /\ Forall P (unannotated_fields acc').
Proof.
  induction fields as [| field rest IH]; intros Hprep HP acc s Hacc.
  - exists acc, s. simpl. rewrite Nat.add_0_r. auto.
  - inversion Hprep as [| ? ? Hfield Hrest]; subst.
    destruct (annotate_field_completes filename field acc s P Hfield Hacc)
      as (acc1 & s1 & Hrun1 & Hfiles1 & Hfields1 & Hlist1).
    { intros id. apply HP. left. reflexivity. }
    destruct (IH Hrest (fun f id Hin => HP f id (or_intror Hin)) acc1 s1 Hlist1)
      as (acc2 & s2 & Hrun2 & Hfiles2 & Hfields2 & Hlist2).
    exists acc2, s2. simpl. unfold bind. rewrite Hrun1, Hrun2.
    split; [reflexivity |]. split; [congruence |]. split; [lia | exact Hlist2].
Qed.

Lemma annotate_file_completes (entry : string * option value)
  (fields : list value) (P : string -> Prop) :
  entry_fields entry = Ok fields ->
  Forall (fun field => exists p, text_to_annotate field = Ok p) fields ->
  (forall field id, In field fields -> returned_empty (fst entry) field id -> P id) ->
  forall acc s,
  Forall P (unannotated_fields acc) ->
  exists acc' s',
    annotate_file entry acc s = (Ok acc', s')
    /\ count_files acc'
       = (count_files acc + if is_json entry then 1 else 0)%nat
    /\ count_fields acc' = (count_fields acc + List.length fields)%nat
    /\ Forall P (unannotated_fields acc').
Proof.
  intros Hentry Hprep HP acc s Hacc.
  unfold entry_fields in Hentry. unfold annotate_file. fold (is_json entry).
  destruct (is_json entry) eqn:Hjson; cbn [negb] in *.
  - rewrite bind_lift.
    destruct (json_load (snd entry)) as [doc | e]; cbn [rbind] in Hentry;
      [| discriminate].
    rewrite bind_lift.
    destruct (fields_of_doc doc) as [fs | e]; cbn [rbind] in Hentry; [| discriminate].
    rewrite bind_lift.
    destruct (len fs) as [n | e]; cbn [rbind] in Hentry; [| discriminate].
    rewrite bind_lift, Hentry.
    destruct (annotate_fields_completes (fst entry) fields P Hprep HP
                {| count_files := S (count_files acc);
                   count_fields := count_fields acc;
                   count_annotations := count_annotations acc;
                   unannotated_fields := unannotated_fields acc |} s Hacc)
      as (acc' & s' & Hrun & Hfiles & Hfields & Hlist).
    exists acc', s'. rewrite Hrun. cbn in Hfiles, Hfields.
    split; [reflexivity |]. split; [lia |]. split; [exact Hfields | exact Hlist].
  - inversion Hentry. subst. exists acc, s. unfold ret. simpl.
    rewrite !Nat.add_0_r. auto.
Qed.

Lemma fields_in_ok (entry : string * option value) (fields : list value) :
  entry_fields entry = Ok fields -> fields_in entry = fields.
Proof.
  intros He. unfold fields_in. rewrite He. reflexivity.
Qed.

Lemma annotate_files_completes (listing : list (string * option value))
  (P : string -> Prop) :
  readable listing ->
  (forall entry field id,
      In entry listing -> In field (fields_in entry) ->
      returned_empty (fst entry) field id -> P id) ->
  forall acc s,
  Forall P (unannotated_fields acc) ->
  exists acc' s',
    annotate_files listing acc s = (Ok acc', s')
    /\ count_files acc'
       = (count_files acc + List.length (filter is_json listing))%nat
    /\ count_fields acc'
       = (count_fields acc + List.length (flat_map fields_in listing))%nat
    /\ Forall P (unannotated_fields acc').
Proof.
  induction listing as [| entry rest IH]; intros Hread HP acc s Hacc.
  - exists acc, s. simpl. rewrite !Nat.add_0_r. auto.
  - inversion Hread as [| ? ? [fields [Hentry Hprep]] Hrest]; subst.
    destruct (annotate_file_completes entry fields P Hentry Hprep) with
      (acc := acc) (s := s)
      as (acc1 & s1 & Hrun1 & Hfiles1 & Hfields1 & Hlist1); [| exact Hacc |].
    { intros field id Hin. apply HP; [left; reflexivity |].
      rewrite (fields_in_ok _ _ Hentry). exact Hin. }
    destruct (IH Hrest (fun e f id Hin => HP e f id (or_intror Hin)) acc1 s1 Hlist1)
      as (acc2 & s2 & Hrun2 & Hfiles2 & Hfields2 & Hlist2).
    exists acc2, s2. simpl. unfold bind. rewrite Hrun1, Hrun2.
    split; [reflexivity |].
    rewrite length_app, (fields_in_ok _ _ Hentry).
    split; [| split; [lia | exact Hlist2]].
    destruct (is_json entry); simpl; lia.
Qed.

End Batch.

(** ** The model at work *)

(** Two tokens, each matched: the Denotations keep the token's fields and
    gain an [obj] naming the first candidate.  The normalizer of this
    example gives the same candidates to every request. *)
Example annotate_text_two_tokens :
  let rt := stateless (fun url body =>
              if String.eqb url default_nemoserve
              then Ok (recognized [token_of "pain"; token_of "fever"])
              else Ok (respond 200
                         (Some (VList [candidate "D010146" "Pain" 0.25%float;
                                       candidate "D005334" "Fever" 0.5%float])))) in
  fst (@annotate_text rt "pain: Pain or fever" (@Build_state rt tt []))
  = Ok [VDict [("text", VStr "pain");
               ("span", VDict [("begin", VInt 0); ("end", VInt 4)]);
               ("obj", VStr "MESH:D010146 (Pain, score: <repr>)")];
        VDict [("text", VStr "fever");
               ("span", VDict [("begin", VInt 0); ("end", VInt 4)]);
               ("obj", VStr "MESH:D010146 (Pain, score: <repr>)")]].
Proof. reflexivity. Qed.

(** Over the wire: a recognizer that answers 503 to every attempt makes the
    session give up after five, and [annotate_text] raises. *)
Example annotate_text_recognizer_busy :
  let rt := live (always (Answer (respond 503 None))) example_repr
              default_nemoserve default_sapbert in
  let run := @annotate_text rt "pain: Pain score" (@Build_state rt [] []) in
  fst run = Raise RetryError
  /\ List.length (@world rt (snd run)) = 5%nat.
Proof. split; reflexivity. Qed.

(** Over the wire: a recognizer that answers 404 is not retried, and
    [annotate_text] returns the empty sequence after one attempt. *)
Example annotate_text_recognizer_missing :
  let rt := live (always (Answer (respond 404 None))) example_repr
              default_nemoserve default_sapbert in
  let run := @annotate_text rt "pain: Pain score" (@Build_state rt [] []) in
  fst run = Ok []
  /\ List.length (@world rt (snd run)) = 1%nat.
Proof. split; reflexivity. Qed.

(** File names are matched on their lower-cased suffix. *)
Example endswith_json :
  endswith (lower "Study.JSON") ".json" = true
  /\ endswith (lower "notes.txt") ".json" = false
  /\ endswith (lower "json") ".json" = false.
Proof. repeat split; reflexivity. Qed.

(** A field whose format is not a string cannot be prepared: the error is
    raised outside the [try] and ends the run. *)
Example format_not_a_string_aborts :
  fst (@annotate_dds scripted
         [("a.json",
           Some (VDict [("data_dictionary",
                         VList [VDict [("name", VStr "age"); ("format", VInt 3)]])]))]
         (script []))
  = Raise TypeError.
Proof. reflexivity. Qed.

(** ** The adapter and the session *)

Section Wire.
Variable srv : server.

Lemma repeat_snoc (req : wire_request) (wire : list wire_request) (n : nat) :
  ((wire ++ [req]) ++ repeat req n)%list = (wire ++ repeat req (S n))%list.
Proof.
  rewrite <- app_assoc. reflexivity.
Qed.

(** Whatever the policy, the adapter sends the same request between one and
    [remaining + 1] times and only adds pauses; a response it hands back is
    the reply to its last attempt and is one the policy does not retry. *)
Lemma urlopen_wire (policy : Retry) (req : wire_request) (remaining : nat) :
  forall wire pauses,
  exists o n new,
    urlopen srv policy remaining req wire pauses
    = (o, (wire ++ repeat req n)%list, (pauses ++ new)%list)
    /\ (1 <= n <= S remaining)%nat
    /\ (forall r, o = Ok r ->
                  srv (wire ++ repeat req n)%list = Answer r
                  /\ exists k, is_retry policy k (wr_method req) r = false).
Proof.
  induction remaining as [| k IH]; intros wire pauses.
  - simpl. destruct (srv (wire ++ [req])%list) as [r |] eqn:Hsrv.
    + destruct (is_retry policy 0 (wr_method req) r) eqn:Hretry.
      * exists (Raise RetryError), 1%nat, []. rewrite app_nil_r. simpl.
        split; [reflexivity |]. split; [lia | discriminate].
      * exists (Ok r), 1%nat, []. rewrite app_nil_r. simpl.
        split; [reflexivity |]. split; [lia |].
        intros r' Hr. inversion Hr. subst. split; [exact Hsrv | eauto].
    + exists (Raise ConnectionError), 1%nat, []. rewrite app_nil_r. simpl.
      split; [reflexivity |]. split; [lia | discriminate].
  - assert (Hnext : forall p,
               exists o n new,
                 urlopen srv policy k req (wire ++ [req])%list (pauses ++ [p])%list
                 = (o, (wire ++ repeat req n)%list, (pauses ++ new)%list)
                 /\ (1 <= n <= S (S k))%nat
                 /\ (forall r, o = Ok r ->
                               srv (wire ++ repeat req n)%list = Answer r
                               /\ exists k', is_retry policy k' (wr_method req) r = false)).
    { intros p.
      destruct (IH (wire ++ [req])%list (pauses ++ [p])%list)
        as (o & n & new & Hrun & Hn & Hok).
      exists o, (S n), (p :: new).
      rewrite Hrun, repeat_snoc, <- app_assoc.
      split; [reflexivity |]. split; [lia |].
      intros r Hr. rewrite <- repeat_snoc. exact (Hok r Hr). }
    simpl urlopen.
    destruct (srv (wire ++ [req])%list) as [r |] eqn:Hsrv; [| apply Hnext].
    destruct (is_retry policy (S k) (wr_method req) r) eqn:Hretry; [apply Hnext |].
    exists (Ok r), 1%nat, []. rewrite app_nil_r. simpl.
    split; [reflexivity |]. split; [lia |].
    intros r' Hr. inversion Hr. subst. split; [exact Hsrv | eauto].
Qed.

Lemma adapter_not_retried (k : nat) (m : method) (r : response) :
  is_retry adapter k m r = false ->
  mem_Z (status_code r) (status_forcelist adapter) = false.
Proof.
  unfold is_retry. simpl. intros Hk.
  apply orb_false_iff in Hk. destruct Hk as [Hk _]. exact Hk.
Qed.

(** Under the session's policy the pauses follow the backoff schedule, and
    the adapter raises only when its last permitted attempt has failed in a
    way the policy retries. *)
Lemma urlopen_run (req : wire_request) (remaining : nat) :
  (remaining <= 4)%nat ->
  forall wire pauses,
  exists o n new,
    urlopen srv adapter remaining req wire pauses
    = (o, (wire ++ repeat req n)%list, (pauses ++ new)%list)
    /\ (1 <= n <= S remaining)%nat
    /\ map fallback new
       = map (backoff_time adapter) (seq (5 - remaining) (n - 1))
    /\ match o with
       | Ok r =>
           srv (wire ++ repeat req n)%list = Answer r
           /\ mem_Z (status_code r) (status_forcelist adapter) = false
       | Raise e =>
           n = S remaining
           /\ retried (srv (wire ++ repeat req n)%list)
           /\ e = exhausted (srv (wire ++ repeat req n)%list)
       end.
Proof.
  induction remaining as [| k IH]; intros Hle wire pauses.
  - simpl urlopen. destruct (srv (wire ++ [req])%list) as [r |] eqn:Hsrv.
    + destruct (is_retry adapter 0 (wr_method req) r) eqn:Hretry.
      * exists (Raise RetryError), 1%nat, []. rewrite app_nil_r. simpl.
        rewrite Hsrv. simpl.
        split; [reflexivity |]. split; [lia |]. split; [reflexivity |].
        split; [reflexivity |]. split; [| reflexivity].
        unfold is_retry in Hretry. cbn [is_method_retryable adapter allowed_methods
          Nat.eqb negb andb] in Hretry.
        rewrite orb_false_r in Hretry. exact Hretry.
      * exists (Ok r), 1%nat, []. rewrite app_nil_r. simpl.
        split; [reflexivity |]. split; [lia |]. split; [reflexivity |].
        split; [exact Hsrv | exact (adapter_not_retried _ _ _ Hretry)].
    + exists (Raise ConnectionError), 1%nat, []. rewrite app_nil_r. simpl.
      rewrite Hsrv. simpl.
      split; [reflexivity |]. split; [lia |]. split; [reflexivity |]. auto.
  - assert (Hnext : forall p,
               fallback p = backoff_time adapter (4 - k) ->
               exists o n new,
                 urlopen srv adapter k req (wire ++ [req])%list (pauses ++ [p])%list
                 = (o, (wire ++ repeat req n)%list, (pauses ++ new)%list)
                 /\ (1 <= n <= S (S k))%nat
                 /\ map fallback new
                    = map (backoff_time adapter) (seq (5 - S k) (n - 1))
                 /\ match o with
                    | Ok r =>
                        srv (wire ++ repeat req n)%list = Answer r
                        /\ mem_Z (status_code r) (status_forcelist adapter) = false
                    | Raise e =>
                        n = S (S k)
                        /\ retried (srv (wire ++ repeat req n)%list)
                        /\ e = exhausted (srv (wire ++ repeat req n)%list)
                    end).
    { intros p Hp.
      destruct (IH ltac:(lia) (wire ++ [req])%list (pauses ++ [p])%list)
        as (o & n & new & Hrun & Hn & Hpauses & Hout).
      exists o, (S n), (p :: new).
      rewrite Hrun, repeat_snoc, <- app_assoc.
      split; [reflexivity |]. split; [lia |]. split.
      - replace (S n - 1)%nat with (S (n - 1)) by lia.
        replace (5 - S k)%nat with (4 - k)%nat by lia.
        change (seq (4 - k) (S (n - 1)))
          with ((4 - k)%nat :: seq (S (4 - k)) (n - 1)).
        rewrite !map_cons, Hp, Hpauses.
        replace (S (4 - k))%nat with (5 - k)%nat by lia. reflexivity.
      - rewrite <- repeat_snoc.
        destruct o as [r | e]; [exact Hout |].
        destruct Hout as (-> & Hret & He). auto. }
    assert (Hb : backoff_time adapter (S (total adapter - S k))
                 = backoff_time adapter (4 - k)).
    { f_equal. change (total adapter) with 4%nat. lia. }
    simpl urlopen.
    destruct (srv (wire ++ [req])%list) as [r |] eqn:Hsrv.
    + destruct (is_retry adapter (S k) (wr_method req) r) eqn:Hretry.
      * apply Hnext. destruct (retry_after r); simpl; exact Hb.
      * exists (Ok r), 1%nat, []. rewrite app_nil_r. simpl.
        split; [reflexivity |]. split; [lia |]. split; [reflexivity |].
        split; [exact Hsrv | exact (adapter_not_retried _ _ _ Hretry)].
    + apply Hnext. simpl. exact Hb.
Qed.

(** The adapter of a fresh session makes one attempt and hands back
    whatever response it gets. *)
Lemma urlopen_default (req : wire_request) (wire : list wire_request)
  (pauses : list pause) :
  HTTPAdapter_send srv DEFAULT_RETRIES req wire pauses
  = (match srv (wire ++ [req])%list with
     | Answer r => Ok r
     | Dropped => Raise ConnectionError
     end, (wire ++ [req])%list, pauses).
Proof.
  unfold HTTPAdapter_send. simpl.
  destruct (srv (wire ++ [req])%list) as [r |]; [| reflexivity].
  unfold is_retry. simpl. rewrite andb_false_r. reflexivity.
Qed.

Lemma resolve_redirects_eq (policy : Retry) (redirects : nat)
  (req : wire_request) (wire : list wire_request) (pauses : list pause) :
  resolve_redirects srv policy redirects req wire pauses
  = match HTTPAdapter_send srv policy req wire pauses with
    | (Ok r, wire', pauses') =>
        match redirect_target r with
        | Some target =>
            match redirects with
            | O => (Raise TooManyRedirects, wire', pauses')
            | S n =>
                resolve_redirects srv policy n (redirected req r target) wire' pauses'
            end
        | None => (Ok r, wire', pauses')
        end
    | (Raise e, wire', pauses') => (Raise e, wire', pauses')
    end.
Proof.
  destruct redirects; reflexivity.
Qed.

(** Following redirects only adds requests and pauses to those of the
    first hop, and adds none when the first hop does not end in a
    redirect. *)
Lemma resolve_redirects_first_hop (policy : Retry) (redirects : nat) :
  forall req wire pauses o wire1 pauses1,
  HTTPAdapter_send srv policy req wire pauses = (o, wire1, pauses1) ->
  exists o' rest more,
    resolve_redirects srv policy redirects req wire pauses
    = (o', (wire1 ++ rest)%list, (pauses1 ++ more)%list)
    /\ ((forall r, o = Ok r -> redirect_target r = None) ->
        o' = o /\ rest = [] /\ more = []).
Proof.
  induction redirects as [| k IH]; intros req wire pauses o wire1 pauses1 Hhop;
    rewrite resolve_redirects_eq, Hhop.
  - destruct o as [r | e].
    + destruct (redirect_target r) as [t |] eqn:Ht.
      * exists (Raise TooManyRedirects), [], []. rewrite !app_nil_r.
        split; [reflexivity |]. intros Hno.
        specialize (Hno r eq_refl). congruence.
      * exists (Ok r), [], []. rewrite !app_nil_r. auto.
    + exists (Raise e), [], []. rewrite !app_nil_r. auto.
  - destruct o as [r | e].
    + destruct (redirect_target r) as [t |] eqn:Ht.
      * destruct (HTTPAdapter_send srv policy (redirected req r t) wire1 pauses1)
          as [[o2 wire2] pauses2] eqn:Hhop2.
        destruct (IH _ _ _ _ _ _ Hhop2) as (o' & rest & more & Hrun & _).
        unfold HTTPAdapter_send in Hhop2.
        destruct (urlopen_wire policy (redirected req r t) (total policy)
                    wire1 pauses1) as (o3 & n & new & Hrun3 & _ & _).
        rewrite Hhop2 in Hrun3. inversion Hrun3. subst.
        exists o', (repeat (redirected req r t) n ++ rest)%list, (new ++ more)%list.
        rewrite Hrun, <- !app_assoc.
        split; [reflexivity |]. intros Hno.
        specialize (Hno r eq_refl). congruence.
      * exists (Ok r), [], []. rewrite !app_nil_r. auto.
    + exists (Raise e), [], []. rewrite !app_nil_r. auto.
Qed.

(** A response that the session hands back is the reply to the last
    request on the wire; it is not a redirect and not one the policy
    retries. *)
Lemma resolve_redirects_ok (policy : Retry) (redirects : nat) :
  forall req wire pauses r wire' pauses',
  resolve_redirects srv policy redirects req wire pauses = (Ok r, wire', pauses') ->
  srv wire' = Answer r
  /\ redirect_target r = None
  /\ exists k m, is_retry policy k m r = false.
Proof.
  induction redirects as [| k IH]; intros req wire pauses r wire' pauses';
    rewrite resolve_redirects_eq; unfold HTTPAdapter_send;
    destruct (urlopen_wire policy req (total policy) wire pauses)
      as (o & n & new & Hrun & _ & Hok); rewrite Hrun;
    destruct o as [r1 | e]; try discriminate;
    destruct (redirect_target r1) as [t |] eqn:Ht; try discriminate.
  - intros Heq. inversion Heq. subst.
    destruct (Hok r eq_refl) as [Hsrv [k Hk]]. eauto.
  - apply IH.
  - intros Heq. inversion Heq. subst.
    destruct (Hok r eq_refl) as [Hsrv [k' Hk]]. eauto.
Qed.

(** The first request on the wire is the one the call was made for. *)
Lemma resolve_redirects_sends (policy : Retry) (redirects : nat)
  (req : wire_request) (wire : list wire_request) (pauses : list pause) :
  exists rest,
    snd (fst (resolve_redirects srv policy redirects req wire pauses))
    = (wire ++ req :: rest)%list.
Proof.
  destruct (HTTPAdapter_send srv policy req wire pauses) as [[o wire1] pauses1] eqn:Hhop.
  destruct (resolve_redirects_first_hop policy redirects _ _ _ _ _ _ Hhop)
    as (o' & rest & more & Hrun & _).
  unfold HTTPAdapter_send in Hhop.
  destruct (urlopen_wire policy req (total policy) wire pauses)
    as (o3 & n & new & Hrun3 & Hn & _).
  rewrite Hhop in Hrun3. inversion Hrun3. subst.
  destruct n as [| m]; [lia |].
  exists (repeat req m ++ rest)%list. rewrite Hrun. simpl.
  rewrite <- app_assoc. reflexivity.
Qed.

(** A body that can be written as JSON is posted through the session. *)
Lemma session_post_finite (url : string) (body : value) (wire : list wire_request) :
  finite_json body = true ->
  session_post srv url body wire
  = fst (Session_send srv adapter
           {| wr_method := POST; wr_url := url; wr_json := Some body |} wire).
Proof.
  intros Hfin. unfold session_post, session_post_timed. rewrite Hfin. reflexivity.
Qed.

(** Five failures that the policy retries exhaust the adapter. *)
Lemma urlopen_exhausted (req : wire_request) (wire : list wire_request)
  (pauses : list pause) :
  (forall n, (1 <= n <= 5)%nat -> retried (srv (wire ++ repeat req n)%list)) ->
  fst (HTTPAdapter_send srv adapter req wire pauses)
  = (Raise (exhausted (srv (wire ++ repeat req 5)%list)),
     (wire ++ repeat req 5)%list).
Proof.
  intros Hall. unfold HTTPAdapter_send.
  destruct (urlopen_run req 4 ltac:(simpl; lia) wire pauses)
    as (o & n & new & Hrun & Hn & _ & Hout).
  simpl total. rewrite Hrun. cbn [fst].
  destruct o as [r | e].
  - destruct Hout as [Hsrv Hlist].
    pose proof (Hall n ltac:(lia)) as Hret. rewrite Hsrv in Hret.
    unfold retried in Hret. congruence.
  - destruct Hout as (-> & _ & ->). reflexivity.
Qed.

Lemma session_post_exhausted (url : string) (body : value)
  (wire : list wire_request) :
  finite_json body = true ->
  (forall n, (1 <= n <= 5)%nat ->
             retried (srv (wire ++ repeat
                             {| wr_method := POST; wr_url := url;
                                wr_json := Some body |} n)%list)) ->
  session_post srv url body wire
  = (Raise (exhausted (srv (wire ++ repeat
                              {| wr_method := POST; wr_url := url;
                                 wr_json := Some body |} 5)%list)),
     (wire ++ repeat {| wr_method := POST; wr_url := url;
                        wr_json := Some body |} 5)%list).
Proof.
  intros Hfin Hall. rewrite (session_post_finite _ _ _ Hfin).
  unfold Session_send. rewrite resolve_redirects_eq.
  pose proof (urlopen_exhausted _ wire [] Hall) as Hhop.
  destruct (HTTPAdapter_send srv adapter _ wire []) as [[o w] p].
  cbn [fst] in Hhop. inversion Hhop. subst. reflexivity.
Qed.

(** One attempt is all the session makes when the first reply is a
    response that its policy does not retry and that is not a redirect. *)
Lemma session_post_once (url : string) (body : value)
  (wire : list wire_request) (r : response) :
  finite_json body = true ->
  srv (wire ++ [{| wr_method := POST; wr_url := url; wr_json := Some body |}])%list
    = Answer r ->
  mem_Z (status_code r) (status_forcelist adapter) = false ->
  retry_after r = false \/ mem_Z (status_code r) RETRY_AFTER_STATUS_CODES = false ->
  redirect_target r = None ->
  session_post_timed srv url body wire
  = (Ok r,
     (wire ++ [{| wr_method := POST; wr_url := url; wr_json := Some body |}])%list,
     []).
Proof.
  intros Hfin Hsrv Hlist Hlater Hnot.
  assert (Hno : is_retry adapter 4 POST r = false).
  { unfold is_retry. rewrite Hlist.
    destruct Hlater as [Hl | Hl]; rewrite Hl; simpl; rewrite ?andb_false_r;
      reflexivity. }
  unfold session_post_timed. rewrite Hfin.
  unfold Session_send. rewrite resolve_redirects_eq.
  unfold HTTPAdapter_send.
  change (total adapter) with 4%nat. cbn [urlopen wr_method].
  rewrite Hsrv, Hno, Hnot. reflexivity.
Qed.

(** [requests.get]: the request sent first is the GET that was asked for. *)
Lemma requests_get_sends (url : string) (wire : list wire_request) :
  exists rest,
    snd (requests_get srv url wire)
    = (wire ++ {| wr_method := GET; wr_url := url; wr_json := None |} :: rest)%list.
Proof.
  unfold requests_get, Session_send.
  destruct (resolve_redirects_sends DEFAULT_RETRIES DEFAULT_REDIRECT_LIMIT
              {| wr_method := GET; wr_url := url; wr_json := None |} wire [])
    as [rest Hrest].
  exists rest. exact Hrest.
Qed.

Lemma requests_get_ok (url : string) (wire wire' : list wire_request)
  (r : response) :
  requests_get srv url wire = (Ok r, wire') ->
  srv wire' = Answer r /\ redirect_target r = None.
Proof.
  unfold requests_get, Session_send. intros Hget.
  destruct (resolve_redirects srv DEFAULT_RETRIES DEFAULT_REDIRECT_LIMIT
              {| wr_method := GET; wr_url := url; wr_json := None |} wire [])
    as [[o w1] p1] eqn:Hrun.
  cbn [fst] in Hget. inversion Hget. subst.
  destruct (resolve_redirects_ok _ _ _ _ _ _ _ _ Hrun) as (Hsrv & Hnot & _).
  auto.
Qed.

(** A reply that is not a redirect is handed back after the one attempt,
    whatever its status. *)
Lemma requests_get_direct (url : string) (wire : list wire_request)
  (r : response) :
  srv (wire ++ [{| wr_method := GET; wr_url := url; wr_json := None |}])%list
    = Answer r ->
  redirect_target r = None ->
  requests_get srv url wire
  = (Ok r, (wire ++ [{| wr_method := GET; wr_url := url; wr_json := None |}])%list).
Proof.
  intros Hsrv Hnot. unfold requests_get, Session_send.
  rewrite resolve_redirects_eq, urlopen_default, Hsrv, Hnot. reflexivity.
Qed.

Lemma requests_get_dropped (url : string) (wire : list wire_request) :
  srv (wire ++ [{| wr_method := GET; wr_url := url; wr_json := None |}])%list
    = Dropped ->
  requests_get srv url wire
  = (Raise ConnectionError,
     (wire ++ [{| wr_method := GET; wr_url := url; wr_json := None |}])%list).
Proof.
  intros Hsrv. unfold requests_get, Session_send.
  rewrite resolve_redirects_eq, urlopen_default, Hsrv. reflexivity.
Qed.

(** Statuses: an error, or a status the policy lists, is no redirect;
    neither is 200, which the policy does not retry either. *)
Lemma error_not_redirect (r : response) :
  error_status r -> redirect_target r = None.
Proof.
  unfold error_status, redirect_target. intros Herr.
  destruct (location r) as [target |]; [| reflexivity].
  unfold mem_Z, REDIRECT_STATI. cbn [existsb].
  repeat match goal with
         | |- context [Z.eqb ?a ?b] =>
             destruct (Z.eqb_spec a b); [lia |]
         end.
  reflexivity.
Qed.

Lemma listed_is_error (r : response) :
  mem_Z (status_code r) (status_forcelist adapter) = true -> error_status r.
Proof.
  unfold error_status, mem_Z, adapter. cbn [status_forcelist existsb].
  repeat match goal with
         | |- context [Z.eqb ?a ?b] =>
             destruct (Z.eqb_spec a b); [lia |]
         end.
  discriminate.
Qed.

Lemma listed_not_redirect (r : response) :
  mem_Z (status_code r) (status_forcelist adapter) = true ->
  redirect_target r = None.
Proof.
  intros Hlisted. apply error_not_redirect, listed_is_error. exact Hlisted.
Qed.

Lemma is_retry_listed (k : nat) (r : response) :
  mem_Z (status_code r) (status_forcelist adapter) = true ->
  is_retry adapter k POST r = true.
Proof.
  intros Hlisted. unfold is_retry. rewrite Hlisted. reflexivity.
Qed.

Lemma is_retry_success (k : nat) (m : method) (r : response) :
  status_code r = 200%Z ->
  is_retry adapter k m r = false /\ redirect_target r = None.
Proof.
  intros H200. unfold is_retry, redirect_target. rewrite H200. simpl.
  rewrite !andb_false_r. split; [reflexivity |].
  destruct (location r); reflexivity.
Qed.

(** A response that [session.post] hands back never has a status of the
    policy's list. *)
Lemma session_post_ok_status (url : string) (body : value)
  (wire wire' : list wire_request) (r : response) :
  session_post srv url body wire = (Ok r, wire') ->
  mem_Z (status_code r) (status_forcelist adapter) = false.
Proof.
  unfold session_post, session_post_timed, Session_send.
  destruct (finite_json body); [| discriminate].
  destruct (resolve_redirects srv adapter DEFAULT_REDIRECT_LIMIT
              {| wr_method := POST; wr_url := url; wr_json := Some body |} wire [])
    as [[o w1] p1] eqn:Hrun.
  cbn [fst]. intros Heq. inversion Heq. subst.
  destruct (resolve_redirects_ok _ _ _ _ _ _ _ _ Hrun) as (_ & _ & k & m & Hk).
  exact (adapter_not_retried _ _ _ Hk).
Qed.

(** The first hop of a POST through the session: between one and five
    attempts with the pauses of the backoff schedule between them, ended by
    giving up after the fifth failure or by a response that the policy does
    not retry. *)
Lemma session_post_first_hop (url : string) (body : value)
  (wire : list wire_request) :
  finite_json body = true ->
  exists n first rest more,
    (1 <= n <= 5)%nat
    /\ map fallback first = firstn (n - 1) [0; 2; 4; 8]%Z
    /\ snd (fst (session_post_timed srv url body wire))
       = (wire ++ repeat {| wr_method := POST; wr_url := url;
                            wr_json := Some body |} n ++ rest)%list
    /\ snd (session_post_timed srv url body wire) = (first ++ more)%list
    /\ match srv (wire ++ repeat {| wr_method := POST; wr_url := url;
                                    wr_json := Some body |} n)%list with
       | Dropped =>
           n = 5%nat
           /\ session_post_timed srv url body wire
              = (Raise ConnectionError,
                 (wire ++ repeat {| wr_method := POST; wr_url := url;
                                    wr_json := Some body |} 5)%list,
                 first)
       | Answer r =>
           if mem_Z (status_code r) [429; 500; 502; 503; 504]%Z then
             n = 5%nat
             /\ session_post_timed srv url body wire
                = (Raise RetryError,
                   (wire ++ repeat {| wr_method := POST; wr_url := url;
                                      wr_json := Some body |} 5)%list,
                   first)
           else
             redirect_target r = None ->
             session_post_timed srv url body wire
             = (Ok r,
                (wire ++ repeat {| wr_method := POST; wr_url := url;
                                   wr_json := Some body |} n)%list,
                first)
       end.
Proof.
  intros Hfin. unfold session_post_timed. rewrite Hfin. unfold Session_send.
  set (req := {| wr_method := POST; wr_url := url; wr_json := Some body |}).
  destruct (urlopen_run req 4 ltac:(lia) wire [])
    as (o & n & new & Hrun & Hn & Hpauses & Hout).
  cbn [app] in Hrun.
  destruct (resolve_redirects_first_hop adapter DEFAULT_REDIRECT_LIMIT
              req wire [] o _ _ Hrun) as (o' & rest & more & Hres & Hsame).
  exists n, new, rest, more. rewrite Hres. cbn [fst snd].
  split; [lia |]. split.
  { rewrite Hpauses.
    assert (Hcases : (n = 1 \/ n = 2 \/ n = 3 \/ n = 4 \/ n = 5)%nat) by lia.
    destruct Hcases as [-> | [-> | [-> | [-> | ->]]]]; reflexivity. }
  split; [rewrite <- app_assoc; reflexivity |]. split; [reflexivity |].
  destruct (srv (wire ++ repeat req n)%list) as [r |] eqn:Hsrv.
  - destruct o as [r' | e].
    + destruct Hout as [Hr Hlisted]. inversion Hr. subst r'.
      change [429; 500; 502; 503; 504]%Z with (status_forcelist adapter).
      rewrite Hlisted. intros Hnot.
      destruct Hsame as (-> & -> & ->).
      { intros r0 Hr0. inversion Hr0. subst. exact Hnot. }
      rewrite !app_nil_r. reflexivity.
    + destruct Hout as (-> & Hret & ->). cbn [retried exhausted] in *.
      change [429; 500; 502; 503; 504]%Z with (status_forcelist adapter).
      rewrite Hret. split; [reflexivity |].
      destruct Hsame as (-> & -> & ->); [discriminate |].
      rewrite !app_nil_r. reflexivity.
  - destruct o as [r' | e].
    + destruct Hout as [Hr _]. discriminate.
    + destruct Hout as (-> & _ & ->). cbn [exhausted]. split; [reflexivity |].
      destruct Hsame as (-> & -> & ->); [discriminate |].
      rewrite !app_nil_r. reflexivity.
Qed.

(** Three attempts answered with a listed status and a fourth answered
    200: the response is handed back after four attempts and three pauses,
    of nothing, two and four seconds. *)
Lemma session_post_fourth_attempt (url : string) (body : value)
  (wire : list wire_request) (r1 r2 r3 r4 : response) :
  finite_json body = true ->
  srv (wire ++ repeat {| wr_method := POST; wr_url := url;
                         wr_json := Some body |} 1)%list = Answer r1 ->
  mem_Z (status_code r1) (status_forcelist adapter) = true ->
  srv (wire ++ repeat {| wr_method := POST; wr_url := url;
                         wr_json := Some body |} 2)%list = Answer r2 ->
  mem_Z (status_code r2) (status_forcelist adapter) = true ->
  srv (wire ++ repeat {| wr_method := POST; wr_url := url;
                         wr_json := Some body |} 3)%list = Answer r3 ->
  mem_Z (status_code r3) (status_forcelist adapter) = true ->
  srv (wire ++ repeat {| wr_method := POST; wr_url := url;
                         wr_json := Some body |} 4)%list = Answer r4 ->
  status_code r4 = 200%Z ->
  exists pauses,
    session_post_timed srv url body wire
    = (Ok r4,
       (wire ++ repeat {| wr_method := POST; wr_url := url;
                          wr_json := Some body |} 4)%list,
       pauses)
    /\ map fallback pauses = [0; 2; 4]%Z.
Proof.
  set (req := {| wr_method := POST; wr_url := url; wr_json := Some body |}).
  intros Hfin H1 L1 H2 L2 H3 L3 H4 H200.
  destruct (is_retry_success 1 POST r4 H200) as [Hno Hnot].
  rewrite <- repeat_snoc in H2.
  do 2 rewrite <- repeat_snoc in H3.
  do 3 rewrite <- repeat_snoc in H4.
  cbn [repeat] in H1, H2, H3, H4.
  unfold session_post_timed. rewrite Hfin. unfold Session_send.
  rewrite resolve_redirects_eq. unfold HTTPAdapter_send.
  change (total adapter) with 4%nat. fold req.
  cbn [urlopen]. change (wr_method req) with POST.
  rewrite H1, (is_retry_listed 4 r1 L1).
  rewrite H2, (is_retry_listed 3 r2 L2).
  rewrite H3, (is_retry_listed 2 r3 L3).
  rewrite H4, Hno, Hnot.
  eexists. split.
  - rewrite <- !app_assoc. reflexivity.
  - destruct (retry_after r1), (retry_after r2), (retry_after r3); reflexivity.
Qed.

(** A GET made with [requests.get] and answered with a status of the
    session's list is handed back after the one attempt. *)
Lemma requests_get_listed (url : string) (wire : list wire_request)
  (r : response) :
  srv (wire ++ [{| wr_method := GET; wr_url := url; wr_json := None |}])%list
    = Answer r ->
  mem_Z (status_code r) (status_forcelist adapter) = true ->
  requests_get srv url wire
  = (Ok r, (wire ++ [{| wr_method := GET; wr_url := url; wr_json := None |}])%list).
Proof.
  intros Hsrv Hlisted.
  exact (requests_get_direct url wire r Hsrv (listed_not_redirect r Hlisted)).
Qed.

End Wire.

(** * Further properties of the annotator *)

Section TokenTurns.
Context `{Runtime}.

Lemma post_calls (url : string) (body : value) (s s' : state)
  (o : result response) :
  post url body s = (o, s') ->
  calls s' = (calls s ++ [{| call_url := url; call_json := body;
                             call_outcome := o |}])%list.
Proof.
  unfold post. destruct (send url body (world s)) as [o' w].
  intros Heq. inversion Heq. subst. reflexivity.
Qed.

Lemma annotate_text_not_ok (text : string) (s s1 : state) (r : response) :
  post NEMOSERVE_ANNOTATE_ENDPOINT (request (VStr text) NEMOSERVE_MODEL_NAME) s
    = (Ok r, s1) ->
  ok r = false ->
  annotate_text text s = (Ok [], s1).
Proof.
  intros Hp Hok. unfold annotate_text.
  rewrite (bind_ok _ _ _ _ _ Hp), Hok. reflexivity.
Qed.

Lemma annotate_text_post_raises (text : string) (s s1 : state) (e : exn) :
  post NEMOSERVE_ANNOTATE_ENDPOINT (request (VStr text) NEMOSERVE_MODEL_NAME) s
    = (Raise e, s1) ->
  annotate_text text s = (Raise e, s1).
Proof.
  intros Hp. unfold annotate_text. apply bind_raise. exact Hp.
Qed.

(** What one turn of the loop can do: stop before any request, or send
    exactly one request for the token's text and act on its outcome. *)
Lemma annotate_token_inv (token : value) (track : list value) (s s' : state)
  (res : result flow) :
  annotate_token token track s = (res, s') ->
  (s' = s /\ exists e, res = Raise e)
  \/ (exists text o,
         getitem token "text" = Ok text
         /\ post SAPBERT_ANNOTATE_ENDPOINT (request text SAPBERT_MODEL_NAME) s = (o, s')
         /\ match o with
            | Raise e => res = Raise e
            | Ok r =>
                if ok r then
                  exists d,
                    token = VDict d
                    /\ dict_get "text" d = Some text
                    /\ res = match closest_match_of r with
                             | Ok (curie, label, distance_score) =>
                                 Ok (Continue
                                       (track ++
                                          [VDict (dict_set "obj"
                                                    (VStr (obj_of curie label
                                                             distance_score)) d)])%list)
                             | Raise e => Raise e
                             end
                else res = Ok (Return [])
            end).
Proof.
  intros Hrun.
  destruct (getitem token "text") as [text | e] eqn:Ht.
  2:{ rewrite (annotate_token_no_text _ _ _ _ Ht) in Hrun.
      inversion Hrun. subst. left. eauto. }
  destruct (truthy text) eqn:Htr.
  2:{ rewrite (annotate_token_empty_text _ _ _ _ Ht Htr) in Hrun.
      inversion Hrun. subst. left. eauto. }
  right. exists text.
  destruct (post SAPBERT_ANNOTATE_ENDPOINT (request text SAPBERT_MODEL_NAME) s)
    as [[r | e] s1] eqn:Hp.
  - destruct (ok r) eqn:Hok.
    + destruct (getitem_ok_dict _ _ _ Ht) as [d [-> Hd]].
      rewrite (annotate_token_ok d text track s s1 r Hd Htr Hp Hok) in Hrun.
      inversion Hrun. subst. exists (Ok r). rewrite Hok.
      split; [reflexivity |]. split; [reflexivity |]. exists d. auto.
    + rewrite (annotate_token_not_ok _ _ _ _ _ _ Ht Htr Hp Hok) in Hrun.
      inversion Hrun. subst. exists (Ok r). rewrite Hok. auto.
  - rewrite (annotate_token_post_raises _ _ _ _ _ _ Ht Htr Hp) in Hrun.
    inversion Hrun. subst. exists (Raise e). auto.
Qed.

(** A turn that lets the loop go on has added exactly one Denotation, which
    has a text and an obj. *)
Lemma annotate_token_continue (token : value) (track track' : list value)
  (s s' : state) :
  annotate_token token track s = (Ok (Continue track'), s') ->
  exists denotation,
    track' = (track ++ [denotation])%list /\ has_text_and_obj denotation.
Proof.
  intros Hrun.
  destruct (annotate_token_inv _ _ _ _ _ Hrun) as [[_ [e He]] | (text & o & Ht & Hp & Ho)];
    [discriminate |].
  destruct o as [r | e]; [| discriminate].
  destruct (ok r); [| discriminate].
  destruct Ho as (d & -> & Hd & Hres).
  destruct (closest_match_of r) as [[[curie label] score] | e]; [| discriminate].
  inversion Hres. subst. eexists. split; [reflexivity |].
  exists text, (VStr (obj_of curie label score)). split; simpl.
  - rewrite dict_get_set_other; [rewrite Hd; reflexivity | discriminate].
  - rewrite dict_get_set_same. reflexivity.
Qed.

Lemma annotate_tokens_continue (tokens : list value) :
  forall track track' s s',
  annotate_tokens tokens track s = (Ok (Continue track'), s') ->
  exists denotations,
    track' = (track ++ denotations)%list
    /\ List.length denotations = List.length tokens
    /\ Forall has_text_and_obj denotations.
Proof.
  induction tokens as [| token rest IH]; intros track track' s s' Hrun.
  - simpl in Hrun. unfold ret in Hrun. inversion Hrun. subst.
    exists []. rewrite app_nil_r. auto.
  - simpl in Hrun. unfold bind in Hrun.
    destruct (annotate_token token track s) as [[[t | v] | e] s1] eqn:Hturn.
    + destruct (annotate_token_continue _ _ _ _ _ Hturn) as (den & -> & Hden).
      destruct (IH _ _ _ _ Hrun) as (dens & -> & Hlen & Hall).
      exists (den :: dens). rewrite <- app_assoc. simpl.
      split; [reflexivity |]. split; [lia | constructor; assumption].
    + unfold ret in Hrun. discriminate.
    + discriminate.
Qed.

(** X1.  After a successful recognizer response, what [annotate_text]
    returns is all or nothing: one Denotation for each token, or the empty
    sequence because the normalizer answered some token with a non-success
    status.  A proper part of the tokens is never returned. *)
Theorem annotate_text_all_or_nothing (text : string) (s s1 s' : state)
  (r : response) (tokens denotations : list value) :
  post NEMOSERVE_ANNOTATE_ENDPOINT (request (VStr text) NEMOSERVE_MODEL_NAME) s
    = (Ok r, s1) ->
  ok r = true ->
  tokens_of r = Ok tokens ->
  annotate_text text s = (Ok denotations, s') ->
  List.length denotations = List.length tokens
  \/ (denotations = []
      /\ exists before token after track s2 tv r2,
          tokens = (before ++ token :: after)%list
          /\ annotate_tokens before [] s1 = (Ok (Continue track), s2)
          /\ getitem token "text" = Ok tv
          /\ post SAPBERT_ANNOTATE_ENDPOINT (request tv SAPBERT_MODEL_NAME) s2
             = (Ok r2, s')
          /\ ok r2 = false).
Proof.
  intros Hp Hok Htok Hrun.
  rewrite (annotate_text_ok text s s1 r Hp Hok), Htok in Hrun.
  destruct (annotate_tokens tokens [] s1) as [[[track | v] | e] s2] eqn:Hloop.
  - inversion Hrun. subst. left.
    destruct (annotate_tokens_continue _ _ _ _ _ Hloop) as (dens & -> & Hlen & _).
    exact Hlen.
  - inversion Hrun. subst. right.
    split; [eapply annotate_tokens_return; exact Hloop |].
    exact (annotate_tokens_return_inv _ _ _ _ _ Hloop).
  - discriminate.
Qed.

(** Every Denotation that [annotate_text] returns has a text and an obj. *)
Lemma annotate_text_denotations (text : string) (s s' : state)
  (denotations : list value) :
  annotate_text text s = (Ok denotations, s') ->
  Forall has_text_and_obj denotations.
Proof.
  intros Hrun.
  destruct (post NEMOSERVE_ANNOTATE_ENDPOINT
              (request (VStr text) NEMOSERVE_MODEL_NAME) s) as [[r | e] s1] eqn:Hp.
  2:{ rewrite (annotate_text_post_raises _ _ _ _ Hp) in Hrun. discriminate. }
  destruct (ok r) eqn:Hok.
  2:{ rewrite (annotate_text_not_ok _ _ _ _ Hp Hok) in Hrun.
      inversion Hrun. constructor. }
  rewrite (annotate_text_ok text s s1 r Hp Hok) in Hrun.
  destruct (tokens_of r) as [tokens | e]; [| discriminate].
  destruct (annotate_tokens tokens [] s1) as [[[track | v] | e] s2] eqn:Hloop.
  - inversion Hrun. subst.
    destruct (annotate_tokens_continue _ _ _ _ _ Hloop) as (dens & -> & _ & Hall).
    exact Hall.
  - inversion Hrun. subst.
    rewrite (annotate_tokens_return _ _ _ _ _ Hloop). constructor.
  - discriminate.
Qed.

Lemma count_logged_all (annotations : list value) :
  Forall has_text_and_obj annotations ->
  forall count,
  count_logged annotations count = (count + List.length annotations)%nat.
Proof.
  induction 1 as [| a rest (t & o & Ht & Ho) _ IH]; intros count; simpl.
  - lia.
  - rewrite Ht, Ho, IH. lia.
Qed.

(** X2.  When the annotator returns for a field, the field is counted, the
    number of annotations grows by exactly the number of Denotations
    returned (logging them never fails), and the field is added to the
    unannotated list exactly when none was returned. *)
Theorem annotate_field_returned (filename : string) (field name : value)
  (text : string) (acc : summary) (s s' : state) (annotations : list value) :
  text_to_annotate field = Ok (name, text) ->
  annotate_text text s = (Ok annotations, s') ->
  annotate_field filename field acc s
  = (Ok {| count_files := count_files acc;
           count_fields := S (count_fields acc);
           count_annotations :=
             (count_annotations acc + List.length annotations)%nat;
           unannotated_fields :=
             match annotations with
             | [] => (unannotated_fields acc ++ [field_id filename name])%list
             | _ :: _ => unannotated_fields acc
             end |}, s').
Proof.
  intros Ht Hrun. unfold annotate_field. rewrite bind_lift, Ht. cbn [snd fst].
  rewrite Hrun. cbn.
  rewrite (count_logged_all _ (annotate_text_denotations _ _ _ _ Hrun)).
  destruct annotations; reflexivity.
Qed.

Lemma annotate_tokens_calls (tokens : list value) :
  forall track s s' res,
  annotate_tokens tokens track s = (res, s') ->
  exists normalizer_calls,
    calls s' = (calls s ++ normalizer_calls)%list
    /\ (List.length normalizer_calls <= List.length tokens)%nat
    /\ Forall2 normalizer_request
         (firstn (List.length normalizer_calls) tokens) normalizer_calls.
Proof.
  induction tokens as [| token rest IH]; intros track s s' res Hrun.
  - simpl in Hrun. unfold ret in Hrun. inversion Hrun. subst.
    exists []. rewrite app_nil_r. simpl. auto.
  - simpl in Hrun. unfold bind in Hrun.
    destruct (annotate_token token track s) as [r0 s1] eqn:Hturn.
    destruct (annotate_token_inv _ _ _ _ _ Hturn)
      as [[-> [e ->]] | (text & o & Ht & Hp & Ho)].
    + inversion Hrun. subst. exists []. rewrite app_nil_r. simpl.
      split; [reflexivity |]. split; [lia | constructor].
    + pose proof (post_calls _ _ _ _ _ Hp) as Hc.
      assert (Hreq : normalizer_request token
                       {| call_url := SAPBERT_ANNOTATE_ENDPOINT;
                          call_json := request text SAPBERT_MODEL_NAME;
                          call_outcome := o |}).
      { exists text. auto. }
      destruct r0 as [[t | v] | e].
      * destruct (IH _ _ _ _ Hrun) as (ncalls & Hcalls & Hlen & Hall).
        eexists (_ :: ncalls). rewrite Hcalls, Hc, <- app_assoc. simpl.
        split; [reflexivity |]. split; [lia |]. constructor; [exact Hreq | exact Hall].
      * unfold ret in Hrun. inversion Hrun. subst.
        eexists [_]. split; [exact Hc |]. simpl. split; [lia |].
        constructor; [exact Hreq | constructor].
      * inversion Hrun. subst.
        eexists [_]. split; [exact Hc |]. simpl. split; [lia |].
        constructor; [exact Hreq | constructor].
Qed.

(** X3.  Whatever its outcome, [annotate_text] sends one request to the
    recognizer, for the text and the recognizer's model, and then only
    requests to the normalizer: none unless the recognizer answered
    successfully with tokens, at most one per token, in token order, each
    for its token's text and the normalizer's model. *)
Theorem annotate_text_requests (text : string) (s s' : state)
  (res : result (list value)) :
  annotate_text text s = (res, s') ->
  exists o normalizer_calls,
    calls s'
    = (calls s ++
         {| call_url := NEMOSERVE_ANNOTATE_ENDPOINT;
            call_json := request (VStr text) NEMOSERVE_MODEL_NAME;
            call_outcome := o |} :: normalizer_calls)%list
    /\ match o with
       | Ok r =>
           if ok r then
             match tokens_of r with
             | Ok tokens =>
                 (List.length normalizer_calls <= List.length tokens)%nat
                 /\ Forall2 normalizer_request
                      (firstn (List.length normalizer_calls) tokens)
                      normalizer_calls
             | Raise _ => normalizer_calls = []
             end
           else normalizer_calls = []
       | Raise _ => normalizer_calls = []
       end.
Proof.
  intros Hrun.
  destruct (post NEMOSERVE_ANNOTATE_ENDPOINT
              (request (VStr text) NEMOSERVE_MODEL_NAME) s) as [o s1] eqn:Hp.
  pose proof (post_calls _ _ _ _ _ Hp) as Hc.
  exists o.
  destruct o as [r | e].
  - destruct (ok r) eqn:Hok.
    + rewrite (annotate_text_ok text s s1 r Hp Hok) in Hrun.
      destruct (tokens_of r) as [tokens | e].
      * destruct (annotate_tokens tokens [] s1) as [r0 s2] eqn:Hloop.
        destruct (annotate_tokens_calls _ _ _ _ _ Hloop)
          as (ncalls & Hcalls & Hlen & Hall).
        assert (s' = s2) by (destruct r0 as [[t | v] | e]; inversion Hrun; reflexivity).
        subst s2. exists ncalls. rewrite Hcalls, Hc, <- app_assoc. auto.
      * inversion Hrun. subst. exists []. rewrite Hc. auto.
    + rewrite (annotate_text_not_ok _ _ _ _ Hp Hok) in Hrun.
      inversion Hrun. subst. exists []. rewrite Hc. auto.
  - rewrite (annotate_text_post_raises _ _ _ _ Hp) in Hrun.
    inversion Hrun. subst. exists []. rewrite Hc. auto.
Qed.

End TokenTurns.

Lemma annotate_text_all_or_nothing_witness :
  exists denotations s',
    @annotate_text scripted "pain: Pain score"
      (script [Ok (recognized [token_of "pain"]);
               Ok (respond 200 (Some (VList [candidate "D010146" "Pain" 0.25%float])))])
    = (Ok denotations, s')
    /\ (List.length denotations = 1%nat \/ denotations = []).
Proof.
  eexists _, _. split; [reflexivity |].
  destruct (@annotate_text_all_or_nothing scripted "pain: Pain score"
              (script [Ok (recognized [token_of "pain"]);
                       Ok (respond 200
                             (Some (VList [candidate "D010146" "Pain" 0.25%float])))])
              _ _ (recognized [token_of "pain"]) [token_of "pain"] _
              eq_refl eq_refl eq_refl eq_refl) as [Hall | [Hnone _]].
  - left. exact Hall.
  - right. exact Hnone.
Defined.

Lemma annotate_field_returned_witness :
  fst (@annotate_field scripted "a.json"
         (VDict [("name", VStr "pain"); ("description", VStr "Pain score")])
         {| count_files := 1; count_fields := 0; count_annotations := 0;
            unannotated_fields := [] |}
         (script [Ok (recognized [token_of "pain"]);
                  Ok (respond 200
                        (Some (VList [candidate "D010146" "Pain" 0.25%float])))]))
  = Ok {| count_files := 1; count_fields := 1; count_annotations := 1;
          unannotated_fields := [] |}.
Proof.
  pose proof (@annotate_field_returned scripted "a.json"
              (VDict [("name", VStr "pain"); ("description", VStr "Pain score")])
              (VStr "pain") ("pain: Pain score" ++ nl)
              {| count_files := 1; count_fields := 0; count_annotations := 0;
                 unannotated_fields := [] |}
              (script [Ok (recognized [token_of "pain"]);
                       Ok (respond 200
                             (Some (VList [candidate "D010146" "Pain" 0.25%float])))])
              _ _ eq_refl eq_refl) as Hrun.
  rewrite Hrun. reflexivity.
Defined.

Lemma annotate_text_requests_witness :
  exists o normalizer_calls,
    @calls scripted
      (snd (@annotate_text scripted "pain: Pain score"
              (script [Ok (recognized [token_of "pain"; token_of "fever"]);
                       Ok (respond 404 None)])))
    = {| call_url := default_nemoserve;
         call_json := request (VStr "pain: Pain score") NEMOSERVE_MODEL_NAME;
         call_outcome := o |} :: normalizer_calls
    /\ (List.length normalizer_calls <= 2)%nat.
Proof.
  destruct (@annotate_text_requests scripted "pain: Pain score"
              (script [Ok (recognized [token_of "pain"; token_of "fever"]);
                       Ok (respond 404 None)]) _ _ eq_refl)
    as (o & ncalls & Hcalls & Hshape).
  exists o, ncalls. split; [exact Hcalls |].
  simpl in Hcalls. inversion Hcalls. subst. simpl. lia.
Defined.

(** * Further properties of the batch run *)

Section Accounting.
Context `{Runtime}.

(** X4.  Directory entries whose name does not end in [.json] play no part
    in the run: the summary, the requests sent and the exception raised, if
    any, are those of the run over the [.json] entries alone. *)
Theorem annotate_dds_ignores_other_entries
  (listing : list (string * option value)) (s : state) :
  annotate_dds (filter is_json listing) s = annotate_dds listing s.
Proof.
  unfold annotate_dds.
  generalize {| count_files := 0; count_fields := 0; count_annotations := 0;
                unannotated_fields := [] |}.
  revert s. induction listing as [| entry rest IH]; intros s acc; [reflexivity |].
  simpl filter. destruct (is_json entry) eqn:Hjson.
  - simpl. unfold bind.
    destruct (annotate_file entry acc s) as [[acc' | e] s1]; [apply IH | reflexivity].
  - simpl. unfold bind, annotate_file. fold (is_json entry). rewrite Hjson.
    cbn [negb]. unfold ret. apply IH.
Qed.

Lemma annotate_field_ok_inv (filename : string) (field : value)
  (acc acc' : summary) (s s' : state) :
  annotate_field filename field acc s = (Ok acc', s') ->
  (exists p, text_to_annotate field = Ok p)
  /\ (List.length (unannotated_fields acc')
      <= S (List.length (unannotated_fields acc)))%nat
  /\ (count_annotations acc <= count_annotations acc')%nat.
Proof.
  unfold annotate_field. rewrite bind_lift.
  destruct (text_to_annotate field) as [p | e]; [| discriminate].
  destruct (annotate_text (snd p) s) as [[annotations | e] s1] eqn:Hrun;
    intros Heq; inversion Heq; subst; cbn.
  - split; [eauto |]. split.
    + destruct annotations; cbn; [rewrite length_app; simpl; lia | lia].
    + rewrite (count_logged_all _ (annotate_text_denotations _ _ _ _ Hrun)). lia.
  - split; [eauto |]. split; lia.
Qed.

Lemma annotate_fields_ok_inv (filename : string) (fields : list value) :
  forall acc acc' s s',
  annotate_fields filename fields acc s = (Ok acc', s') ->
  Forall (fun field => exists p, text_to_annotate field = Ok p) fields
  /\ (List.length (unannotated_fields acc')
      <= List.length (unannotated_fields acc) + List.length fields)%nat
  /\ (count_annotations acc <= count_annotations acc')%nat.
Proof.
  induction fields as [| field rest IH]; intros acc acc' s s' Hrun.
  - simpl in Hrun. unfold ret in Hrun. inversion Hrun. subst.
    split; [constructor |]. split; simpl; lia.
  - simpl in Hrun. unfold bind in Hrun.
    destruct (annotate_field filename field acc s) as [[acc1 | e] s1] eqn:Hf;
      [| discriminate].
    destruct (annotate_field_ok_inv _ _ _ _ _ _ Hf) as (Hp & Hl & Hc).
    destruct (IH _ _ _ _ Hrun) as (Hps & Hls & Hcs).
    split; [constructor; assumption |]. split; simpl; lia.
Qed.

Lemma annotate_file_ok_inv (entry : string * option value)
  (acc acc' : summary) (s s' : state) :
  annotate_file entry acc s = (Ok acc', s') ->
  exists fields,
    entry_fields entry = Ok fields
    /\ Forall (fun field => exists p, text_to_annotate field = Ok p) fields
    /\ (List.length (unannotated_fields acc')
        <= List.length (unannotated_fields acc) + List.length fields)%nat
    /\ (count_annotations acc <= count_annotations acc')%nat.
Proof.
  unfold annotate_file, entry_fields. fold (is_json entry).
  destruct (is_json entry); cbn [negb].
  - rewrite bind_lift.
    destruct (json_load (snd entry)) as [doc | e]; cbn [rbind]; [| discriminate].
    rewrite bind_lift.
    destruct (fields_of_doc doc) as [fs | e]; cbn [rbind]; [| discriminate].
    rewrite bind_lift.
    destruct (len fs) as [n | e]; cbn [rbind]; [| discriminate].
    rewrite bind_lift.
    destruct (iter fs) as [fields | e]; [| discriminate].
    intros Hrun. exists fields. split; [reflexivity |].
    destruct (annotate_fields_ok_inv _ _ _ _ _ _ Hrun) as (Hp & Hl & Hc).
    cbn in Hl, Hc. auto.
  - unfold ret. intros Heq. inversion Heq. subst.
    exists []. split; [reflexivity |]. split; [constructor |]. split; simpl; lia.
Qed.

Lemma annotate_files_ok_inv (listing : list (string * option value)) :
  forall acc acc' s s',
  annotate_files listing acc s = (Ok acc', s') ->
  readable listing
  /\ (List.length (unannotated_fields acc')
      <= List.length (unannotated_fields acc)
         + List.length (flat_map fields_in listing))%nat
  /\ (count_annotations acc <= count_annotations acc')%nat.
Proof.
  induction listing as [| entry rest IH]; intros acc acc' s s' Hrun.
  - simpl in Hrun. unfold ret in Hrun. inversion Hrun. subst.
    split; [constructor |]. split; simpl; lia.
  - simpl in Hrun. unfold bind in Hrun.
    destruct (annotate_file entry acc s) as [[acc1 | e] s1] eqn:Hf; [| discriminate].
    destruct (annotate_file_ok_inv _ _ _ _ _ Hf) as (fields & He & Hp & Hl & Hc).
    destruct (IH _ _ _ _ Hrun) as (Hread & Hls & Hcs).
    split; [constructor; eauto |].
    simpl. rewrite length_app, (fields_in_ok _ _ He). split; lia.
Qed.

(** X5.  A run that completes has read every entry and built the text of
    every field; its summary counts every [.json] entry and every field, and
    lists no more unannotated fields than it counted fields. *)
Theorem completed_run_accounts_for_everything
  (listing : list (string * option value)) (s s' : state) (report : summary) :
  annotate_dds listing s = (Ok report, s') ->
  readable listing
  /\ count_files report = List.length (filter is_json listing)
  /\ count_fields report = List.length (flat_map fields_in listing)
  /\ (List.length (unannotated_fields report) <= count_fields report)%nat.
Proof.
  intros Hrun. unfold annotate_dds in Hrun.
  destruct (annotate_files_ok_inv _ _ _ _ _ Hrun) as (Hread & Hl & _).
  destruct (annotate_files_completes listing (fun _ => True) Hread)
    with (acc := {| count_files := 0; count_fields := 0; count_annotations := 0;
                    unannotated_fields := [] |}) (s := s)
    as (report' & s'' & Hrun' & Hfiles & Hfields & _); [auto | constructor |].
  rewrite Hrun in Hrun'. inversion Hrun'. subst.
  simpl in *. repeat split; try assumption; lia.
Qed.

(** X6.  The isolation around the annotator covers nothing else.  An entry
    that cannot be read as a field list (a body that does not parse, a
    document or a [data_dictionary] of the wrong shape), or a single field
    whose text cannot be built, ends the whole run wherever it stands in the
    input: [annotate_dds] raises and produces no summary. *)
Theorem unreadable_input_aborts_run
  (listing : list (string * option value)) (s : state)
  (entry : string * option value) (e : exn) :
  In entry listing ->
  entry_fields entry = Raise e
  \/ (exists field, In field (fields_in entry) /\ text_to_annotate field = Raise e) ->
  exists e' s', annotate_dds listing s = (Raise e', s').
Proof.
  intros Hentry Hbad.
  destruct (annotate_dds listing s) as [[report | e'] s'] eqn:Hrun; [| eauto].
  exfalso. unfold annotate_dds in Hrun.
  destruct (annotate_files_ok_inv _ _ _ _ _ Hrun) as (Hread & _).
  unfold readable in Hread. rewrite Forall_forall in Hread.
  destruct (Hread entry Hentry) as (fields & He & Hp).
  destruct Hbad as [Hshape | (field & Hfield & Htext)]; [congruence |].
  rewrite (fields_in_ok _ _ He) in Hfield.
  rewrite Forall_forall in Hp. destruct (Hp field Hfield) as [p Hok].
  congruence.
Qed.

(** X7.  A [.json] document without a [data_dictionary], or whose
    [data_dictionary] is a mapping without one of its own, is counted as a
    file with no fields: nothing is requested and nothing else changes. *)
Theorem document_without_fields_is_counted (filename : string)
  (d : list (string * value)) (acc : summary) (s : state) :
  is_json (filename, Some (VDict d)) = true ->
  (dict_get "data_dictionary" d = None
   \/ exists inner,
       dict_get "data_dictionary" d = Some (VDict inner)
       /\ dict_get "data_dictionary" inner = None) ->
  annotate_file (filename, Some (VDict d)) acc s
  = (Ok {| count_files := S (count_files acc);
           count_fields := count_fields acc;
           count_annotations := count_annotations acc;
           unannotated_fields := unannotated_fields acc |}, s).
Proof.
  intros Hjson Hshape. unfold annotate_file. fold (is_json (filename, Some (VDict d))).
  rewrite Hjson. cbn [negb snd json_load]. rewrite bind_lift.
  assert (Hfields : fields_of_doc (VDict d) = Ok (VDict [])).
  { unfold fields_of_doc. simpl get.
    destruct Hshape as [Hnone | (inner & Hsome & Hnone)].
    - rewrite Hnone. reflexivity.
    - rewrite Hsome. cbn [rbind get]. rewrite Hnone. reflexivity. }
  rewrite Hfields. reflexivity.
Qed.

End Accounting.

Lemma completed_run_accounts_for_everything_witness :
  let report := {| count_files := 3; count_fields := 4; count_annotations := 0;
                   unannotated_fields := ["a.json:age"; "b.json:bmi"; "c.json:id"] |} in
  fst (@annotate_dds scripted example_listing (script example_script)) = Ok report
  /\ (List.length (unannotated_fields report) <= count_fields report)%nat.
Proof.
  intros report.
  assert (Hfst : fst (@annotate_dds scripted example_listing (script example_script))
                 = Ok report) by (vm_compute; reflexivity).
  split; [exact Hfst |].
  assert (Hrun : @annotate_dds scripted example_listing (script example_script)
                 = (Ok report,
                    snd (@annotate_dds scripted example_listing (script example_script)))).
  { apply injective_projections; [exact Hfst | cbn [snd]; reflexivity]. }
  destruct (@completed_run_accounts_for_everything scripted example_listing
              (script example_script) _ report Hrun) as (_ & _ & _ & Hbound).
  exact Hbound.
Defined.

Lemma unreadable_input_aborts_run_witness :
  exists e' s',
    @annotate_dds scripted
      [("a.json",
        Some (VDict [("data_dictionary",
                      VList [VDict [("name", VStr "age")];
                             VDict [("name", VStr "sex"); ("encodings", VList [])]])]))]
      (script [Ok (recognized [])])
    = (Raise e', s').
Proof.
  apply (@unreadable_input_aborts_run scripted _ _
           ("a.json",
            Some (VDict [("data_dictionary",
                          VList [VDict [("name", VStr "age")];
                                 VDict [("name", VStr "sex");
                                        ("encodings", VList [])]])]))
           AttributeError).
  - left. reflexivity.
  - right. exists (VDict [("name", VStr "sex"); ("encodings", VList [])]).
    split; [simpl; right; left; reflexivity | reflexivity].
Defined.

Lemma document_without_fields_is_counted_witness :
  @annotate_file scripted ("empty.json", Some (VDict [("title", VStr "none")]))
    {| count_files := 0; count_fields := 0; count_annotations := 0;
       unannotated_fields := [] |}
    (script [])
  = (Ok {| count_files := 1; count_fields := 0; count_annotations := 0;
           unannotated_fields := [] |}, script []).
Proof.
  apply (@document_without_fields_is_counted scripted "empty.json"
           [("title", VStr "none")]).
  - reflexivity.
  - left. reflexivity.
Defined.

(** * Further properties of the text builder *)

Section TextBuilder.
Context `{Runtime}.

Lemma get_dict (d : list (string * value)) (k : string) (default : value) :
  get (VDict d) k default = Ok (field_value d k default).
Proof.
  unfold get, field_value. destruct (dict_get k d); reflexivity.
Qed.

Lemma type_format_dict (d : list (string * value)) :
  type_format (VDict d)
  = match dict_get "format" d with
    | None => Ok (field_value d "type" (VStr ""))
    | Some (VStr f) => iadd_str (field_value d "type" (VStr "")) (":" ++ f)
    | Some _ => Raise TypeError
    end.
Proof.
  unfold type_format. rewrite get_dict. cbn [rbind]. unfold dict_mem. simpl getitem.
  destruct (dict_get "format" d) as [v |]; [| reflexivity].
  destruct v; reflexivity.
Qed.

(** X8.  Which fields have a text and what it is.  A field that is not a
    mapping has none.  For a mapping, the text exists exactly when a format,
    if present, is a string appended to a string or list type, and the
    encodings, if present, are a mapping; it is then the printed name,
    [": "], the printed description, a newline and one line per encoding,
    whatever the types of the name and the description.  Otherwise building
    it raises a [TypeError] or an [AttributeError]. *)
Theorem text_to_annotate_characterised (d : list (string * value)) :
  (forall v, match v with VDict _ => False | _ => True end ->
             text_to_annotate v = Raise AttributeError)
  /\ (preparable d = true ->
      exists encodings,
        field_value d "encodings" (VDict []) = VDict encodings
        /\ text_to_annotate (VDict d)
           = Ok (field_value d "name" (VStr ""),
                 format (field_value d "name" (VStr "")) ++ ": "
                   ++ format (field_value d "description" (VStr "")) ++ nl
                   ++ String.concat ""
                        (map (fun kv => fst kv ++ ": " ++ format (snd kv) ++ nl)
                           encodings)))
  /\ (preparable d = false ->
      exists e,
        text_to_annotate (VDict d) = Raise e
        /\ (e = TypeError \/ e = AttributeError)).
Proof.
  split; [| split].
  - intros v Hv. destruct v; try reflexivity. contradiction.
  - intros Hprep. unfold preparable in Hprep.
    apply andb_true_iff in Hprep. destruct Hprep as [Hformat Henc].
    destruct (field_value d "encodings" (VDict [])) as [| | | | | | encodings] eqn:He;
      try discriminate.
    exists encodings. split; [reflexivity |].
    unfold text_to_annotate. rewrite get_dict. cbn [rbind].
    rewrite get_dict. cbn [rbind]. rewrite type_format_dict.
    assert (Htf : exists tf,
               match dict_get "format" d with
               | None => Ok (field_value d "type" (VStr ""))
               | Some (VStr f) => iadd_str (field_value d "type" (VStr "")) (":" ++ f)
               | Some _ => Raise TypeError
               end = Ok tf).
    { destruct (dict_get "format" d) as [v |]; [| eauto].
      destruct v; try discriminate.
      destruct (field_value d "type" (VStr "")); try discriminate; simpl; eauto. }
    destruct Htf as [tf Htf]. rewrite Htf. cbn [rbind]. rewrite get_dict, He.
    cbn [rbind items]. unfold encodings_as_str. rewrite encodings_fold. reflexivity.
  - intros Hprep. unfold preparable in Hprep.
    unfold text_to_annotate. rewrite get_dict. cbn [rbind].
    rewrite get_dict. cbn [rbind]. rewrite type_format_dict.
    destruct (dict_get "format" d) as [v |].
    + destruct v; try (cbn [rbind]; eauto).
      destruct (field_value d "type" (VStr "")); simpl iadd_str; cbn [rbind]; eauto;
        simpl in Hprep; rewrite get_dict;
        destruct (field_value d "encodings" (VDict [])); try discriminate;
        cbn [rbind items]; eauto.
    + cbn [rbind]. simpl in Hprep. rewrite get_dict.
      destruct (field_value d "encodings" (VDict [])); try discriminate;
        cbn [rbind items]; eauto.
Qed.

End TextBuilder.

Lemma text_to_annotate_characterised_witness :
  @text_to_annotate scripted
    (VDict [("name", VInt 7); ("type", VList []); ("format", VStr "date")])
  = Ok (VInt 7, "7: " ++ nl)
  /\ exists e,
      @text_to_annotate scripted (VDict [("name", VStr "age"); ("format", VInt 3)])
      = Raise e.
Proof.
  split.
  - destruct (@text_to_annotate_characterised scripted
                [("name", VInt 7); ("type", VList []); ("format", VStr "date")])
      as (_ & Hok & _).
    destruct (Hok eq_refl) as (encodings & Henc & Htext).
    inversion Henc. subst. rewrite Htext. reflexivity.
  - destruct (@text_to_annotate_characterised scripted
                [("name", VStr "age"); ("format", VInt 3)]) as (_ & _ & Hbad).
    destruct (Hbad eq_refl) as (e & Htext & _).
    exists e. exact Htext.
Defined.

(** * Further properties of the session *)

Section Session.
Variable srv : server.

(** X10.  When the body can be written as JSON and each of five attempts
    fails in a way the policy retries, the session gives up after the fifth:
    it raises [RetryError] if the last attempt was answered,
    [ConnectionError] if it was not, and no response reaches the caller. *)
Theorem session_gives_up_after_five (url : string) (body : value)
  (wire : list wire_request) :
  let req := {| wr_method := POST; wr_url := url; wr_json := Some body |} in
  finite_json body = true ->
  (forall n, (1 <= n <= 5)%nat -> retried (srv (wire ++ repeat req n)%list)) ->
  session_post srv url body wire
  = (Raise (exhausted (srv (wire ++ repeat req 5)%list)),
     (wire ++ repeat req 5)%list).
Proof.
  intros req Hfin Hall. exact (session_post_exhausted srv url body wire Hfin Hall).
Qed.

(** X11.  Over the wire, a recognizer that stays unavailable is not a soft
    failure: after five attempts [annotate_text] raises the session's
    exception instead of returning the empty sequence, and the one call it
    logs is the failed request to the recognizer. *)
Theorem unavailable_recognizer_raises (render : value -> string)
  (nemoserve sapbert : string) (text : string)
  (s : @state (live srv render nemoserve sapbert)) :
  let req := {| wr_method := POST; wr_url := nemoserve;
                wr_json := Some (request (VStr text) NEMOSERVE_MODEL_NAME) |} in
  (forall n, (1 <= n <= 5)%nat -> retried (srv (world s ++ repeat req n)%list)) ->
  exists e,
    e = exhausted (srv (world s ++ repeat req 5)%list)
    /\ @annotate_text (live srv render nemoserve sapbert) text s
       = (Raise e,
          @Build_state (live srv render nemoserve sapbert)
            (world s ++ repeat req 5)%list
            (calls s ++ [{| call_url := nemoserve;
                            call_json := request (VStr text) NEMOSERVE_MODEL_NAME;
                            call_outcome := Raise e |}])%list).
Proof.
  intros req Hall. eexists. split; [reflexivity |].
  apply annotate_text_post_raises.
  apply (@post_send (live srv render nemoserve sapbert)).
  exact (session_post_exhausted srv nemoserve
           (request (VStr text) NEMOSERVE_MODEL_NAME) (world s) eq_refl Hall).
Qed.

End Session.

Lemma session_gives_up_after_five_witness :
  fst (session_post (always Dropped) default_nemoserve
         (request (VStr "pain") NEMOSERVE_MODEL_NAME) [])
  = Raise ConnectionError.
Proof.
  rewrite (session_gives_up_after_five (always Dropped) default_nemoserve
             (request (VStr "pain") NEMOSERVE_MODEL_NAME) []).
  - reflexivity.
  - reflexivity.
  - intros n _. exact I.
Defined.

Lemma unavailable_recognizer_raises_witness :
  let rt := live (always (Answer (respond 503 None))) example_repr
              default_nemoserve default_sapbert in
  exists e,
    fst (@annotate_text rt "pain: Pain score" (@Build_state rt [] [])) = Raise e
    /\ e = RetryError.
Proof.
  intros rt. subst rt.
  destruct (unavailable_recognizer_raises (always (Answer (respond 503 None)))
              example_repr default_nemoserve default_sapbert "pain: Pain score"
              (@Build_state
                 (live (always (Answer (respond 503 None))) example_repr
                    default_nemoserve default_sapbert) [] []))
    as (e & He & Hrun).
  - intros n _. reflexivity.
  - exists e. split; [| exact He].
    rewrite Hrun. reflexivity.
Defined.

(** * Properties of the downloader *)

Section Strings.

Lemma length_append (a b : string) :
  String.length (a ++ b) = (String.length a + String.length b)%nat.
Proof.
  induction a as [| c a IH]; simpl; [reflexivity | rewrite IH; reflexivity].
Qed.

Lemma substring_whole (b : string) : substring 0 (String.length b) b = b.
Proof.
  induction b as [| c b IH]; simpl; [reflexivity | rewrite IH; reflexivity].
Qed.

Lemma substring_skip (a b : string) (m : nat) :
  substring (String.length a) m (a ++ b) = substring 0 m b.
Proof.
  induction a as [| c a IH]; simpl; [reflexivity | exact IH].
Qed.

Lemma endswith_append (a b : string) : endswith (a ++ b) b = true.
Proof.
  unfold endswith. rewrite length_append.
  replace (String.length a + String.length b - String.length b)%nat
    with (String.length a) by lia.
  rewrite substring_skip, substring_whole, String.eqb_refl.
  rewrite andb_true_r. apply Nat.leb_le. lia.
Qed.

Lemma lower_append (a b : string) : lower (a ++ b) = lower a ++ lower b.
Proof.
  induction a as [| c a IH]; simpl; [reflexivity | rewrite IH; reflexivity].
Qed.

Lemma json_name_is_json (x : string) (content : option value) :
  is_json (x ++ ".json", content) = true.
Proof.
  unfold is_json. cbn [fst]. rewrite lower_append.
  change (lower ".json") with ".json". apply endswith_append.
Qed.

Lemma json_path_is_json (x : string) (content : option value) :
  is_json (path_join DD_OUTPUT_DIR (x ++ ".json"), content) = true.
Proof.
  unfold path_join.
  destruct (x ++ ".json") as [| c rest] eqn:Hx.
  - destruct x; discriminate.
  - assert (Hplain : is_json (DD_OUTPUT_DIR ++ "/" ++ String c rest, content) = true).
    { rewrite <- Hx.
      replace (DD_OUTPUT_DIR ++ "/" ++ x ++ ".json")
        with ((DD_OUTPUT_DIR ++ "/" ++ x) ++ ".json")
        by (rewrite !append_assoc; reflexivity).
      apply json_name_is_json. }
    assert (Habs : is_json (String c rest, content) = true).
    { rewrite <- Hx. apply json_name_is_json. }
    destruct c as [[] [] [] [] [] [] [] []]; try exact Hplain. exact Habs.
Qed.

End Strings.

Section Fetching.
Variable urljoin : string -> string -> string.
Variable srv : server.

(** What [requests.get] followed by the status check and [.json()] gives
    when the response handed back is [r]. *)
Lemma checked_json_ok (r : response) (w : list wire_request) (dd : value)
  (w' : list wire_request) :
  (if negb (ok r) then (Raise RuntimeError, w) else (json r, w)) = (Ok dd, w') ->
  w' = w /\ ok r = true /\ json_body r = Some dd.
Proof.
  destruct (ok r); cbn [negb]; [| discriminate].
  unfold json. destruct (json_body r) as [v |]; [| discriminate].
  intros Heq. inversion Heq. auto.
Qed.

Lemma checked_json_iff (r : response) (w : list wire_request) (dd : value) :
  fst (if negb (ok r) then (Raise RuntimeError, w) else (json r, w)) = Ok dd
  <-> ok r = true /\ json_body r = Some dd.
Proof.
  destruct (ok r); cbn [negb fst]; unfold json.
  - destruct (json_body r) as [v |]; split.
    + intros Heq. inversion Heq. auto.
    + intros [_ Hj]. inversion Hj. reflexivity.
    + discriminate.
    + intros [_ Hj]. discriminate.
  - split; [discriminate | intros [Hok _]; discriminate].
Qed.

(** X12.  [retrieve_dd] checks the identifier before anything is sent: an
    identifier without the prefix fails the assertion with the wire
    untouched.  With the prefix, the first request it sends is the GET for
    the document.  When the reply to that request is not a redirect it is
    the only request, a document is returned exactly when the reply has a
    success status and a JSON body, which is the document, and any other
    status raises [RuntimeError].  Redirects or not, a document that is
    returned is the JSON body of the last response received, and that
    response has a success status. *)
Theorem retrieve_dd_returns_only_successes (drs_uri : string)
  (w : list wire_request) :
  let req := {| wr_method := GET;
                wr_url := urljoin MDS_ENDPOINT ("metadata/" ++ drs_uri);
                wr_json := None |} in
  (startswith drs_uri "dg.H34L/" = false ->
   Downloader.retrieve_dd urljoin srv drs_uri w = (Raise AssertionError, w))
  /\ (startswith drs_uri "dg.H34L/" = true ->
      exists rest,
        snd (Downloader.retrieve_dd urljoin srv drs_uri w) = (w ++ req :: rest)%list)
  /\ (forall r,
         startswith drs_uri "dg.H34L/" = true ->
         srv (w ++ [req])%list = Answer r ->
         redirect_target r = None ->
         snd (Downloader.retrieve_dd urljoin srv drs_uri w) = (w ++ [req])%list
         /\ (forall dd,
                fst (Downloader.retrieve_dd urljoin srv drs_uri w) = Ok dd
                <-> ok r = true /\ json_body r = Some dd)
         /\ (ok r = false ->
             fst (Downloader.retrieve_dd urljoin srv drs_uri w) = Raise RuntimeError))
  /\ (forall dd w',
         Downloader.retrieve_dd urljoin srv drs_uri w = (Ok dd, w') ->
         startswith drs_uri "dg.H34L/" = true
         /\ exists r,
             srv w' = Answer r
             /\ redirect_target r = None
             /\ ok r = true
             /\ json_body r = Some dd).
Proof.
  intros req. unfold Downloader.retrieve_dd.
  change (urljoin MDS_ENDPOINT ("metadata/" ++ drs_uri)) with (wr_url req).
  split; [| split; [| split]].
  - intros Hp. rewrite Hp. reflexivity.
  - intros Hp. rewrite Hp. cbn [negb].
    destruct (requests_get_sends srv (wr_url req) w) as [rest Hrest].
    exists rest.
    destruct (requests_get srv (wr_url req) w) as [[r | e] w1]; cbn [snd] in *.
    + destruct (negb (ok r)); exact Hrest.
    + exact Hrest.
  - intros r Hp Hsrv Hnot. rewrite Hp. cbn [negb].
    rewrite (requests_get_direct srv (wr_url req) w r Hsrv Hnot).
    split; [| split].
    + destruct (negb (ok r)); reflexivity.
    + intros dd. apply checked_json_iff.
    + intros Hok. rewrite Hok. reflexivity.
  - intros dd w'. destruct (startswith drs_uri "dg.H34L/"); cbn [negb];
      [| discriminate].
    destruct (requests_get srv (wr_url req) w) as [[r | e] w1] eqn:Hget;
      [| discriminate].
    intros Hrun. split; [reflexivity |].
    destruct (checked_json_ok _ _ _ _ Hrun) as (-> & Hok & Hj).
    destruct (requests_get_ok srv _ _ _ _ Hget) as [Hsrv Hnot].
    exists r. auto.
Qed.

(** X13.  The first request [retrieve_dd_list] sends is the GET to the list
    endpoint with the limit in its query.  When the reply to it is not a
    redirect it is the only request, a value is returned exactly when the
    reply has a success status and a JSON body, and a reply with any other
    status raises [RuntimeError].  Redirects or not, a value that is
    returned is the JSON body of the last response received, which has a
    success status, so a failure of the service never reads as an empty
    list. *)
Theorem retrieve_dd_list_returns_only_successes (limit : Z)
  (w : list wire_request) :
  let req := {| wr_method := GET; wr_url := DD_LIST_ENDPOINT limit;
                wr_json := None |} in
  (exists rest, snd (retrieve_dd_list srv limit w) = (w ++ req :: rest)%list)
  /\ (forall r,
         srv (w ++ [req])%list = Answer r ->
         redirect_target r = None ->
         snd (retrieve_dd_list srv limit w) = (w ++ [req])%list
         /\ (forall dds,
                fst (retrieve_dd_list srv limit w) = Ok dds
                <-> ok r = true /\ json_body r = Some dds)
         /\ (ok r = false ->
             fst (retrieve_dd_list srv limit w) = Raise RuntimeError))
  /\ (forall dds w',
         retrieve_dd_list srv limit w = (Ok dds, w') ->
         exists r,
           srv w' = Answer r
           /\ redirect_target r = None
           /\ ok r = true
           /\ json_body r = Some dds).
Proof.
  intros req. unfold retrieve_dd_list.
  change (DD_LIST_ENDPOINT limit) with (wr_url req).
  split; [| split].
  - destruct (requests_get_sends srv (wr_url req) w) as [rest Hrest].
    exists rest.
    destruct (requests_get srv (wr_url req) w) as [[r | e] w1]; cbn [snd] in *.
    + destruct (negb (ok r)); exact Hrest.
    + exact Hrest.
  - intros r Hsrv Hnot.
    rewrite (requests_get_direct srv (wr_url req) w r Hsrv Hnot).
    split; [| split].
    + destruct (negb (ok r)); reflexivity.
    + intros dds. apply checked_json_iff.
    + intros Hok. rewrite Hok. reflexivity.
  - intros dds w'.
    destruct (requests_get srv (wr_url req) w) as [[r | e] w1] eqn:Hget;
      [| discriminate].
    intros Hrun.
    destruct (checked_json_ok _ _ _ _ Hrun) as (-> & Hok & Hj).
    destruct (requests_get_ok srv _ _ _ _ Hget) as [Hsrv Hnot].
    exists r. auto.
Qed.

End Fetching.

Section Downloading.
Variable urljoin : string -> string -> string.
Variable sub_nonword : string -> string.
Variable srv : server.

(** One identifier that is downloaded without an exception. *)
Lemma download_dd_ok_inv (dd_uri : value) (acc acc' : Downloader.report)
  (st st' : Downloader.store) :
  Downloader.download_dd urljoin sub_nonword srv dd_uri acc st = (Ok acc', st') ->
  Downloader.count_dds acc' = S (Downloader.count_dds acc)
  /\ Downloader.count_fields acc' = S (Downloader.count_fields acc)
  /\ fetchable dd_uri
  /\ exists uri dd,
      dd_uri = VStr uri
      /\ Downloader.written st'
         = (Downloader.written st
              ++ [(Downloader.filename_of sub_nonword uri, dd)])%list
      /\ measurable dd.
Proof.
  unfold Downloader.download_dd.
  destruct dd_uri as [| | | | uri | |]; try discriminate.
  destruct (Downloader.retrieve_dd urljoin srv uri (Downloader.wire st))
    as [[dd | e] w'] eqn:Hget; [| discriminate].
  destruct (getitem dd "data_dictionary") as [fields | e] eqn:Hg; cbn [rbind];
    [| discriminate].
  destruct (len fields) as [n | e] eqn:Hn; [| discriminate].
  intros Heq. inversion Heq. subst. cbn.
  split; [reflexivity |]. split; [reflexivity |]. split.
  - exists uri. split; [reflexivity |].
    unfold Downloader.retrieve_dd in Hget.
    destruct (startswith uri "dg.H34L/"); [reflexivity | discriminate].
  - exists uri, dd. split; [reflexivity |]. split; [reflexivity |].
    exists fields, n. auto.
Qed.

Lemma download_loop_ok_inv (dds : list value) :
  forall acc acc' st st',
  Downloader.download_loop urljoin sub_nonword srv dds acc st = (Ok acc', st') ->
  Downloader.count_dds acc' = (Downloader.count_dds acc + List.length dds)%nat
  /\ Downloader.count_fields acc'
     = (Downloader.count_fields acc + List.length dds)%nat
  /\ Forall fetchable dds
  /\ exists new,
      Downloader.written st' = (Downloader.written st ++ new)%list
      /\ Forall2 (fun dd_uri file =>
                    exists uri,
                      dd_uri = VStr uri
                      /\ fst file = Downloader.filename_of sub_nonword uri
                      /\ measurable (snd file))
           dds new.
Proof.
  induction dds as [| dd_uri rest IH]; intros acc acc' st st' Hrun.
  - simpl in Hrun. inversion Hrun. subst. rewrite !Nat.add_0_r.
    repeat split; auto. exists []. rewrite app_nil_r. auto.
  - simpl in Hrun.
    destruct (Downloader.download_dd urljoin sub_nonword srv dd_uri acc st)
      as [[acc1 | e] st1] eqn:Hone; [| discriminate].
    destruct (download_dd_ok_inv _ _ _ _ _ Hone)
      as (Hd & Hf & Hfetch & uri & dd & -> & Hw & Hm).
    destruct (IH _ _ _ _ Hrun) as (Hds & Hfs & Hall & new & Hws & Hnew).
    simpl. split; [lia |]. split; [lia |]. split; [constructor; assumption |].
    exists ((Downloader.filename_of sub_nonword uri, dd) :: new).
    rewrite Hws, Hw, <- app_assoc.
    split; [reflexivity |]. constructor; [| exact Hnew].
    exists uri. auto.
Qed.

(** X14.  A download that completes has fetched every identifier of the
    list: each is a string with the expected prefix, each has one document
    dumped under the path made from it, in list order, and each document
    has a field list that can be measured.  Both counters of the closing log
    line equal the number of dictionaries: the "fields" it reports are not
    fields but dictionaries. *)
Theorem completed_download_accounts_for_every_dictionary
  (w : list wire_request) (report : Downloader.report) (st : Downloader.store) :
  Downloader.download_dds urljoin sub_nonword srv w = (Ok report, st) ->
  exists dds uris,
    fst (retrieve_dd_list srv MDS_DEFAULT_LIMIT w) = Ok dds
    /\ iter dds = Ok uris
    /\ Forall fetchable uris
    /\ Downloader.count_dds report = List.length uris
    /\ Downloader.count_fields report = Downloader.count_dds report
    /\ Forall2 (fun dd_uri file =>
                  exists uri,
                    dd_uri = VStr uri
                    /\ fst file = Downloader.filename_of sub_nonword uri
                    /\ measurable (snd file))
         uris (Downloader.written st).
Proof.
  unfold Downloader.download_dds.
  destruct (retrieve_dd_list srv MDS_DEFAULT_LIMIT w) as [[dds | e] w'];
    [| discriminate].
  destruct (len dds) as [n | e]; cbn [rbind]; [| discriminate].
  destruct (iter dds) as [uris | e] eqn:Hiter; [| discriminate].
  intros Hrun.
  destruct (download_loop_ok_inv _ _ _ _ _ Hrun)
    as (Hd & Hf & Hall & new & Hw & Hnew).
  cbn in Hd, Hf, Hw.
  exists dds, uris. rewrite Hw. repeat split; try assumption. lia.
Qed.

(** X15.  One identifier that is not a string with the expected prefix is
    enough to make the whole download fail, wherever it stands in the list
    that the service returned. *)
Theorem unfetchable_identifier_aborts_download
  (w : list wire_request) (dds : value) (uris : list value) (dd_uri : value) :
  fst (retrieve_dd_list srv MDS_DEFAULT_LIMIT w) = Ok dds ->
  iter dds = Ok uris ->
  In dd_uri uris ->
  ~ fetchable dd_uri ->
  exists e st, Downloader.download_dds urljoin sub_nonword srv w = (Raise e, st).
Proof.
  intros Hlist Hiter Hin Hbad.
  destruct (Downloader.download_dds urljoin sub_nonword srv w)
    as [[report | e] st] eqn:Hrun; [| eauto].
  exfalso.
  unfold Downloader.download_dds in Hrun.
  destruct (retrieve_dd_list srv MDS_DEFAULT_LIMIT w) as [[dds' | e] w'];
    [| discriminate].
  cbn [fst] in Hlist. inversion Hlist. subst dds'.
  destruct (len dds) as [n | e]; cbn [rbind] in Hrun; [| discriminate].
  rewrite Hiter in Hrun.
  destruct (download_loop_ok_inv _ _ _ _ _ Hrun) as (_ & _ & Hall & _).
  rewrite Forall_forall in Hall. exact (Hbad (Hall dd_uri Hin)).
Qed.

Lemma download_loop_app (pre rest : list value) :
  forall acc acc1 st st1,
  Downloader.download_loop urljoin sub_nonword srv pre acc st = (Ok acc1, st1) ->
  Downloader.download_loop urljoin sub_nonword srv (pre ++ rest)%list acc st
  = Downloader.download_loop urljoin sub_nonword srv rest acc1 st1.
Proof.
  induction pre as [| dd_uri pre IH]; intros acc acc1 st st1 Hpre.
  - simpl in Hpre. inversion Hpre. reflexivity.
  - simpl in *.
    destruct (Downloader.download_dd urljoin sub_nonword srv dd_uri acc st)
      as [[acc' | e] st']; [| discriminate].
    apply IH. exact Hpre.
Qed.

(** X16.  A document without a field list that can be measured stops the
    download after it has been dumped: when the loop reaches it, the
    exception is raised with the document on disk, and the identifiers after
    it are never requested. *)
Theorem unmeasurable_document_is_dumped_then_aborts
  (pre rest : list value) (uri : string) (dd : value) (e : exn)
  (acc acc1 : Downloader.report) (st st1 : Downloader.store)
  (w' : list wire_request) :
  Downloader.download_loop urljoin sub_nonword srv pre acc st = (Ok acc1, st1) ->
  Downloader.retrieve_dd urljoin srv uri (Downloader.wire st1) = (Ok dd, w') ->
  rbind (getitem dd "data_dictionary") len = Raise e ->
  Downloader.download_loop urljoin sub_nonword srv
    (pre ++ VStr uri :: rest)%list acc st
  = (Raise e,
     {| Downloader.wire := w';
        Downloader.written :=
          (Downloader.written st1
             ++ [(Downloader.filename_of sub_nonword uri, dd)])%list |}).
Proof.
  intros Hpre Hget Hlen.
  rewrite (download_loop_app pre (VStr uri :: rest) _ _ _ _ Hpre).
  simpl. unfold Downloader.download_dd. rewrite Hget.
  change ((fields <-- getitem dd "data_dictionary";; len fields)%result)
    with (rbind (getitem dd "data_dictionary") len).
  rewrite Hlen. reflexivity.
Qed.

Lemma download_dd_written (dd_uri : value) (acc : Downloader.report)
  (st : Downloader.store) (P : string * value -> Prop) :
  (forall uri dd, P (Downloader.filename_of sub_nonword uri, dd)) ->
  Forall P (Downloader.written st) ->
  Forall P
    (Downloader.written
       (snd (Downloader.download_dd urljoin sub_nonword srv dd_uri acc st))).
Proof.
  intros HP Hst. unfold Downloader.download_dd.
  destruct dd_uri as [| | | | uri | |]; try exact Hst.
  destruct (Downloader.retrieve_dd urljoin srv uri (Downloader.wire st))
    as [[dd | e] w']; [| exact Hst].
  destruct ((fields <-- getitem dd "data_dictionary";; len fields)%result);
    cbn; apply Forall_app;
    (split; [exact Hst | constructor; [apply HP | constructor]]).
Qed.

Lemma download_loop_written (dds : list value) (P : string * value -> Prop) :
  (forall uri dd, P (Downloader.filename_of sub_nonword uri, dd)) ->
  forall acc st,
  Forall P (Downloader.written st) ->
  Forall P
    (Downloader.written
       (snd (Downloader.download_loop urljoin sub_nonword srv dds acc st))).
Proof.
  intros HP. induction dds as [| dd_uri rest IH]; intros acc st Hst; [exact Hst |].
  simpl.
  pose proof (download_dd_written dd_uri acc st P HP Hst) as Hone.
  destruct (Downloader.download_dd urljoin sub_nonword srv dd_uri acc st)
    as [[acc' | e] st']; cbn [snd] in Hone.
  - apply IH. exact Hone.
  - exact Hone.
Qed.

(** X17.  Whether the download completes or stops on an exception, every
    document it has dumped lies under a name that the annotator takes for a
    dictionary: the name ends in [.json], so [annotate_dds] never skips a
    file that [download_dds] wrote. *)
Theorem downloaded_files_are_json_entries (w : list wire_request) :
  Forall (fun file =>
            is_json (fst file, Some (snd file)) = true
            /\ exists uri,
                fst file = Downloader.filename_of sub_nonword uri
                /\ is_json (sub_nonword uri ++ ".json", Some (snd file)) = true)
    (Downloader.written (snd (Downloader.download_dds urljoin sub_nonword srv w))).
Proof.
  unfold Downloader.download_dds.
  destruct (retrieve_dd_list srv MDS_DEFAULT_LIMIT w) as [[dds | e] w'];
    [| constructor].
  destruct ((_ <-- len dds;; iter dds)%result) as [uris | e]; [| constructor].
  apply download_loop_written; [| constructor].
  intros uri dd. cbn [fst snd]. split.
  - apply json_path_is_json.
  - exists uri. split; [reflexivity | apply json_name_is_json].
Qed.

End Downloading.

Lemma completed_download_accounts_for_every_dictionary_witness :
  let report := {| Downloader.count_dds := 1; Downloader.count_fields := 1 |} in
  fst (Downloader.download_dds urljoin_plain sub_nonword_ascii example_mds [])
    = Ok report
  /\ Downloader.count_fields report = Downloader.count_dds report.
Proof.
  intros report.
  assert (Hfst : fst (Downloader.download_dds urljoin_plain sub_nonword_ascii
                        example_mds []) = Ok report)
    by (vm_compute; reflexivity).
  split; [exact Hfst |].
  assert (Hrun : Downloader.download_dds urljoin_plain sub_nonword_ascii example_mds []
                 = (Ok report,
                    snd (Downloader.download_dds urljoin_plain sub_nonword_ascii
                           example_mds []))).
  { apply injective_projections; [exact Hfst | cbn [snd]; reflexivity]. }
  destruct (completed_download_accounts_for_every_dictionary urljoin_plain
              sub_nonword_ascii example_mds [] report _ Hrun)
    as (dds & uris & _ & _ & _ & _ & Hsame & _).
  exact Hsame.
Defined.

(** The first identifier is fetched and its document dumped; the second
    fails the assertion of [retrieve_dd] before anything is sent for it. *)
Lemma unfetchable_identifier_aborts_download_witness :
  (exists e st,
      Downloader.download_dds urljoin_plain sub_nonword_ascii example_mds_mixed []
      = (Raise e, st))
  /\ Downloader.download_dds urljoin_plain sub_nonword_ascii example_mds_mixed []
     = (Raise AssertionError,
        {| Downloader.wire :=
             [{| wr_method := GET; wr_url := DD_LIST_ENDPOINT MDS_DEFAULT_LIMIT;
                 wr_json := None |};
              {| wr_method := GET;
                 wr_url := "https://preprod.healdata.org/mds/metadata/dg.H34L/ab-12";
                 wr_json := None |}];
           Downloader.written :=
             [("data/dictionaries/dg_H34L_ab_12.json",
               VDict [("data_dictionary", VList [VDict [("name", VStr "age")]])])] |}).
Proof.
  split; [| vm_compute; reflexivity].
  apply (unfetchable_identifier_aborts_download urljoin_plain sub_nonword_ascii
           example_mds_mixed
           [] (VList [VStr "dg.H34L/ab-12"; VStr "other/cd-34"])
           [VStr "dg.H34L/ab-12"; VStr "other/cd-34"] (VStr "other/cd-34")).
  - vm_compute. reflexivity.
  - reflexivity.
  - right. left. reflexivity.
  - intros (uri & Heq & Hprefix). inversion Heq. subst uri.
    vm_compute in Hprefix. discriminate.
Defined.

Lemma unmeasurable_document_is_dumped_then_aborts_witness :
  Downloader.download_loop urljoin_plain sub_nonword_ascii
    (always (Answer (respond 200 (Some (VDict [("title", VStr "untitled")])))))
    [VStr "dg.H34L/ab-12"; VStr "dg.H34L/cd-34"]
    {| Downloader.count_dds := 0; Downloader.count_fields := 0 |}
    {| Downloader.wire := []; Downloader.written := [] |}
  = (Raise KeyError,
     {| Downloader.wire :=
          [{| wr_method := GET;
              wr_url := "https://preprod.healdata.org/mds/metadata/dg.H34L/ab-12";
              wr_json := None |}];
        Downloader.written :=
          [("data/dictionaries/dg_H34L_ab_12.json",
            VDict [("title", VStr "untitled")])] |}).
Proof.
  apply (unmeasurable_document_is_dumped_then_aborts urljoin_plain sub_nonword_ascii
           (always (Answer (respond 200 (Some (VDict [("title", VStr "untitled")])))))
           [] [VStr "dg.H34L/cd-34"] "dg.H34L/ab-12"
           (VDict [("title", VStr "untitled")]) KeyError
           {| Downloader.count_dds := 0; Downloader.count_fields := 0 |}
           {| Downloader.count_dds := 0; Downloader.count_fields := 0 |}
           {| Downloader.wire := []; Downloader.written := [] |}
           {| Downloader.wire := []; Downloader.written := [] |});
    reflexivity.
Defined.

(** The downloader at work: one dictionary, fetched and dumped. *)
Example download_dds_one_dictionary :
  let run := Downloader.download_dds urljoin_plain sub_nonword_ascii example_mds [] in
  fst run = Ok {| Downloader.count_dds := 1; Downloader.count_fields := 1 |}
  /\ map wr_url (Downloader.wire (snd run))
     = ["https://preprod.healdata.org/mds/metadata?_guid_type=data_dictionary&limit=1000";
        "https://preprod.healdata.org/mds/metadata/dg.H34L/ab-12"]
  /\ map fst (Downloader.written (snd run))
     = ["data/dictionaries/dg_H34L_ab_12.json"].
Proof. vm_compute. repeat split. Qed.

(** * Requests of a whole run *)

Section RunRequests.
Context `{Runtime}.

Lemma normalizer_requests_kind (tokens : list value) (normalizer_calls : list call) :
  Forall2 normalizer_request tokens normalizer_calls ->
  filter is_recognizer_call normalizer_calls = [].
Proof.
  induction 1 as [| token c tokens ncalls (text & _ & _ & Hjson) _ IH];
    [reflexivity |].
  simpl. unfold is_recognizer_call at 1. rewrite Hjson. simpl. exact IH.
Qed.

Lemma annotate_text_recognizer_calls (text : string) (s s' : state)
  (res : result (list value)) :
  annotate_text text s = (res, s') ->
  exists new,
    calls s' = (calls s ++ new)%list
    /\ List.length (filter is_recognizer_call new) = 1%nat.
Proof.
  intros Hrun.
  destruct (post NEMOSERVE_ANNOTATE_ENDPOINT
              (request (VStr text) NEMOSERVE_MODEL_NAME) s) as [o s1] eqn:Hp.
  pose proof (post_calls _ _ _ _ _ Hp) as Hc.
  assert (Hdone : s' = s1 ->
                  exists new,
                    calls s' = (calls s ++ new)%list
                    /\ List.length (filter is_recognizer_call new) = 1%nat).
  { intros ->. eexists [_]. split; [exact Hc | reflexivity]. }
  destruct o as [r | e].
  - destruct (ok r) eqn:Hok.
    + rewrite (annotate_text_ok text s s1 r Hp Hok) in Hrun.
      destruct (tokens_of r) as [tokens | e].
      * destruct (annotate_tokens tokens [] s1) as [r0 s2] eqn:Hloop.
        destruct (annotate_tokens_calls _ _ _ _ _ Hloop)
          as (ncalls & Hcalls & _ & Hall).
        assert (s' = s2) by (destruct r0 as [[t | v] | e]; inversion Hrun; reflexivity).
        subst s2. eexists (_ :: ncalls). rewrite Hcalls, Hc, <- app_assoc.
        split; [reflexivity |]. simpl.
        rewrite (normalizer_requests_kind _ _ Hall). reflexivity.
      * apply Hdone. inversion Hrun. reflexivity.
    + rewrite (annotate_text_not_ok _ _ _ _ Hp Hok) in Hrun.
      apply Hdone. inversion Hrun. reflexivity.
  - rewrite (annotate_text_post_raises _ _ _ _ Hp) in Hrun.
    apply Hdone. inversion Hrun. reflexivity.
Qed.

Lemma annotate_field_recognizer_calls (filename : string) (field : value)
  (acc acc' : summary) (s s' : state) :
  annotate_field filename field acc s = (Ok acc', s') ->
  exists new,
    calls s' = (calls s ++ new)%list
    /\ count_fields acc'
       = (count_fields acc + List.length (filter is_recognizer_call new))%nat.
Proof.
  unfold annotate_field. rewrite bind_lift.
  destruct (text_to_annotate field) as [p | e]; [| discriminate].
  destruct (annotate_text (snd p) s) as [res s1] eqn:Hrun.
  destruct (annotate_text_recognizer_calls _ _ _ _ Hrun) as (new & Hc & Hone).
  intros Heq. exists new.
  destruct res as [annotations | e]; inversion Heq; subst; cbn;
    (split; [exact Hc | lia]).
Qed.

Lemma annotate_fields_recognizer_calls (filename : string) (fields : list value) :
  forall acc acc' s s',
  annotate_fields filename fields acc s = (Ok acc', s') ->
  exists new,
    calls s' = (calls s ++ new)%list
    /\ count_fields acc'
       = (count_fields acc + List.length (filter is_recognizer_call new))%nat.
Proof.
  induction fields as [| field rest IH]; intros acc acc' s s' Hrun.
  - simpl in Hrun. unfold ret in Hrun. inversion Hrun. subst.
    exists []. rewrite app_nil_r. simpl. split; [reflexivity | lia].
  - simpl in Hrun. unfold bind in Hrun.
    destruct (annotate_field filename field acc s) as [[acc1 | e] s1] eqn:Hf;
      [| discriminate].
    destruct (annotate_field_recognizer_calls _ _ _ _ _ _ Hf) as (new1 & Hc1 & Hn1).
    destruct (IH _ _ _ _ Hrun) as (new2 & Hc2 & Hn2).
    exists (new1 ++ new2)%list. rewrite Hc2, Hc1, <- app_assoc.
    split; [reflexivity |]. rewrite filter_app, length_app. lia.
Qed.

Lemma annotate_files_recognizer_calls (listing : list (string * option value)) :
  forall acc acc' s s',
  annotate_files listing acc s = (Ok acc', s') ->
  exists new,
    calls s' = (calls s ++ new)%list
    /\ count_fields acc'
       = (count_fields acc + List.length (filter is_recognizer_call new))%nat.
Proof.
  induction listing as [| entry rest IH]; intros acc acc' s s' Hrun.
  - simpl in Hrun. unfold ret in Hrun. inversion Hrun. subst.
    exists []. rewrite app_nil_r. simpl. split; [reflexivity | lia].
  - simpl in Hrun. unfold bind in Hrun.
    destruct (annotate_file entry acc s) as [[acc1 | e] s1] eqn:Hf; [| discriminate].
    assert (Hfile : exists new,
               calls s1 = (calls s ++ new)%list
               /\ count_fields acc1
                  = (count_fields acc
                     + List.length (filter is_recognizer_call new))%nat).
    { unfold annotate_file in Hf.
      destruct (negb (endswith (lower (fst entry)) ".json")).
      - unfold ret in Hf. inversion Hf. subst.
        exists []. rewrite app_nil_r. simpl. split; [reflexivity | lia].
      - rewrite bind_lift in Hf.
        destruct (json_load (snd entry)) as [doc | e]; [| discriminate].
        rewrite bind_lift in Hf.
        destruct (fields_of_doc doc) as [fs | e]; [| discriminate].
        rewrite bind_lift in Hf. destruct (len fs) as [n | e]; [| discriminate].
        rewrite bind_lift in Hf. destruct (iter fs) as [fields | e]; [| discriminate].
        destruct (annotate_fields_recognizer_calls _ _ _ _ _ _ Hf)
          as (new & Hc & Hn).
        exists new. cbn in Hn. auto. }
    destruct Hfile as (new1 & Hc1 & Hn1).
    destruct (IH _ _ _ _ Hrun) as (new2 & Hc2 & Hn2).
    exists (new1 ++ new2)%list. rewrite Hc2, Hc1, <- app_assoc.
    split; [reflexivity |]. rewrite filter_app, length_app. lia.
Qed.

(** X18.  A run that completes has sent exactly one request to the
    recognizer for each field it counted, and never loses an entry of the
    log it started with. *)
Theorem one_recognizer_request_per_field
  (listing : list (string * option value)) (s s' : state) (report : summary) :
  annotate_dds listing s = (Ok report, s') ->
  exists new,
    calls s' = (calls s ++ new)%list
    /\ List.length (filter is_recognizer_call new) = count_fields report.
Proof.
  intros Hrun. unfold annotate_dds in Hrun.
  destruct (annotate_files_recognizer_calls _ _ _ _ _ Hrun) as (new & Hc & Hn).
  exists new. cbn in Hn. split; [exact Hc | lia].
Qed.

End RunRequests.

Lemma one_recognizer_request_per_field_witness :
  let report := {| count_files := 3; count_fields := 4; count_annotations := 0;
                   unannotated_fields := ["a.json:age"; "b.json:bmi"; "c.json:id"] |} in
  exists new,
    @calls scripted
      (snd (@annotate_dds scripted example_listing (script example_script))) = new
    /\ List.length (filter is_recognizer_call new) = count_fields report.
Proof.
  intros report.
  assert (Hfst : fst (@annotate_dds scripted example_listing (script example_script))
                 = Ok report) by (vm_compute; reflexivity).
  assert (Hrun : @annotate_dds scripted example_listing (script example_script)
                 = (Ok report,
                    snd (@annotate_dds scripted example_listing (script example_script)))).
  { apply injective_projections; [exact Hfst | cbn [snd]; reflexivity]. }
  destruct (@one_recognizer_request_per_field scripted example_listing
              (script example_script) _ report Hrun) as (new & Hc & Hn).
  exists new. split; [exact Hc | exact Hn].
Defined.

(** * What is printed, what is returned *)

Section Printing.
Context `{Runtime}.

Lemma prints_format (v : value) : prints v (format v).
Proof.
  destruct v as [| b | z | x | str | l | d]; try constructor.
  destruct b; constructor.
Qed.

Lemma prints_functional (v : value) (printed : string) :
  prints v printed -> printed = format v.
Proof.
  intros Hp. inversion Hp; reflexivity.
Qed.

Lemma not_error_status_ok (r : response) : ~ error_status r -> ok r = true.
Proof.
  unfold error_status, ok. intros Hne.
  destruct (400 <=? status_code r)%Z eqn:Hlo;
    destruct (status_code r <? 600)%Z eqn:Hhi; try reflexivity.
  exfalso. apply Hne. lia.
Qed.

Lemma error_status_not_ok (r : response) : error_status r -> ok r = false.
Proof.
  unfold error_status, ok. intros [Hlo Hhi].
  apply Z.leb_le in Hlo. apply Z.ltb_lt in Hhi. rewrite Hlo, Hhi. reflexivity.
Qed.

Lemma dict_set_fresh (k : string) (v : value) (d : list (string * value)) :
  dict_get k d = None -> dict_set k v d = (d ++ [(k, v)])%list.
Proof.
  induction d as [| [k' v'] d IH]; simpl; [reflexivity |].
  destruct (String.eqb k k'); [discriminate |].
  intros Hd. rewrite (IH Hd). reflexivity.
Qed.

(** The lines of the encodings are determined by the encodings. *)
Lemma encoding_lines (encodings : list (string * value)) :
  Forall2
    (fun kv line =>
       exists printed,
         prints (snd kv) printed
         /\ line = fst kv ++ ": " ++ printed ++ String "010"%char EmptyString)
    encodings
    (map (fun kv => fst kv ++ ": " ++ format (snd kv) ++ nl) encodings).
Proof.
  induction encodings as [| kv rest IH]; simpl; constructor; [| exact IH].
  exists (format (snd kv)). split; [apply prints_format | reflexivity].
Qed.

Lemma encoding_lines_functional (encodings : list (string * value))
  (lines : list string) :
  Forall2
    (fun kv line =>
       exists printed,
         prints (snd kv) printed
         /\ line = fst kv ++ ": " ++ printed ++ String "010"%char EmptyString)
    encodings lines ->
  lines = map (fun kv => fst kv ++ ": " ++ format (snd kv) ++ nl) encodings.
Proof.
  induction 1 as [| kv line rest lines (printed & Hp & ->) _ IH]; simpl;
    [reflexivity |].
  rewrite (prints_functional _ _ Hp), IH. reflexivity.
Qed.

(** C9.  For a field whose name, description and type are strings (empty
    when absent), whose format, when present, is a string, and whose
    encodings are a mapping (empty when absent), the text sent to the
    annotator is computed without an exception and is the name, a colon and
    a space, the description, a line feed, and then one line for each
    encoding in the mapping's order: the key, a colon and a space, the value
    as an f-string prints it, and a line feed.  With an empty name, an empty
    description and no encodings the text is a colon, a space and a line
    feed. *)
Theorem text_to_annotate_layout (d : list (string * value))
  (name description type : string) (encodings : list (string * value)) :
  field_value d "name" (VStr "") = VStr name ->
  field_value d "description" (VStr "") = VStr description ->
  field_value d "type" (VStr "") = VStr type ->
  (dict_get "format" d = None \/ exists f, dict_get "format" d = Some (VStr f)) ->
  field_value d "encodings" (VDict []) = VDict encodings ->
  (exists lines,
      Forall2
        (fun kv line =>
           exists printed,
             prints (snd kv) printed
             /\ line = fst kv ++ ": " ++ printed ++ String "010"%char EmptyString)
        encodings lines
      /\ text_to_annotate (VDict d)
         = Ok (VStr name,
               name ++ ": " ++ description ++ String "010"%char EmptyString
                 ++ String.concat "" lines))
  /\ (name = "" -> description = "" -> encodings = [] ->
      text_to_annotate (VDict d)
      = Ok (VStr "", String ":" (String " " (String "010" EmptyString)))).
Proof.
  intros Hn Hd Ht Hf He.
  assert (Htext : text_to_annotate (VDict d)
                  = Ok (VStr name,
                        name ++ ": " ++ description ++ nl
                          ++ String.concat ""
                               (map (fun kv => fst kv ++ ": " ++ format (snd kv) ++ nl)
                                  encodings))).
  { unfold text_to_annotate.
    rewrite get_dict, Hn. cbn [rbind]. rewrite get_dict, Hd. cbn [rbind].
    rewrite type_format_dict, Ht.
    assert (Htf : exists tf,
               match dict_get "format" d with
               | None => Ok (VStr type)
               | Some (VStr f) => iadd_str (VStr type) (":" ++ f)
               | Some _ => Raise TypeError
               end = Ok tf).
    { destruct Hf as [Hf | [f Hf]]; rewrite Hf; simpl; eauto. }
    destruct Htf as [tf Htf]. rewrite Htf. cbn [rbind].
    rewrite get_dict, He. cbn [rbind items format].
    unfold encodings_as_str. rewrite encodings_fold. reflexivity. }
  split.
  - exists (map (fun kv => fst kv ++ ": " ++ format (snd kv) ++ nl) encodings).
    split; [apply encoding_lines | exact Htext].
  - intros -> -> ->. rewrite Htext. reflexivity.
Qed.

(** ** Every token matched *)

Lemma closest_match_of_shape (r : response) (c : list (string * value))
  (others : list value) (curie label distance_score : value) :
  json_body r = Some (VList (VDict c :: others)) ->
  dict_get "curie" c = Some curie ->
  dict_get "label" c = Some label ->
  dict_get "distance_score" c = Some distance_score ->
  closest_match_of r = Ok (curie, label, distance_score).
Proof.
  intros Hj Hc Hl Hs. unfold closest_match_of, json. rewrite Hj.
  cbn [rbind truthy negb len getitem0 getitem]. rewrite Hc, Hl, Hs. reflexivity.
Qed.

Lemma denotation_built (d : list (string * value))
  (curie label distance_score : value) :
  denotation_of (VDict d) (curie, label, distance_score)
    (VDict (dict_set "obj" (VStr (obj_of curie label distance_score)) d)).
Proof.
  exists d, (dict_set "obj" (VStr (obj_of curie label distance_score)) d),
    (format curie), (format label), (format distance_score).
  cbn [fst snd].
  split; [reflexivity |]. split; [reflexivity |].
  split; [apply prints_format |]. split; [apply prints_format |].
  split; [apply prints_format |].
  split; [apply dict_get_set_same |].
  split.
  - intros k Hk. apply dict_get_set_other. exact Hk.
  - intros Hfresh. apply dict_set_fresh. exact Hfresh.
Qed.

(** A token that had no [obj] determines its Denotation. *)
Lemma denotation_of_fresh (d : list (string * value))
  (curie label distance_score denotation : value) :
  denotation_of (VDict d) (curie, label, distance_score) denotation ->
  dict_get "obj" d = None ->
  denotation
  = VDict (d ++ [("obj",
                  VStr ("MESH:" ++ format curie ++ " (" ++ format label
                          ++ ", score: " ++ format distance_score ++ ")"))])%list.
Proof.
  intros (d' & dd & c & l & sc & Hd & -> & Hc & Hl & Hs & _ & _ & Hfresh) Hnone.
  inversion Hd. subst d'. cbn [fst snd] in Hc, Hl, Hs.
  rewrite (Hfresh Hnone).
  rewrite (prints_functional _ _ Hc), (prints_functional _ _ Hl),
    (prints_functional _ _ Hs).
  reflexivity.
Qed.

Lemma annotate_tokens_matches (tokens : list value) (w w2 : World)
  (matches : list (value * value * value)) :
  normalizer_matches tokens w matches w2 ->
  forall track s,
  world s = w ->
  exists out s',
    annotate_tokens tokens track s = (Ok (Continue (track ++ out)%list), s')
    /\ world s' = w2
    /\ Forall3 denotation_of tokens matches out.
Proof.
  induction 1 as [w | token text r c others curie label score rest matches
                       w w1 w2 Htext Hne Hsend Hstatus Hj Hc Hl Hs _ IH];
    intros track s Hw.
  - exists [], s. rewrite app_nil_r. simpl. unfold ret.
    split; [reflexivity |]. split; [exact Hw | constructor].
  - subst w.
    pose proof (post_send SAPBERT_ANNOTATE_ENDPOINT
                  (request (VStr text) SAPBERT_MODEL_NAME) s (Ok r) w1 Hsend) as Hp.
    assert (Htruthy : truthy (VStr text) = true).
    { simpl. destruct (String.eqb text "") eqn:He; [| reflexivity].
      apply String.eqb_eq in He. contradiction. }
    pose proof (annotate_token_ok token (VStr text) track s _ r Htext Htruthy Hp
                  (not_error_status_ok r Hstatus)) as Hturn.
    rewrite (closest_match_of_shape r c others curie label score Hj Hc Hl Hs)
      in Hturn.
    match type of Hturn with
    | _ = (_, ?s1) =>
        destruct (IH (track ++ [VDict (dict_set "obj"
                                         (VStr (obj_of curie label score))
                                         token)])%list
                    s1 eq_refl) as (out & s' & Hrun & Hw2 & Hall)
    end.
    exists (VDict (dict_set "obj" (VStr (obj_of curie label score)) token) :: out), s'.
    cbn [annotate_tokens]. rewrite (bind_ok _ _ _ _ _ Hturn), Hrun.
    rewrite <- app_assoc.
    split; [reflexivity |]. split; [exact Hw2 |].
    constructor; [apply denotation_built | exact Hall].
Qed.

(** C3.  When the recognizer answers with a response that is not an error
    and whose body lists N tokens, each with a non-empty text, and the
    normalizer answers the request for each token, in turn, with a response
    that is not an error and whose body is a non-empty candidate list, then
    [annotate_text] returns N Denotations in token order.  Each is a copy of
    its token with an [obj] added, which reads [MESH:], the curie of the
    first candidate, a space, and in parentheses its label, [, score: ] and
    its distance score. *)
Theorem every_token_matched_gives_one_denotation_each
  (text : string) (s : state) (r : response) (w1 w2 : World)
  (body : list (string * value)) (tokens : list value)
  (matches : list (value * value * value)) :
  send NEMOSERVE_ANNOTATE_ENDPOINT
    (VDict [("text", VStr text); ("model_name", VStr "token_classification")])
    (world s) = (Ok r, w1) ->
  ~ error_status r ->
  json_body r = Some (VDict body) ->
  dict_get "denotations" body = Some (VList tokens) ->
  normalizer_matches tokens w1 matches w2 ->
  exists denotations s',
    annotate_text text s = (Ok denotations, s')
    /\ world s' = w2
    /\ List.length denotations = List.length tokens
    /\ Forall3 denotation_of tokens matches denotations.
Proof.
  intros Hsend Hstatus Hj Hden Hmatches.
  pose proof (post_send NEMOSERVE_ANNOTATE_ENDPOINT
                (request (VStr text) NEMOSERVE_MODEL_NAME) s (Ok r) w1 Hsend) as Hp.
  match type of Hp with
  | _ = (_, ?s1) =>
      destruct (annotate_tokens_matches tokens w1 w2 matches Hmatches [] s1 eq_refl)
        as (out & s' & Hrun & Hw2 & Hall)
  end.
  exists out, s'.
  rewrite (annotate_text_ok text s _ r Hp (not_error_status_ok r Hstatus)).
  unfold tokens_of, json. rewrite Hj. cbn [rbind getitem]. rewrite Hden.
  cbn [rbind iter]. rewrite Hrun.
  split; [reflexivity |]. split; [exact Hw2 |]. split; [| exact Hall].
  clear - Hall. induction Hall; simpl; [reflexivity | congruence].
Qed.

End Printing.

Lemma text_to_annotate_layout_witness :
  @text_to_annotate scripted
    (VDict [("name", VStr "sex"); ("description", VStr "Sex at birth");
            ("type", VStr "integer"); ("format", VStr "enum");
            ("encodings",
             VDict [("1", VStr "Male"); ("2", VInt 2); ("3", VNone);
                    ("4", VBool true); ("5", VInt (-7));
                    ("6", VList [VStr "a"])])])
  = Ok (VStr "sex",
        "sex: Sex at birth" ++ String "010" ""
          ++ "1: Male" ++ String "010" ""
          ++ "2: 2" ++ String "010" ""
          ++ "3: None" ++ String "010" ""
          ++ "4: True" ++ String "010" ""
          ++ "5: -7" ++ String "010" ""
          ++ "6: <repr>" ++ String "010" "").
Proof.
  destruct (@text_to_annotate_layout scripted
              [("name", VStr "sex"); ("description", VStr "Sex at birth");
               ("type", VStr "integer"); ("format", VStr "enum");
               ("encodings",
                VDict [("1", VStr "Male"); ("2", VInt 2); ("3", VNone);
                       ("4", VBool true); ("5", VInt (-7));
                       ("6", VList [VStr "a"])])]
              "sex" "Sex at birth" "integer"
              [("1", VStr "Male"); ("2", VInt 2); ("3", VNone);
               ("4", VBool true); ("5", VInt (-7)); ("6", VList [VStr "a"])]
              eq_refl eq_refl eq_refl
              (or_intror (ex_intro _ "enum" eq_refl)) eq_refl)
    as [(lines & Hlines & Htext) _].
  rewrite Htext, (encoding_lines_functional _ _ Hlines). reflexivity.
Defined.

Lemma every_token_matched_gives_one_denotation_each_witness :
  fst (@annotate_text scripted "pain: Pain or fever"
         (script [Ok (recognized [token_of "pain"; token_of "fever"]);
                  Ok (respond 200
                        (Some (VList [candidate "D010146" "Pain" 0.25%float;
                                      candidate "D005334" "Fever" 0.5%float])));
                  Ok (respond 200
                        (Some (VList [VDict [("curie", VStr "D005334");
                                             ("label", VStr "Fever");
                                             ("distance_score", VInt 1)]])))]))
  = Ok [VDict [("text", VStr "pain");
               ("span", VDict [("begin", VInt 0); ("end", VInt 4)]);
               ("obj", VStr "MESH:D010146 (Pain, score: <repr>)")];
        VDict [("text", VStr "fever");
               ("span", VDict [("begin", VInt 0); ("end", VInt 4)]);
               ("obj", VStr "MESH:D005334 (Fever, score: 1)")]].
Proof.
  destruct (@every_token_matched_gives_one_denotation_each scripted
              "pain: Pain or fever"
              (script [Ok (recognized [token_of "pain"; token_of "fever"]);
                       Ok (respond 200
                             (Some (VList [candidate "D010146" "Pain" 0.25%float;
                                           candidate "D005334" "Fever" 0.5%float])));
                       Ok (respond 200
                             (Some (VList [VDict [("curie", VStr "D005334");
                                                  ("label", VStr "Fever");
                                                  ("distance_score", VInt 1)]])))])
              (recognized [token_of "pain"; token_of "fever"])
              [Ok (respond 200
                     (Some (VList [candidate "D010146" "Pain" 0.25%float;
                                   candidate "D005334" "Fever" 0.5%float])));
               Ok (respond 200
                     (Some (VList [VDict [("curie", VStr "D005334");
                                          ("label", VStr "Fever");
                                          ("distance_score", VInt 1)]])))]
              []
              [("denotations", VList [token_of "pain"; token_of "fever"])]
              [token_of "pain"; token_of "fever"]
              [(VStr "D010146", VStr "Pain", VFloat 0.25%float);
               (VStr "D005334", VStr "Fever", VInt 1)])
    as (denotations & s' & Hrun & _ & _ & Hall).
  - reflexivity.
  - unfold error_status. simpl. lia.
  - reflexivity.
  - reflexivity.
  - eapply (@matches_cons scripted) with (text := "pain");
      [reflexivity | discriminate | reflexivity | unfold error_status; simpl; lia
      | reflexivity | reflexivity | reflexivity | reflexivity |].
    eapply (@matches_cons scripted) with (text := "fever");
      [reflexivity | discriminate | reflexivity | unfold error_status; simpl; lia
      | reflexivity | reflexivity | reflexivity | reflexivity |].
    apply (@matches_nil scripted).
  - rewrite Hrun. cbn [fst].
    inversion Hall as [| t1 m1 d1 ts ms ds H1 Hrest]; subst.
    inversion Hrest as [| t2 m2 d2 ts2 ms2 ds2 H2 Hnil]; subst.
    inversion Hnil; subst.
    rewrite (@denotation_of_fresh scripted _ _ _ _ _ H1 eq_refl).
    rewrite (@denotation_of_fresh scripted _ _ _ _ _ H2 eq_refl).
    reflexivity.
Defined.

(** * The batch run, field by field *)

Section Run.
Context `{Runtime}.

Lemma annotate_field_outcome (filename : string) (field : value)
  (acc : summary) (s s1 : state) (prepared : value * string)
  (o : result (list value)) :
  text_to_annotate field = Ok prepared ->
  annotate_text (snd prepared) s = (o, s1) ->
  exists acc',
    annotate_field filename field acc s = (Ok acc', s1)
    /\ count_files acc' = count_files acc
    /\ count_fields acc' = S (count_fields acc)
    /\ count_annotations acc'
       = (count_annotations acc
          + returned_count {| in_file := filename; named := fst prepared;
                              returned := o |})%nat
    /\ unannotated_fields acc'
       = (unannotated_fields acc
          ++ map (fun o => field_id (in_file o) (named o))
               (filter returned_nothing
                  [{| in_file := filename; named := fst prepared;
                      returned := o |}]))%list.
Proof.
  intros Ht Ha. unfold annotate_field. rewrite bind_lift, Ht, Ha.
  destruct o as [annotations | e]; eexists; (split; [reflexivity |]);
    unfold returned_count, returned_nothing; cbn.
  - split; [reflexivity |]. split; [reflexivity |]. split.
    + apply count_logged_all. exact (annotate_text_denotations _ _ _ _ Ha).
    + destruct annotations; cbn; [reflexivity | rewrite app_nil_r; reflexivity].
  - rewrite Nat.add_0_r, app_nil_r. auto 10.
Qed.

Lemma annotate_fields_outcomes (filename : string) (fields : list value) :
  Forall (fun field => exists p, text_to_annotate field = Ok p) fields ->
  forall acc s outcomes s',
  fields_outcomes filename fields s = (outcomes, s') ->
  exists acc',
    annotate_fields filename fields acc s = (Ok acc', s')
    /\ count_files acc' = count_files acc
    /\ count_fields acc' = (count_fields acc + List.length outcomes)%nat
    /\ List.length outcomes = List.length fields
    /\ count_annotations acc'
       = (count_annotations acc + list_sum (map returned_count outcomes))%nat
    /\ unannotated_fields acc'
       = (unannotated_fields acc
          ++ map (fun o => field_id (in_file o) (named o))
               (filter returned_nothing outcomes))%list.
Proof.
  induction 1 as [| field rest [prepared Ht] _ IH]; intros acc s outcomes s' Hout.
  - simpl in Hout. inversion Hout. subst. exists acc. simpl. unfold ret.
    rewrite !Nat.add_0_r, app_nil_r. auto 10.
  - simpl in Hout. rewrite Ht in Hout.
    destruct (annotate_text (snd prepared) s) as [o s1] eqn:Ha.
    destruct (fields_outcomes filename rest s1) as [others s2] eqn:Hrest.
    inversion Hout. subst.
    destruct (annotate_field_outcome filename field acc s s1 prepared o Ht Ha)
      as (acc1 & Hrun1 & Hfiles1 & Hfields1 & Hcount1 & Hlist1).
    destruct (IH acc1 s1 others s' Hrest)
      as (acc2 & Hrun2 & Hfiles2 & Hfields2 & Hlen2 & Hcount2 & Hlist2).
    exists acc2. cbn [annotate_fields]. rewrite (bind_ok _ _ _ _ _ Hrun1), Hrun2.
    split; [reflexivity |]. split; [congruence |].
    split; [cbn [List.length]; lia |]. split; [cbn [List.length]; lia |].
    split.
    + rewrite Hcount2, Hcount1. cbn [map]. unfold list_sum. cbn [fold_right]. lia.
    + rewrite Hlist2, Hlist1, <- app_assoc, <- map_app.
      change ({| in_file := filename; named := fst prepared; returned := o |}
                :: others)
        with ([{| in_file := filename; named := fst prepared; returned := o |}]
                ++ others)%list.
      rewrite filter_app. reflexivity.
Qed.

Lemma annotate_file_outcomes (entry : string * option value)
  (fields : list value) :
  entry_fields entry = Ok fields ->
  Forall (fun field => exists p, text_to_annotate field = Ok p) fields ->
  forall acc s outcomes s',
  fields_outcomes (fst entry) (fields_in entry) s = (outcomes, s') ->
  exists acc',
    annotate_file entry acc s = (Ok acc', s')
    /\ count_files acc'
       = (count_files acc + if is_json entry then 1 else 0)%nat
    /\ count_fields acc' = (count_fields acc + List.length outcomes)%nat
    /\ List.length outcomes = List.length (fields_in entry)
    /\ count_annotations acc'
       = (count_annotations acc + list_sum (map returned_count outcomes))%nat
    /\ unannotated_fields acc'
       = (unannotated_fields acc
          ++ map (fun o => field_id (in_file o) (named o))
               (filter returned_nothing outcomes))%list.
Proof.
  intros Hentry Hprep acc s outcomes s' Hout.
  rewrite (fields_in_ok _ _ Hentry) in *.
  unfold entry_fields in Hentry. unfold annotate_file. fold (is_json entry).
  destruct (is_json entry) eqn:Hjson; cbn [negb] in *.
  - rewrite bind_lift.
    destruct (json_load (snd entry)) as [doc | e]; cbn [rbind] in Hentry;
      [| discriminate].
    rewrite bind_lift.
    destruct (fields_of_doc doc) as [fs | e]; cbn [rbind] in Hentry; [| discriminate].
    rewrite bind_lift.
    destruct (len fs) as [n | e]; cbn [rbind] in Hentry; [| discriminate].
    rewrite bind_lift, Hentry.
    destruct (annotate_fields_outcomes (fst entry) fields Hprep
                {| count_files := S (count_files acc);
                   count_fields := count_fields acc;
                   count_annotations := count_annotations acc;
                   unannotated_fields := unannotated_fields acc |}
                s outcomes s' Hout)
      as (acc' & Hrun & Hfiles & Hfields & Hlen & Hcount & Hlist).
    exists acc'. cbn in Hfiles, Hfields, Hcount, Hlist.
    split; [exact Hrun |]. split; [lia |]. auto 10.
  - inversion Hentry. subst fields. simpl in Hout. inversion Hout. subst.
    exists acc. unfold ret. simpl. rewrite !Nat.add_0_r, app_nil_r. auto 10.
Qed.

Lemma annotate_files_outcomes (listing : list (string * option value)) :
  readable listing ->
  forall acc s outcomes s',
  run_outcomes listing s = (outcomes, s') ->
  exists acc',
    annotate_files listing acc s = (Ok acc', s')
    /\ count_files acc'
       = (count_files acc + List.length (filter is_json listing))%nat
    /\ count_fields acc' = (count_fields acc + List.length outcomes)%nat
    /\ List.length outcomes = List.length (flat_map fields_in listing)
    /\ count_annotations acc'
       = (count_annotations acc + list_sum (map returned_count outcomes))%nat
    /\ unannotated_fields acc'
       = (unannotated_fields acc
          ++ map (fun o => field_id (in_file o) (named o))
               (filter returned_nothing outcomes))%list.
Proof.
  induction 1 as [| entry rest [fields [Hentry Hprep]] _ IH];
    intros acc s outcomes s' Hout.
  - simpl in Hout. inversion Hout. subst. exists acc. simpl. unfold ret.
    rewrite !Nat.add_0_r, app_nil_r. auto 10.
  - simpl in Hout.
    destruct (fields_outcomes (fst entry) (fields_in entry) s) as [first s1] eqn:Hfirst.
    destruct (run_outcomes rest s1) as [others s2] eqn:Hrest.
    inversion Hout. subst.
    destruct (annotate_file_outcomes entry fields Hentry Hprep acc s first s1 Hfirst)
      as (acc1 & Hrun1 & Hfiles1 & Hfields1 & Hlen1 & Hcount1 & Hlist1).
    destruct (IH acc1 s1 others s' Hrest)
      as (acc2 & Hrun2 & Hfiles2 & Hfields2 & Hlen2 & Hcount2 & Hlist2).
    exists acc2. cbn [annotate_files]. rewrite (bind_ok _ _ _ _ _ Hrun1), Hrun2.
    split; [reflexivity |].
    split.
    { rewrite Hfiles2, Hfiles1. cbn [filter].
      destruct (is_json entry); cbn [List.length]; lia. }
    split; [rewrite length_app; lia |].
    split; [cbn [flat_map]; rewrite !length_app; lia |].
    split.
    + rewrite Hcount2, Hcount1, map_app, list_sum_app. lia.
    + rewrite Hlist2, Hlist1, <- app_assoc, <- map_app, filter_app. reflexivity.
Qed.

Lemma listed_as_field_id (outcomes : list outcome) :
  Forall2 listed_as outcomes
    (map (fun o => field_id (in_file o) (named o)) outcomes).
Proof.
  induction outcomes as [| o rest IH]; simpl; constructor; [| exact IH].
  exists (format (named o)). split; [apply prints_format | reflexivity].
Qed.


End Run.



(** * Responses that are not what the annotator expects *)

Section Malformed.
Context `{Runtime}.

Lemma tokens_of_shape (r : response) (body : list (string * value))
  (tokens : list value) :
  json_body r = Some (VDict body) ->
  dict_get "denotations" body = Some (VList tokens) ->
  tokens_of r = Ok tokens.
Proof.
  intros Hj Hd. unfold tokens_of, json. rewrite Hj. cbn [rbind getitem].
  rewrite Hd. reflexivity.
Qed.

(** A recognizer body of another shape cannot be read, or its first token
    cannot. *)
Lemma bad_recognizer_body (r : response) :
  ~ recognizer_shape r ->
  ~ empty_denotations r ->
  (exists e, tokens_of r = Raise e)
  \/ (exists token rest e,
         tokens_of r = Ok (token :: rest) /\ getitem token "text" = Raise e).
Proof.
  intros Hshape Hempty. unfold tokens_of, json.
  destruct (json_body r) as [annotated |] eqn:Hj; cbn [rbind]; [| eauto].
  destruct annotated as [| b | z | x | str | l | d]; cbn [getitem rbind]; eauto.
  destruct (dict_get "denotations" d) as [denotations |] eqn:Hd; cbn [rbind];
    [| eauto].
  destruct denotations as [| b | z | x | str | l | d']; cbn [iter]; eauto.
  - destruct str as [| c str].
    + exfalso. apply Hempty. exists d. auto.
    + right. unfold chars. cbn [list_ascii_of_string map].
      do 3 eexists. split; reflexivity.
  - exfalso. apply Hshape. exists d, l. auto.
  - destruct d' as [| [k v] d'].
    + exfalso. apply Hempty. exists d. auto.
    + right. cbn [map]. do 3 eexists. split; reflexivity.
Qed.

Lemma bad_token (token : value) :
  ~ token_shape token -> exists e, getitem token "text" = Raise e.
Proof.
  intros Hshape.
  destruct token as [| b | z | x | str | l | d]; cbn [getitem]; eauto.
  destruct (dict_get "text" d) as [text |] eqn:Hd; [| eauto].
  exfalso. apply Hshape. exists d, text. auto.
Qed.

(** A normalizer body of another shape cannot be read. *)
Lemma bad_normalizer_body (r : response) :
  ~ normalizer_shape r -> exists e, closest_match_of r = Raise e.
Proof.
  intros Hshape. unfold closest_match_of, json.
  destruct (json_body r) as [result |] eqn:Hj; cbn [rbind]; [| eauto].
  destruct (truthy result) eqn:Htruthy; cbn [negb]; [| eauto].
  destruct result as [| b | z | x | str | l | d]; cbn [len rbind]; eauto.
  - destruct str as [| c str]; [discriminate |]. cbn [getitem0 rbind getitem]. eauto.
  - destruct l as [| closest others]; [discriminate |]. cbn [getitem0 rbind].
    destruct closest as [| b | z | x | str | l | d]; cbn [getitem rbind]; eauto.
    destruct (dict_get "curie" d) as [curie |] eqn:Hc; cbn [rbind]; [| eauto].
    destruct (dict_get "label" d) as [label |] eqn:Hl; cbn [rbind]; [| eauto].
    destruct (dict_get "distance_score" d) as [score |] eqn:Hs; cbn [rbind];
      [| eauto].
    exfalso. apply Hshape. exists d, others, curie, label, score. auto.
  - destruct d as [| kv d]; [discriminate |]. cbn [getitem0 rbind]. eauto.
Qed.

Lemma recognizer_body_unreadable (text : string) (s s1 : state) (r : response) :
  post NEMOSERVE_ANNOTATE_ENDPOINT (request (VStr text) NEMOSERVE_MODEL_NAME) s
    = (Ok r, s1) ->
  ~ error_status r ->
  ~ recognizer_shape r ->
  ~ empty_denotations r ->
  exists e, annotate_text text s = (Raise e, s1).
Proof.
  intros Hp Hstatus Hshape Hempty.
  pose proof (not_error_status_ok r Hstatus) as Hok.
  destruct (bad_recognizer_body r Hshape Hempty)
    as [[e Htok] | (token & rest & e & Htok & Htext)]; exists e.
  - rewrite (annotate_text_ok text s s1 r Hp Hok), Htok. reflexivity.
  - apply (annotate_text_raises_at text s s1 s1 s1 r [] rest [] token e Hp Hok Htok);
      [reflexivity |].
    apply annotate_token_no_text. exact Htext.
Qed.

Lemma recognizer_body_empty (text : string) (s s1 : state) (r : response) :
  post NEMOSERVE_ANNOTATE_ENDPOINT (request (VStr text) NEMOSERVE_MODEL_NAME) s
    = (Ok r, s1) ->
  ~ error_status r ->
  empty_denotations r ->
  annotate_text text s = (Ok [], s1).
Proof.
  intros Hp Hstatus (d & Hj & Hd).
  rewrite (annotate_text_ok text s s1 r Hp (not_error_status_ok r Hstatus)).
  unfold tokens_of, json. rewrite Hj. cbn [rbind getitem].
  destruct Hd as [Hd | Hd]; rewrite Hd; reflexivity.
Qed.

(** What the turn for a token does to the call, once the loop has reached
    the token. *)
Lemma reached_token (text : string) (s s1 s2 : state) (r : response)
  (body : list (string * value)) (pre rest track : list value) (token : value) :
  post NEMOSERVE_ANNOTATE_ENDPOINT (request (VStr text) NEMOSERVE_MODEL_NAME) s
    = (Ok r, s1) ->
  ~ error_status r ->
  json_body r = Some (VDict body) ->
  dict_get "denotations" body = Some (VList (pre ++ token :: rest)) ->
  annotate_tokens pre [] s1 = (Ok (Continue track), s2) ->
  (forall e s3, annotate_token token track s2 = (Raise e, s3) ->
                annotate_text text s = (Raise e, s3))
  /\ (forall v s3, annotate_token token track s2 = (Ok (Return v), s3) ->
                   annotate_text text s = (Ok v, s3)).
Proof.
  intros Hp Hstatus Hj Hd Hpre.
  pose proof (not_error_status_ok r Hstatus) as Hok.
  pose proof (tokens_of_shape r body _ Hj Hd) as Htok.
  split.
  - intros e s3 Hturn.
    exact (annotate_text_raises_at text s s1 s2 s3 r pre rest track token e
             Hp Hok Htok Hpre Hturn).
  - intros v s3 Hturn.
    exact (annotate_text_returns_at text s s1 s2 s3 r pre rest track v token
             Hp Hok Htok Hpre Hturn).
Qed.

Lemma truthy_text (t : string) : t <> "" -> truthy (VStr t) = true.
Proof.
  intros Hne. simpl. destruct (String.eqb t "") eqn:He; [| reflexivity].
  apply String.eqb_eq in He. contradiction.
Qed.

End Malformed.




(** * The recognizer's failure over the wire *)




(** * The retry policy *)




(** X9.  A POST through the session, with a body that can be written as
    JSON, whose first reply has a status that is not on the policy's list,
    does not ask to be retried later with a status the policy honours for
    that, and is not a redirect, is handed back after a single attempt and
    without a pause. *)
Theorem session_hands_back_other_statuses (srv : server) (url : string)
  (body : value) (wire : list wire_request) (r : response) :
  let req := {| wr_method := POST; wr_url := url; wr_json := Some body |} in
  finite_json body = true ->
  srv (wire ++ [req])%list = Answer r ->
  mem_Z (status_code r) (status_forcelist adapter) = false ->
  retry_after r = false \/ mem_Z (status_code r) RETRY_AFTER_STATUS_CODES = false ->
  redirect_target r = None ->
  session_post srv url body wire = (Ok r, (wire ++ [req])%list)
  /\ session_post_pauses srv url body wire = [].
Proof.
  intros req Hfin Hsrv Hlist Hlater Hnot.
  unfold session_post, session_post_pauses.
  rewrite (session_post_once srv url body wire r Hfin Hsrv Hlist Hlater Hnot).
  split; reflexivity.
Qed.

Lemma session_hands_back_other_statuses_witness :
  session_post (always (Answer (respond 404 None))) default_nemoserve
    (request (VStr "pain") NEMOSERVE_MODEL_NAME) []
  = (Ok (respond 404 None),
     [{| wr_method := POST; wr_url := default_nemoserve;
         wr_json := Some (request (VStr "pain") NEMOSERVE_MODEL_NAME) |}]).
Proof.
  destruct (session_hands_back_other_statuses
              (always (Answer (respond 404 None))) default_nemoserve
              (request (VStr "pain") NEMOSERVE_MODEL_NAME) [] (respond 404 None)
              eq_refl eq_refl eq_refl (or_introl eq_refl) eq_refl)
    as [Hrun _].
  exact Hrun.
Defined.

(** ** The session at work *)

(** A body with a NaN in it cannot be written as JSON: the call raises
    before anything is sent. *)
Example session_post_nan :
  session_post (always (Answer (respond 200 None))) default_sapbert
    (request (VFloat PrimFloat.nan) SAPBERT_MODEL_NAME) []
  = (Raise InvalidJSONError, []).
Proof. vm_compute. reflexivity. Qed.

(** A redirect is followed: a POST answered 302 is sent again as a GET
    without its body, to the address the redirect names. *)
Example session_post_redirected :
  let moved := {| status_code := 302; json_body := None; retry_after := false;
                  location := Some "https://example.org/annotate/" |} in
  session_post (in_turn [Answer moved; Answer (respond 200 (Some (VList [])))])
    default_sapbert (request (VStr "pain") SAPBERT_MODEL_NAME) []
  = (Ok (respond 200 (Some (VList []))),
     [{| wr_method := POST; wr_url := default_sapbert;
         wr_json := Some (request (VStr "pain") SAPBERT_MODEL_NAME) |};
      {| wr_method := GET; wr_url := "https://example.org/annotate/";
         wr_json := None |}]).
Proof. vm_compute. reflexivity. Qed.

(** The downloader's GET follows a redirect too, and a server that
    redirects for ever is given up on after thirty redirects have been
    followed. *)
Example requests_get_redirected :
  let moved := {| status_code := 301; json_body := None; retry_after := false;
                  location := Some "https://example.org/mds/" |} in
  requests_get (in_turn [Answer moved; Answer (respond 200 (Some (VList [])))])
    (DD_LIST_ENDPOINT 1000) []
  = (Ok (respond 200 (Some (VList []))),
     [{| wr_method := GET; wr_url := DD_LIST_ENDPOINT 1000; wr_json := None |};
      {| wr_method := GET; wr_url := "https://example.org/mds/"; wr_json := None |}])
  /\ fst (requests_get (always (Answer moved)) (DD_LIST_ENDPOINT 1000) [])
     = Raise TooManyRedirects
  /\ List.length (snd (requests_get (always (Answer moved))
                         (DD_LIST_ENDPOINT 1000) []))
     = 31%nat.
Proof. cbv zeta. split; [| split]; vm_compute; reflexivity. Qed.
